(** * ControlBombas: supervisory control of two pumps

    Shallow embedding of [ControlBombas.py] (pump class [Bomba], the
    manual/automatic arbitration functions, the fault supervisor
    [verificar_falla] and the polling loop [main]).

    Conventions of the model:
    - Python [int] is [Z]; the [float] values of this program (currents
      with one decimal, temperatures) are modelled by exact rationals ([Q]):
      the binary rounding error of the float operations is not modelled
      here, and there is no negative zero;
    - Python [str] is [string], one [ascii] per code point (all code points
      of the program's messages are below 256);
    - the hardware collaborators (input pins, ADC, one-wire bus) are oracles
      indexed by the number of reads made so far; relay, LCD and sleep calls
      are recorded as a trace of events;
    - every function of the source is a computation in a monad that threads
      the program variables, collects the emitted events and may raise. *)

From Stdlib Require Import ZArith QArith Qround String Ascii List Bool Lia Lqa.
From Stdlib Require DecimalString Floats Uint63.
Import ListNotations.
Open Scope Z_scope.

(** ** Data model *)

Inductive id_bomba : Type := B1 | B2.

(** Attributes of [class Bomba], in the order of [__init__]. *)
Record Bomba : Type := mkBomba {
  numero : Z;
  tension : Z;
  corriente_nominal : Q;
  potencia : Q;
  id_temp : list Z;
  corriente_falla : Q;
  temp_falla : Z;
  pin_rele : Z;
  pin_sensor : Z;
  estado_bomba : bool;
  estado_falla : bool;
  corriente : Q;
  temperatura : Z
}.

Definition con_estado_bomba (v : bool) (b : Bomba) : Bomba :=
  mkBomba (numero b) (tension b) (corriente_nominal b) (potencia b) (id_temp b)
          (corriente_falla b) (temp_falla b) (pin_rele b) (pin_sensor b)
          v (estado_falla b) (corriente b) (temperatura b).

Definition con_estado_falla (v : bool) (b : Bomba) : Bomba :=
  mkBomba (numero b) (tension b) (corriente_nominal b) (potencia b) (id_temp b)
          (corriente_falla b) (temp_falla b) (pin_rele b) (pin_sensor b)
          (estado_bomba b) v (corriente b) (temperatura b).

Definition con_corriente (v : Q) (b : Bomba) : Bomba :=
  mkBomba (numero b) (tension b) (corriente_nominal b) (potencia b) (id_temp b)
          (corriente_falla b) (temp_falla b) (pin_rele b) (pin_sensor b)
          (estado_bomba b) (estado_falla b) v (temperatura b).

Definition con_temperatura (v : Z) (b : Bomba) : Bomba :=
  mkBomba (numero b) (tension b) (corriente_nominal b) (potencia b) (id_temp b)
          (corriente_falla b) (temp_falla b) (pin_rele b) (pin_sensor b)
          (estado_bomba b) (estado_falla b) (corriente b) v.

(** [Bomba(numero, id_temp, corriente_falla, pin_rele, pin_sensor)] with the
    defaults [temp_falla = 70], [tension = 380], [corriente_nominal = 0],
    [potencia = 0]. *)
Definition Bomba_init (numero : Z) (id_temp : list Z) (corriente_falla : Q)
    (pin_rele pin_sensor : Z) : Bomba :=
  mkBomba numero 380 0 0 id_temp corriente_falla 70 pin_rele pin_sensor
          false false 0 0.

(** Digital inputs of the board. *)
Inductive pin_entrada : Type := PinManual | PinFlotante | PinBomba1.

(** What the program does to the outside world, in program order. *)
Inductive evento : Type :=
| EvRele (n : id_bomba) (encendido : bool)
| EvSleep (ms : Z)
| EvLcdClear
| EvLcdMoveTo (x y : Z)
| EvLcdPutstr (s : string)
| EvPin (p : pin_entrada) (v : bool)
| EvADC (raw : Z)
| EvConvertTemp
| EvReadTemp (rom : list Z)
| EvOwReset.

(** The oracles: the [k]-th read of each device. [ow_convert k = false] and
    [ow_read k rom = None] are the reads on which the one-wire driver
    raises. *)
Record Entradas : Type := mkEntradas {
  pin_value : pin_entrada -> nat -> bool;
  adc26 : nat -> Z;
  ow_convert : nat -> bool;
  ow_read : nat -> list Z -> option Q
}.

(** Module-level variables ([b1], [b2], [ciclo], [flotante_previo]) and the
    number of reads made so far on each device. *)
Record Sistema : Type := mkSistema {
  b1 : Bomba;
  b2 : Bomba;
  ciclo : Z;
  flotante_previo : bool;
  n_manual : nat;
  n_flotante : nat;
  n_bomba1 : nat;
  n_adc : nat;
  n_convert : nat;
  n_read : nat
}.

Definition bomba (i : id_bomba) (s : Sistema) : Bomba :=
  match i with B1 => b1 s | B2 => b2 s end.

Definition con_bomba (i : id_bomba) (f : Bomba -> Bomba) (s : Sistema) : Sistema :=
  match i with
  | B1 => mkSistema (f (b1 s)) (b2 s) (ciclo s) (flotante_previo s) (n_manual s)
                    (n_flotante s) (n_bomba1 s) (n_adc s) (n_convert s) (n_read s)
  | B2 => mkSistema (b1 s) (f (b2 s)) (ciclo s) (flotante_previo s) (n_manual s)
                    (n_flotante s) (n_bomba1 s) (n_adc s) (n_convert s) (n_read s)
  end.

Definition con_ciclo (v : Z) (s : Sistema) : Sistema :=
  mkSistema (b1 s) (b2 s) v (flotante_previo s) (n_manual s)
            (n_flotante s) (n_bomba1 s) (n_adc s) (n_convert s) (n_read s).

Definition con_flotante_previo (v : bool) (s : Sistema) : Sistema :=
  mkSistema (b1 s) (b2 s) (ciclo s) v (n_manual s)
            (n_flotante s) (n_bomba1 s) (n_adc s) (n_convert s) (n_read s).

Definition n_pin (p : pin_entrada) (s : Sistema) : nat :=
  match p with
  | PinManual => n_manual s
  | PinFlotante => n_flotante s
  | PinBomba1 => n_bomba1 s
  end.

Definition avanza_pin (p : pin_entrada) (s : Sistema) : Sistema :=
  match p with
  | PinManual =>
      mkSistema (b1 s) (b2 s) (ciclo s) (flotante_previo s) (S (n_manual s))
                (n_flotante s) (n_bomba1 s) (n_adc s) (n_convert s) (n_read s)
  | PinFlotante =>
      mkSistema (b1 s) (b2 s) (ciclo s) (flotante_previo s) (n_manual s)
                (S (n_flotante s)) (n_bomba1 s) (n_adc s) (n_convert s) (n_read s)
  | PinBomba1 =>
      mkSistema (b1 s) (b2 s) (ciclo s) (flotante_previo s) (n_manual s)
                (n_flotante s) (S (n_bomba1 s)) (n_adc s) (n_convert s) (n_read s)
  end.

Definition avanza_adc (s : Sistema) : Sistema :=
  mkSistema (b1 s) (b2 s) (ciclo s) (flotante_previo s) (n_manual s)
            (n_flotante s) (n_bomba1 s) (S (n_adc s)) (n_convert s) (n_read s).

Definition avanza_convert (s : Sistema) : Sistema :=
  mkSistema (b1 s) (b2 s) (ciclo s) (flotante_previo s) (n_manual s)
            (n_flotante s) (n_bomba1 s) (n_adc s) (S (n_convert s)) (n_read s).

Definition avanza_read (s : Sistema) : Sistema :=
  mkSistema (b1 s) (b2 s) (ciclo s) (flotante_previo s) (n_manual s)
            (n_flotante s) (n_bomba1 s) (n_adc s) (n_convert s) (S (n_read s)).

(** [b1 = Bomba(1, unhexlify("280bb575d0013c92"), 13, 22, 6)],
    [b2 = Bomba(2, unhexlify("28de2775d0013c89"), 13, 21, 6)],
    [ciclo = 0], [flotante_previo = False]. *)
Definition estado_inicial : Sistema :=
  mkSistema
    (Bomba_init 1 [0x28; 0x0b; 0xb5; 0x75; 0xd0; 0x01; 0x3c; 0x92] 13 22 6)
    (Bomba_init 2 [0x28; 0xde; 0x27; 0x75; 0xd0; 0x01; 0x3c; 0x89] 13 21 6)
    0 false 0 0 0 0 0 0.

(** ** The monad: state, trace of events, exceptions *)

Inductive excepcion : Type := ValueError | OneWireError | CRCError.

Inductive resultado (A : Type) : Type :=
| Normal (a : A)
| Lanza (e : excepcion).
Arguments Normal {A} a.
Arguments Lanza {A} e.

Definition M (A : Type) : Type := Sistema -> resultado A * Sistema * list evento.

Definition ret {A : Type} (a : A) : M A := fun s => (Normal a, s, []).

Definition bind {A B : Type} (m : M A) (k : A -> M B) : M B :=
  fun s =>
    match m s with
    | (Normal a, s1, ev1) =>
        match k a s1 with
        | (r, s2, ev2) => (r, s2, ev1 ++ ev2)
        end
    | (Lanza e, s1, ev1) => (Lanza e, s1, ev1)
    end.

Definition raise {A : Type} (e : excepcion) : M A := fun s => (Lanza e, s, []).

(** [try: m  except: h], with a bare [except] that catches everything. *)
Definition try_except {A : Type} (m : M A) (h : M A) : M A :=
  fun s =>
    match m s with
    | (Normal a, s1, ev1) => (Normal a, s1, ev1)
    | (Lanza _, s1, ev1) =>
        match h s1 with
        | (r, s2, ev2) => (r, s2, ev1 ++ ev2)
        end
    end.

Definition gets {A : Type} (f : Sistema -> A) : M A := fun s => (Normal (f s), s, []).
Definition modify (f : Sistema -> Sistema) : M unit := fun s => (Normal tt, f s, []).
Definition emit (e : evento) : M unit := fun s => (Normal tt, s, [e]).

Declare Scope monad_scope.
Delimit Scope monad_scope with monad.
Notation "x <- m ;; k" := (bind m (fun x => k))
  (at level 61, m at next level, right associativity) : monad_scope.
Notation "m ;; k" := (bind m (fun _ => k))
  (at level 61, right associativity) : monad_scope.
Open Scope monad_scope.

(** ** Python builtins used by the program *)

(** [max(lista)]: the first greatest element; [ValueError] on [[]]. *)
Definition max_lista (lista : list Q) : option Q :=
  match lista with
  | [] => None
  | x :: xs => Some (fold_left (fun m y => if Qle_bool y m then m else y) xs x)
  end.

(** [round(q, 1)]: nearest multiple of 1/10, ties to even. *)
Definition round1 (q : Q) : Q :=
  let x := (q * 10)%Q in
  let f := Qfloor x in
  let r := (x - inject_Z f)%Q in
  let z := match (r ?= 1 # 2)%Q with
           | Lt => f
           | Gt => f + 1
           | Eq => if Z.even f then f else f + 1
           end in
  z # 10.

(** [int(q)]: truncation towards zero. *)
Definition int_of_float (q : Q) : Z := Z.quot (Qnum q) (Zpos (Qden q)).

(** [str(z)] for an [int]. *)
Definition str_int (z : Z) : string :=
  DecimalString.NilZero.string_of_int (Z.to_int z).

(** [str(q)] for a [float] with one decimal, as produced by [round1]. A
    rational has no negative zero: where the program holds [-0.0] (a current
    between -0.05 and 0 A) and prints ["-0.0"], the model holds [0] and
    prints ["0.0"]. *)
Definition str_float (q : Q) : string :=
  let d := Qfloor (q * 10)%Q in
  let signo := if d <? 0 then "-"%string else EmptyString in
  let entera := str_int (Z.abs d / 10) in
  let decimal := str_int (Z.abs d mod 10) in
  (signo ++ entera ++ "." ++ decimal)%string.

Fixpoint espacios (n : nat) : string :=
  match n with
  | O => EmptyString
  | S k => String " "%char (espacios k)
  end.

(** [s.center(width)]: [s] itself when it is at least [width] long, else
    padded with spaces, [left = marg // 2 + (marg & width & 1)]. *)
Definition center (s : string) (width : nat) : string :=
  let n := String.length s in
  if (width <=? n)%nat then s
  else
    let marg := (width - n)%nat in
    let left := (marg / 2 + (if Nat.odd marg && Nat.odd width then 1 else 0))%nat in
    (espacios left ++ s ++ espacios (marg - left))%string.

(** ** The program *)

Section Programa.

Variable ent : Entradas.

(** *** Collaborators *)

(** [pin.value()] on one of the three input pins. *)
Definition pin_read (p : pin_entrada) : M bool :=
  fun s =>
    let v := pin_value ent p (n_pin p s) in
    (Normal v, avanza_pin p s, [EvPin p v]).

(** [ADC(26).read_u16()]: an unsigned 16-bit sample. *)
Definition read_u16 : M Z :=
  fun s =>
    let raw := adc26 ent (n_adc s) mod 65536 in
    (Normal raw, avanza_adc s, [EvADC raw]).

(** [utime.sleep], duration in milliseconds. *)
Definition sleep_ms (ms : Z) : M unit := emit (EvSleep ms).

(** [sensor.convert_temp()]: raises when no device answers the reset. *)
Definition convert_temp : M unit :=
  fun s =>
    (if ow_convert ent (n_convert s) then Normal tt else Lanza OneWireError,
     avanza_convert s, [EvConvertTemp]).

(** [sensor.read_temp(rom)]: raises on a bad scratchpad checksum. *)
Definition read_temp (rom : list Z) : M Q :=
  fun s =>
    (match ow_read ent (n_read s) rom with
     | Some t => Normal t
     | None => Lanza CRCError
     end, avanza_read s, [EvReadTemp rom]).

(** [ow.reset()]. *)
Definition ow_reset : M unit := emit EvOwReset.

(** *** class Bomba *)

Definition marcha (i : id_bomba) : M unit :=
  emit (EvRele i true);;
  modify (con_bomba i (con_estado_bomba true)).

Definition parada (i : id_bomba) : M unit :=
  emit (EvRele i false);;
  modify (con_bomba i (con_estado_bomba false)).

Definition falla (i : id_bomba) : M unit :=
  parada i;;
  modify (con_bomba i (con_estado_bomba false));;
  modify (con_bomba i (con_estado_falla true)).

(** [CONVERSION = 3.3 / 65535]. *)
Definition CONVERSION : Q := (33 # 10) / 65535.

(** [reading = raw * CONVERSION; corriente = round((reading - 1.65) / .066, 1)]. *)
Definition amperes (raw : Z) : Q :=
  let reading := (inject_Z raw * CONVERSION)%Q in
  round1 ((reading - (165 # 100)) / (66 # 1000))%Q.

(** The body of [for i in range(n)], [n] times, from the list built so far. *)
Fixpoint muestrear (n : nat) (lista : list Q) : M (list Q) :=
  match n with
  | O => ret lista
  | S k =>
      raw <- read_u16;;
      sleep_ms 1;;
      muestrear k (lista ++ [amperes raw])
  end.

Definition MUESTRAS : nat := 1000.

Definition medir_corriente (i : id_bomba) : M unit :=
  lista <- muestrear MUESTRAS [];;
  match max_lista lista with
  | None => raise ValueError
  | Some maximo =>
      umbral <- gets (fun s => corriente_falla (bomba i s));;
      if Qle_bool umbral maximo then falla i
      else modify (con_bomba i (con_corriente maximo))
  end.

(** The [try] block of [medir_temperatura]. Building [ow] and [sensor]
    ([onewire.OneWire(Pin(pin_sensor))], [DS18X20(ow)]) talks to no device
    and is not recorded. *)
Definition cuerpo_temperatura (i : id_bomba) : M unit :=
  convert_temp;;
  sleep_ms 1000;;
  rom <- gets (fun s => id_temp (bomba i s));;
  t <- read_temp rom;;
  let temp := int_of_float t in
  limite <- gets (fun s => temp_falla (bomba i s));;
  if limite <=? temp then falla i
  else modify (con_bomba i (con_temperatura temp)).

(** [try: ... except: ow.reset()]. *)
Definition medir_temperatura (i : id_bomba) : M unit :=
  try_except (cuerpo_temperatura i) ow_reset.

(** *** Module-level functions *)

Definition display (linea1 linea2 : string) : M unit :=
  emit EvLcdClear;;
  emit (EvLcdMoveTo 0 0);;
  emit (EvLcdPutstr (center linea1 16));;
  emit (EvLcdMoveTo 0 1);;
  emit (EvLcdPutstr (center linea2 16)).

Definition inicio : M unit :=
  sleep_ms 2000;;
  parada B1;;
  parada B2;;
  emit EvLcdClear;;
  emit (EvLcdMoveTo 2 0);;
  emit (EvLcdPutstr "Iniciando...");;
  sleep_ms 3000;;
  emit EvLcdClear;;
  emit (EvLcdMoveTo 1 0);;
  emit (EvLcdPutstr "Esperando...");;
  sleep_ms 3000.

Definition verificar_manual : M bool :=
  v <- pin_read PinManual;;
  if v then ret true else ret false.

Definition verificar_bomba1 : M bool :=
  v <- pin_read PinBomba1;;
  if v then ret true else ret false.

Definition marcha_manual : M bool :=
  m <- verificar_manual;;
  if m then
    b <- verificar_bomba1;;
    (if b then
       parada B2;; sleep_ms 1000;; marcha B1;;
       display "Modo: Manual" "Bomba 1: ON"
     else
       parada B1;; sleep_ms 1000;; marcha B2;;
       display "Modo: Manual" "Bomba 2: ON");;
    ret true
  else ret false.

Definition verificar_flotante : M bool :=
  v <- pin_read PinFlotante;;
  if v then
    previo <- gets flotante_previo;;
    (if negb previo then
       modify (con_flotante_previo true);;
       modify (fun s => con_ciclo (ciclo s + 1) s)
     else ret tt);;
    ret true
  else
    previo <- gets flotante_previo;;
    (if previo then modify (con_flotante_previo false) else ret tt);;
    ret false.

Definition marcha_auto : M bool :=
  m <- verificar_manual;;
  if negb m then
    f <- verificar_flotante;;
    (if f then
       c <- gets ciclo;;
       if c mod 2 =? 0 then
         parada B2;; sleep_ms 1000;; marcha B1;;
         display "Modo: Auto" "Bomba 1: ON"
       else
         parada B1;; sleep_ms 1000;; marcha B2;;
         display "Modo: Auto" "Bomba 2: ON"
     else
       parada B1;; parada B2;;
       display "Esperando..." "");;
    ret true
  else ret false.

(** The text after [Bomba] / [B] in the messages about pump [i]. *)
Definition nombre (i : id_bomba) : string :=
  match i with B1 => "1" | B2 => "2" end.

(** [corriente = 'I Bn: ' + str(bn.corriente) + ' A'],
    [temperatura = 'Temp. Bn: ' + str(bn.temperatura) + ' C']. *)
Definition linea_corriente (i : id_bomba) (b : Bomba) : string :=
  ("I B" ++ nombre i ++ ": " ++ str_float (corriente b) ++ " A")%string.

Definition linea_temperatura (i : id_bomba) (b : Bomba) : string :=
  ("Temp. B" ++ nombre i ++ ": " ++ str_int (temperatura b) ++ " C")%string.

(** The block run after a measurement without fault:
    [sleep(2); display(corriente, temperatura); sleep(2)]. *)
Definition mostrar_medidas (i : id_bomba) : M unit :=
  sleep_ms 2000;;
  b <- gets (bomba i);;
  display (linea_corriente i b) (linea_temperatura i b);;
  sleep_ms 2000.

(** The letter e with acute accent, U+00E9. *)
Definition e_aguda : string := String (ascii_of_nat 233) EmptyString.

(** ['servicio técnico'] (lines 329 and 360) and ['servivcio técnico']
    (line 300). *)
Definition servicio_tecnico : string := ("servicio t" ++ e_aguda ++ "cnico")%string.
Definition servivcio_tecnico : string := ("servivcio t" ++ e_aguda ++ "cnico")%string.

(** The [while True] loops of the program; control is always at the head of
    one of them between two iterations. *)
Inductive lugar : Type :=
| BucleMain          (* main, line 371 *)
| BucleAmbas         (* verificar_falla, line 293 *)
| BucleFallaB1       (* verificar_falla, line 304: b1 faulted *)
| BucleFallaB1Ambas  (* verificar_falla, line 322 *)
| BucleFallaB2       (* verificar_falla, line 335: b2 faulted *)
| BucleFallaB2Ambas. (* verificar_falla, line 353 *)

(** One iteration of an alarm loop; [linea] is its last message. *)
Definition cuerpo_alarma (linea : string) : M unit :=
  display "Falla en" "ambas bombas";;
  sleep_ms 5000;;
  display "Llamar al" linea;;
  sleep_ms 5000.

(** One iteration of the loop of line 304 ([sana = B2]) or 335
    ([sana = B1]); [true] when control enters the nested alarm loop. *)
Definition cuerpo_falla (sana : id_bomba) : M bool :=
  f <- verificar_flotante;;
  if f then
    ef <- gets (fun s => estado_falla (bomba sana s));;
    if negb ef then
      marcha sana;;
      display "Modo: Auto" ("Bomba " ++ nombre sana ++ ": ON");;
      medir_corriente sana;;
      medir_temperatura sana;;
      ef' <- gets (fun s => estado_falla (bomba sana s));;
      (if negb ef' then mostrar_medidas sana else ret tt);;
      ret false
    else ret true
  else
    parada sana;;
    ret false.

(** [verificar_falla()] up to the loop it enters: [Some l] when control
    stays in loop [l] for ever, [None] when the call returns. *)
Definition verificar_falla : M (option lugar) :=
  f1 <- gets (fun s => estado_falla (b1 s));;
  f2 <- gets (fun s => estado_falla (b2 s));;
  if f1 && f2 then
    parada B1;; parada B2;; ret (Some BucleAmbas)
  else if f1 then
    parada B1;; ret (Some BucleFallaB1)
  else if f2 then
    parada B2;; ret (Some BucleFallaB2)
  else ret None.

(** The [if bn_en_marcha:] block of [main]. *)
Definition supervisar (i : id_bomba) (en_marcha : bool) : M (option lugar) :=
  if en_marcha then
    medir_corriente i;;
    medir_temperatura i;;
    ef <- gets (fun s => estado_falla (bomba i s));;
    if negb ef then mostrar_medidas i;; ret None
    else verificar_falla
  else ret None.

(** One iteration of the [while True] of [main]. *)
Definition cuerpo_main : M lugar :=
  marcha_manual;;
  marcha_auto;;
  b1_en_marcha <- gets (fun s => estado_bomba (b1 s));;
  b2_en_marcha <- gets (fun s => estado_bomba (b2 s));;
  r1 <- supervisar B1 b1_en_marcha;;
  match r1 with
  | Some l => ret l
  | None =>
      r2 <- supervisar B2 b2_en_marcha;;
      match r2 with
      | Some l => ret l
      | None => ret BucleMain
      end
  end.

(** One iteration of the loop at [l]. *)
Definition paso (l : lugar) : M lugar :=
  match l with
  | BucleMain => cuerpo_main
  | BucleAmbas => cuerpo_alarma servivcio_tecnico;; ret BucleAmbas
  | BucleFallaB1 =>
      a <- cuerpo_falla B2;;
      ret (if a then BucleFallaB1Ambas else BucleFallaB1)
  | BucleFallaB1Ambas => cuerpo_alarma servicio_tecnico;; ret BucleFallaB1Ambas
  | BucleFallaB2 =>
      a <- cuerpo_falla B1;;
      ret (if a then BucleFallaB2Ambas else BucleFallaB2)
  | BucleFallaB2Ambas => cuerpo_alarma servicio_tecnico;; ret BucleFallaB2Ambas
  end.

(** [n] loop iterations from the head of loop [l]. *)
Fixpoint iterar (n : nat) (l : lugar) : M lugar :=
  match n with
  | O => ret l
  | S k => l' <- paso l;; iterar k l'
  end.

(** [main()], cut after [n] loop iterations. *)
Definition main (n : nat) : M lugar :=
  inicio;;
  iterar n BucleMain.

End Programa.

(** ** Vocabulary of the specification *)

Definition otra (i : id_bomba) : id_bomba :=
  match i with B1 => B2 | B2 => B1 end.

Definition con_n_adc (v : nat) (s : Sistema) : Sistema :=
  mkSistema (b1 s) (b2 s) (ciclo s) (flotante_previo s) (n_manual s)
            (n_flotante s) (n_bomba1 s) v (n_convert s) (n_read s).

(** The 16-bit samples number [k], ..., [k + n - 1] of the ADC, in amperes:
    the sampling window of a call of [medir_corriente] that starts when [k]
    samples have been read. *)
Definition ventana (ent : Entradas) (k n : nat) : list Q :=
  map (fun j => amperes (adc26 ent j mod 65536)) (seq k n).

Definition eventos_ventana (ent : Entradas) (k n : nat) : list evento :=
  flat_map (fun j => [EvADC (adc26 ent j mod 65536); EvSleep 1]) (seq k n).

(** What [display(linea1, linea2)] sends to the LCD. *)
Definition eventos_display (linea1 linea2 : string) : list evento :=
  [EvLcdClear; EvLcdMoveTo 0 0; EvLcdPutstr (center linea1 16);
   EvLcdMoveTo 0 1; EvLcdPutstr (center linea2 16)].

(** The first pump switched on in a trace, if any. *)
Fixpoint arrancada (ev : list evento) : option id_bomba :=
  match ev with
  | [] => None
  | EvRele i true :: _ => Some i
  | _ :: r => arrancada r
  end.

(** Events that read a sensor: input pins, ADC, temperature sensor. *)
Definition es_sensado (e : evento) : bool :=
  match e with
  | EvPin _ _ | EvADC _ | EvConvertTemp | EvReadTemp _ => true
  | _ => false
  end.

(** Events of an alarm loop: LCD writes and sleeps. *)
Definition es_pantalla (e : evento) : bool :=
  match e with
  | EvSleep _ | EvLcdClear | EvLcdMoveTo _ _ | EvLcdPutstr _ => true
  | _ => false
  end.

Definition es_arranque (e : evento) : bool :=
  match e with
  | EvRele _ true => true
  | _ => false
  end.

(** The strings written to the LCD in a trace. *)
Fixpoint lineas_escritas (ev : list evento) : list string :=
  match ev with
  | [] => []
  | EvLcdPutstr s :: r => s :: lineas_escritas r
  | _ :: r => lineas_escritas r
  end.

(** Number of low-to-high transitions in a sequence of float levels, given
    the level remembered before the first one. *)
Fixpoint flancos (previo : bool) (niveles : list bool) : Z :=
  match niveles with
  | [] => 0
  | v :: r => (if v && negb previo then 1 else 0) + flancos v r
  end.

(** [n] successive calls of [verificar_flotante], with the levels returned. *)
Fixpoint sondear (ent : Entradas) (n : nat) : M (list bool) :=
  match n with
  | O => ret []
  | S k =>
      v <- verificar_flotante ent;;
      r <- sondear ent k;;
      ret (v :: r)
  end.

Definition es_alarma (l : lugar) : bool :=
  match l with
  | BucleAmbas | BucleFallaB1Ambas | BucleFallaB2Ambas => true
  | _ => false
  end.

(** The state after [falla()] on pump [i]. *)
Definition fallar (i : id_bomba) (s : Sistema) : Sistema :=
  con_bomba i (con_estado_falla true)
    (con_bomba i (con_estado_bomba false)
       (con_bomba i (con_estado_bomba false) s)).

(** The program variables after a call of [verificar_flotante] that reads
    level [v]. *)
Definition tras_flotante (v : bool) (s : Sistema) : Sistema :=
  mkSistema (b1 s) (b2 s)
            (if v && negb (flotante_previo s) then ciclo s + 1 else ciclo s)
            v (n_manual s) (S (n_flotante s)) (n_bomba1 s)
            (n_adc s) (n_convert s) (n_read s).

(** The floats levels read by the [n] polls that follow state [s]. *)
Definition niveles_leidos (ent : Entradas) (s : Sistema) (n : nat) : list bool :=
  map (pin_value ent PinFlotante) (seq (n_flotante s) n).

(** [n] successive calls of [marcha_auto] from [s]: the pump each call
    starts (if any) and the final state. *)
Fixpoint activaciones (ent : Entradas) (n : nat) (s : Sistema)
  : list (option id_bomba) * Sistema :=
  match n with
  | O => ([], s)
  | S k =>
      match marcha_auto ent s with
      | (_, s1, ev) =>
          let (r, s') := activaciones ent k s1 in
          (arrancada ev :: r, s')
      end
  end.

(** Events that can still occur once both pumps are faulted: polls of the
    float switch, relays switched off, LCD writes and sleeps. *)
Definition es_reposo (e : evento) : bool :=
  match e with
  | EvPin PinFlotante _ | EvRele _ false => true
  | _ => es_pantalla e
  end.

(** [m], run from [s], returns normally, in a state and with a value that
    satisfy [Q], having emitted only events that satisfy [E]. *)
Definition wp {A : Type} (m : M A) (Q : A -> Sistema -> Prop)
    (E : evento -> Prop) (s : Sistema) : Prop :=
  exists (a : A) (s' : Sistema) (ev : list evento),
    m s = (Normal a, s', ev) /\ Q a s' /\ Forall E ev.

(** A pump in the state left by [falla()]. *)
Definition averiada (b : Bomba) : Prop :=
  estado_falla b = true /\ estado_bomba b = false.

(** The invariant of the data model: a faulted pump is not running. *)
Definition coherente (b : Bomba) : Prop :=
  estado_falla b = true -> estado_bomba b = false.

(** What holds of the pumps whenever control is at the head of loop [l]. *)
Definition Inv (l : lugar) (s : Sistema) : Prop :=
  match l with
  | BucleMain => estado_falla (b1 s) = false /\ estado_falla (b2 s) = false
  | BucleFallaB1 => averiada (b1 s) /\ coherente (b2 s)
  | BucleFallaB2 => coherente (b1 s) /\ averiada (b2 s)
  | BucleAmbas | BucleFallaB1Ambas | BucleFallaB2Ambas =>
      averiada (b1 s) /\ averiada (b2 s)
  end.

(** The fault flags of [s] are still set in [s']. *)
Definition enclavada (s s' : Sistema) : Prop :=
  forall i : id_bomba,
    estado_falla (bomba i s) = true -> estado_falla (bomba i s') = true.

(** [e] does not switch on a pump that is faulted in [s]. *)
Definition arranque_permitido (s : Sistema) (e : evento) : Prop :=
  forall i : id_bomba, e = EvRele i true -> estado_falla (bomba i s) = false.

(** The fault flags are the same in [s] and [s']. *)
Definition mismas_fallas (s s' : Sistema) : Prop :=
  estado_falla (b1 s') = estado_falla (b1 s) /\
  estado_falla (b2 s') = estado_falla (b2 s).

(** The effect of a measurement on pump [i]: the other pump is untouched,
    and pump [i] either is faulted and stopped or keeps its two flags. *)
Definition tras_medida (i : id_bomba) (s s' : Sistema) : Prop :=
  bomba (otra i) s' = bomba (otra i) s /\
  (averiada (bomba i s') \/
   (estado_falla (bomba i s') = estado_falla (bomba i s) /\
    estado_bomba (bomba i s') = estado_bomba (bomba i s))).

(** The [n] integers from [z] on. *)
Fixpoint rango (n : nat) (z : Z) : list Z :=
  match n with
  | O => []
  | S k => z :: rango k (z + 1)
  end.

(** ** Concrete inputs used by the examples *)

(** An oracle from finite tables: the pins read the listed levels and then
    stay low; the ADC reads the listed samples and then [resto]; the
    temperature sensor always answers [t]. *)
Definition entradas_de (manual flotante sel : list bool) (adc : list Z)
    (resto : Z) (t : Q) : Entradas :=
  mkEntradas
    (fun p k =>
       match p with
       | PinManual => nth k manual false
       | PinFlotante => nth k flotante false
       | PinBomba1 => nth k sel false
       end)
    (fun k => nth k adc resto)
    (fun _ => true)
    (fun _ _ => Some t).

(** Raw samples that convert to 10, 11, 12, 13.1 and 12 A; every later
    sample converts to 12 A. *)
Definition ent_escenario : Entradas :=
  entradas_de [] [] [] [45875; 47186; 48496; 49938; 48496] 48496 25.

(** Automatic mode, float low, high, low, high. *)
Definition ent_alternancia : Entradas :=
  entradas_de [] [false; true; false; true] [] [] 0 25.

(** Automatic mode, float low twice and then high. *)
Definition ent_primera : Entradas :=
  entradas_de [] [false; false; true] [] [] 0 25.

(** No temperature sensor answers on the bus. *)
Definition ent_sin_sensor : Entradas :=
  mkEntradas (fun _ _ => false) (fun _ => 0) (fun _ => false) (fun _ _ => None).

(** Manual mode on pump 1, a current of 25 A on every sample, the float
    read high and then low. *)
Definition ent_doble_falla : Entradas :=
  entradas_de [true; true] [true; false] [true] [] 65535 25.

(** ** Vocabulary of the further properties *)

(** The positions of the two relays, pump 1 first, and what an event does
    to them. *)
Definition conmuta (r : bool * bool) (e : evento) : bool * bool :=
  match e with
  | EvRele B1 v => (v, snd r)
  | EvRele B2 v => (fst r, v)
  | _ => r
  end.

Definition reles_tras (r : bool * bool) (ev : list evento) : bool * bool :=
  fold_left conmuta ev r.

(** Replaying [ev] from the relay positions [r], the two relays are never
    on together after any event. *)
Fixpoint nunca_ambas (r : bool * bool) (ev : list evento) : bool :=
  match ev with
  | [] => true
  | e :: ev' =>
      negb (fst (conmuta r e) && snd (conmuta r e)) && nunca_ambas (conmuta r e) ev'
  end.

(** The relay positions as the program remembers them. *)
Definition estados (s : Sistema) : bool * bool :=
  (estado_bomba (b1 s), estado_bomba (b2 s)).

Definition exclusivo (s : Sistema) : Prop :=
  estado_bomba (b1 s) && estado_bomba (b2 s) = false.

(** [ev] takes the relays from the positions recorded in [s] to those
    recorded in [s'], without ever switching both on. *)
Definition espejo (s s' : Sistema) (ev : list evento) : Prop :=
  reles_tras (estados s) ev = estados s' /\
  nunca_ambas (estados s) ev = true /\
  exclusivo s'.

(** [m], run from [s], returns normally with a value, a state and a trace
    that satisfy [Q]. *)
Definition wpt {A : Type} (m : M A) (Q : A -> Sistema -> list evento -> Prop)
    (s : Sistema) : Prop :=
  exists (a : A) (s' : Sistema) (ev : list evento),
    m s = (Normal a, s', ev) /\ Q a s' ev.

Definition es_rele (e : evento) : bool :=
  match e with
  | EvRele _ _ => true
  | _ => false
  end.

(** Reads of the manual switch and of the pump selector. *)
Definition es_mando (e : evento) : bool :=
  match e with
  | EvPin PinManual _ | EvPin PinBomba1 _ => true
  | _ => false
  end.

(** The pump the automatic mode starts at each tick, from the value of
    [ciclo], the remembered float level and the levels read. *)
Fixpoint seleccion_auto (c : Z) (previo : bool) (niveles : list bool)
  : list (option id_bomba) :=
  match niveles with
  | [] => []
  | v :: r =>
      let c' := if v && negb previo then c + 1 else c in
      (if v then Some (if c' mod 2 =? 0 then B1 else B2) else None)
        :: seleccion_auto c' v r
  end.

(** The float levels polled in a trace, in order. *)
Fixpoint niveles_sondeados (ev : list evento) : list bool :=
  match ev with
  | [] => []
  | EvPin PinFlotante v :: r => v :: niveles_sondeados r
  | _ :: r => niveles_sondeados r
  end.

(** Reads of an input pin. *)
Definition es_entrada (e : evento) : bool :=
  match e with
  | EvPin _ _ => true
  | _ => false
  end.

Definition es_sondeo (e : evento) : bool :=
  match e with
  | EvPin PinFlotante _ => true
  | _ => false
  end.

(** From [s] to [s'], [ciclo] has grown by the number of low-to-high
    transitions among the float levels polled in [ev], and
    [flotante_previo] is the last level polled. *)
Definition cuenta (s s' : Sistema) (ev : list evento) : Prop :=
  ciclo s' = ciclo s + flancos (flotante_previo s) (niveles_sondeados ev) /\
  flotante_previo s' = last (niveles_sondeados ev) (flotante_previo s).

(** [str_float] as a function of the number of tenths. *)
Definition texto_decimas (d : Z) : string :=
  let signo := if d <? 0 then "-"%string else EmptyString in
  let entera := str_int (Z.abs d / 10) in
  let decimal := str_int (Z.abs d mod 10) in
  (signo ++ entera ++ "." ++ decimal)%string.

(** A pump whose stored readings are those of a pump built with
    [temp_falla = 70]: a current between -25 and 25 A, and a temperature
    below the threshold and not below -999. *)
Definition legible (b : Bomba) : Prop :=
  -250 <= Qfloor (corriente b * 10) <= 250 /\
  temp_falla b = 70 /\
  -999 <= temperatura b < 70.

Definition legibles (s : Sistema) : Prop := legible (b1 s) /\ legible (b2 s).

(** An event that writes to the LCD writes 16 characters. *)
Definition cabe (e : evento) : Prop :=
  match e with
  | EvLcdPutstr linea => String.length linea = 16%nat
  | _ => True
  end.

(** Manual mode on pump 1, a current of 0 A, and a temperature sensor that
    answers -1000 degrees. *)
Definition ent_helada : Entradas :=
  entradas_de [true; true] [] [true] [] 32768 (-1000 # 1).

(** Manual mode, selector on pump 2. *)
Definition ent_manual_b2 : Entradas :=
  entradas_de [true] [] [false] [] 0 25.

(** The sensor of every pump answers 69.9 degrees. *)
Definition ent_tibia : Entradas :=
  entradas_de [] [] [] [] 0 (699 # 10).

(** Automatic mode, float high twice, low, then high again. *)
Definition ent_dos_activaciones : Entradas :=
  entradas_de [] [true; true; false; true] [] [] 0 25.

(** The float is read high; the current stays at 0 A. *)
Definition ent_relevo : Entradas :=
  entradas_de [] [true] [] [] 32768 25.

(** ** The program, action by action

    The functions above give the state and the events at the end of a whole
    call. To speak of every state a run goes through, the program is written
    a second time as a tree of atomic actions: an action reads or assigns a
    program variable, commands an output or reads an input. [run] gives such
    a tree the meaning of the function it is written from, and [historia]
    lists what each action of a run emitted and the state it left. *)

Inductive prog : Type -> Type :=
| PRet {A : Type} (a : A) : prog A
| PBind {A B : Type} (p : prog A) (k : A -> prog B) : prog B
| PTry {A : Type} (p h : prog A) : prog A
| PRaise {A : Type} (e : excepcion) : prog A
| PGets {A : Type} (f : Sistema -> A) : prog A
| PModify (f : Sistema -> Sistema) : prog unit
| PEmit (e : evento) : prog unit
| PPin (p : pin_entrada) : prog bool
| PReadU16 : prog Z
| PConvertTemp : prog unit
| PReadTemp (rom : list Z) : prog Q.

Section Acciones.

Variable ent : Entradas.

Fixpoint run {A : Type} (p : prog A) : M A :=
  match p in prog T return M T with
  | PRet a => ret a
  | PBind p k => bind (run p) (fun a => run (k a))
  | PTry p h => try_except (run p) (run h)
  | PRaise e => raise e
  | PGets f => gets f
  | PModify f => modify f
  | PEmit e => emit e
  | PPin p => pin_read ent p
  | PReadU16 => read_u16 ent
  | PConvertTemp => convert_temp ent
  | PReadTemp rom => read_temp ent rom
  end.

(** The single step of an atomic action. *)
Definition una {A : Type} (m : M A) (s : Sistema) : list (list evento * Sistema) :=
  match m s with
  | (_, s', ev) => [(ev, s')]
  end.

(** The steps of a run of [p] from [s], in order. [return] and [raise] take
    no step. *)
Fixpoint historia {A : Type} (p : prog A) (s : Sistema) : list (list evento * Sistema) :=
  match p with
  | PRet _ => []
  | PRaise _ => []
  | PBind p k =>
      historia p s ++
      match run p s with
      | (Normal a, s1, _) => historia (k a) s1
      | (Lanza _, _, _) => []
      end
  | PTry p h =>
      historia p s ++
      match run p s with
      | (Normal _, _, _) => []
      | (Lanza _, s1, _) => historia h s1
      end
  | PGets f => una (gets f) s
  | PModify f => una (modify f) s
  | PEmit e => una (emit e) s
  | PPin p => una (pin_read ent p) s
  | PReadU16 => una (read_u16 ent) s
  | PConvertTemp => una (convert_temp ent) s
  | PReadTemp rom => una (read_temp ent rom) s
  end.

End Acciones.

Declare Scope prog_scope.
Delimit Scope prog_scope with prog.
Notation "x <- m ;; k" := (PBind m (fun x => k))
  (at level 61, m at next level, right associativity) : prog_scope.
Notation "m ;; k" := (PBind m (fun _ => k))
  (at level 61, right associativity) : prog_scope.

(** The functions of [ControlBombas.py], statement by statement. *)
Module Pasos.

Local Open Scope prog_scope.

Definition sleep_ms (ms : Z) : prog unit := PEmit (EvSleep ms).

Definition ow_reset : prog unit := PEmit EvOwReset.

Definition marcha (i : id_bomba) : prog unit :=
  PEmit (EvRele i true);;
  PModify (con_bomba i (con_estado_bomba true)).

Definition parada (i : id_bomba) : prog unit :=
  PEmit (EvRele i false);;
  PModify (con_bomba i (con_estado_bomba false)).

Definition falla (i : id_bomba) : prog unit :=
  parada i;;
  PModify (con_bomba i (con_estado_bomba false));;
  PModify (con_bomba i (con_estado_falla true)).

Fixpoint muestrear (n : nat) (lista : list Q) : prog (list Q) :=
  match n with
  | O => PRet lista
  | S k =>
      raw <- PReadU16;;
      sleep_ms 1;;
      muestrear k (lista ++ [amperes raw])
  end.

Definition medir_corriente (i : id_bomba) : prog unit :=
  lista <- muestrear MUESTRAS [];;
  match max_lista lista with
  | None => PRaise ValueError
  | Some maximo =>
      umbral <- PGets (fun s => corriente_falla (bomba i s));;
      if Qle_bool umbral maximo then falla i
      else PModify (con_bomba i (con_corriente maximo))
  end.

Definition cuerpo_temperatura (i : id_bomba) : prog unit :=
  PConvertTemp;;
  sleep_ms 1000;;
  rom <- PGets (fun s => id_temp (bomba i s));;
  t <- PReadTemp rom;;
  let temp := int_of_float t in
  limite <- PGets (fun s => temp_falla (bomba i s));;
  if limite <=? temp then falla i
  else PModify (con_bomba i (con_temperatura temp)).

Definition medir_temperatura (i : id_bomba) : prog unit :=
  PTry (cuerpo_temperatura i) ow_reset.

Definition display (linea1 linea2 : string) : prog unit :=
  PEmit EvLcdClear;;
  PEmit (EvLcdMoveTo 0 0);;
  PEmit (EvLcdPutstr (center linea1 16));;
  PEmit (EvLcdMoveTo 0 1);;
  PEmit (EvLcdPutstr (center linea2 16)).

Definition inicio : prog unit :=
  sleep_ms 2000;;
  parada B1;;
  parada B2;;
  PEmit EvLcdClear;;
  PEmit (EvLcdMoveTo 2 0);;
  PEmit (EvLcdPutstr "Iniciando...");;
  sleep_ms 3000;;
  PEmit EvLcdClear;;
  PEmit (EvLcdMoveTo 1 0);;
  PEmit (EvLcdPutstr "Esperando...");;
  sleep_ms 3000.

Definition verificar_manual : prog bool :=
  v <- PPin PinManual;;
  if v then PRet true else PRet false.

Definition verificar_bomba1 : prog bool :=
  v <- PPin PinBomba1;;
  if v then PRet true else PRet false.

Definition marcha_manual : prog bool :=
  m <- verificar_manual;;
  if m then
    b <- verificar_bomba1;;
    (if b then
       parada B2;; sleep_ms 1000;; marcha B1;;
       display "Modo: Manual" "Bomba 1: ON"
     else
       parada B1;; sleep_ms 1000;; marcha B2;;
       display "Modo: Manual" "Bomba 2: ON");;
    PRet true
  else PRet false.

Definition verificar_flotante : prog bool :=
  v <- PPin PinFlotante;;
  if v then
    previo <- PGets flotante_previo;;
    (if negb previo then
       PModify (con_flotante_previo true);;
       PModify (fun s => con_ciclo (ciclo s + 1) s)
     else PRet tt);;
    PRet true
  else
    previo <- PGets flotante_previo;;
    (if previo then PModify (con_flotante_previo false) else PRet tt);;
    PRet false.

Definition marcha_auto : prog bool :=
  m <- verificar_manual;;
  if negb m then
    f <- verificar_flotante;;
    (if f then
       c <- PGets ciclo;;
       if c mod 2 =? 0 then
         parada B2;; sleep_ms 1000;; marcha B1;;
         display "Modo: Auto" "Bomba 1: ON"
       else
         parada B1;; sleep_ms 1000;; marcha B2;;
         display "Modo: Auto" "Bomba 2: ON"
     else
       parada B1;; parada B2;;
       display "Esperando..." "");;
    PRet true
  else PRet false.

Definition mostrar_medidas (i : id_bomba) : prog unit :=
  sleep_ms 2000;;
  b <- PGets (bomba i);;
  display (linea_corriente i b) (linea_temperatura i b);;
  sleep_ms 2000.

Definition cuerpo_alarma (linea : string) : prog unit :=
  display "Falla en" "ambas bombas";;
  sleep_ms 5000;;
  display "Llamar al" linea;;
  sleep_ms 5000.

Definition cuerpo_falla (sana : id_bomba) : prog bool :=
  f <- verificar_flotante;;
  if f then
    ef <- PGets (fun s => estado_falla (bomba sana s));;
    if negb ef then
      marcha sana;;
      display "Modo: Auto" ("Bomba " ++ nombre sana ++ ": ON");;
      medir_corriente sana;;
      medir_temperatura sana;;
      ef' <- PGets (fun s => estado_falla (bomba sana s));;
      (if negb ef' then mostrar_medidas sana else PRet tt);;
      PRet false
    else PRet true
  else
    parada sana;;
    PRet false.

Definition verificar_falla : prog (option lugar) :=
  f1 <- PGets (fun s => estado_falla (b1 s));;
  f2 <- PGets (fun s => estado_falla (b2 s));;
  if f1 && f2 then
    parada B1;; parada B2;; PRet (Some BucleAmbas)
  else if f1 then
    parada B1;; PRet (Some BucleFallaB1)
  else if f2 then
    parada B2;; PRet (Some BucleFallaB2)
  else PRet None.

Definition supervisar (i : id_bomba) (en_marcha : bool) : prog (option lugar) :=
  if en_marcha then
    medir_corriente i;;
    medir_temperatura i;;
    ef <- PGets (fun s => estado_falla (bomba i s));;
    if negb ef then mostrar_medidas i;; PRet None
    else verificar_falla
  else PRet None.

Definition cuerpo_main : prog lugar :=
  marcha_manual;;
  marcha_auto;;
  b1_en_marcha <- PGets (fun s => estado_bomba (b1 s));;
  b2_en_marcha <- PGets (fun s => estado_bomba (b2 s));;
  r1 <- supervisar B1 b1_en_marcha;;
  match r1 with
  | Some l => PRet l
  | None =>
      r2 <- supervisar B2 b2_en_marcha;;
      match r2 with
      | Some l => PRet l
      | None => PRet BucleMain
      end
  end.

Definition paso (l : lugar) : prog lugar :=
  match l with
  | BucleMain => cuerpo_main
  | BucleAmbas => cuerpo_alarma servivcio_tecnico;; PRet BucleAmbas
  | BucleFallaB1 =>
      a <- cuerpo_falla B2;;
      PRet (if a then BucleFallaB1Ambas else BucleFallaB1)
  | BucleFallaB1Ambas => cuerpo_alarma servicio_tecnico;; PRet BucleFallaB1Ambas
  | BucleFallaB2 =>
      a <- cuerpo_falla B1;;
      PRet (if a then BucleFallaB2Ambas else BucleFallaB2)
  | BucleFallaB2Ambas => cuerpo_alarma servicio_tecnico;; PRet BucleFallaB2Ambas
  end.

Fixpoint iterar (n : nat) (l : lugar) : prog lugar :=
  match n with
  | O => PRet l
  | S k => l' <- paso l;; iterar k l'
  end.

Definition main (n : nat) : prog lugar :=
  inicio;;
  iterar n BucleMain.

End Pasos.

(** Both pumps satisfy the invariant of the data model. *)
Definition coherentes (s : Sistema) : Prop :=
  coherente (b1 s) /\ coherente (b2 s).

(** A step taken from state [s] is safe: it leaves both pumps coherent, it
    keeps every fault flag that is set in [s], and it does not switch on the
    relay of a pump that is faulted in [s]. *)
Definition transicion (s : Sistema) (x : list evento * Sistema) : Prop :=
  coherentes (snd x) /\
  forall i : id_bomba,
    estado_falla (bomba i s) = true ->
    estado_falla (bomba i (snd x)) = true /\
    Forall (fun e => e <> EvRele i true) (fst x).

(** Every step of [h], taken from the state that the step before it left
    ([s] for the first), is safe. *)
Fixpoint cadena (s : Sistema) (h : list (list evento * Sistema)) : Prop :=
  match h with
  | [] => True
  | x :: r => transicion s x /\ cadena (snd x) r
  end.

(** The state after the steps of [h] from [s]. *)
Definition ultimo (s : Sistema) (h : list (list evento * Sistema)) : Sistema :=
  last (map snd h) s.

(** Trees that cannot raise, leave the fault flags alone and start no pump:
    they read inputs and variables, command outputs other than a relay on,
    and assign variables other than [estado_falla], never setting an
    [estado_bomba] that was clear. *)
Inductive manso : forall {A : Type}, prog A -> Prop :=
| manso_ret {A : Type} (a : A) : manso (PRet a)
| manso_bind {A B : Type} (p : prog A) (k : A -> prog B) :
    manso p -> (forall a : A, manso (k a)) -> manso (PBind p k)
| manso_gets {A : Type} (f : Sistema -> A) : manso (PGets f)
| manso_modify (f : Sistema -> Sistema) :
    (forall (s : Sistema) (i : id_bomba),
       estado_falla (bomba i (f s)) = estado_falla (bomba i s) /\
       (estado_bomba (bomba i (f s)) = true -> estado_bomba (bomba i s) = true)) ->
    manso (PModify f)
| manso_emit (e : evento) : es_arranque e = false -> manso (PEmit e)
| manso_pin (p : pin_entrada) : manso (PPin p)
| manso_read_u16 : manso PReadU16.

(** The run of [p] from [s] returns normally, in a state and with a value
    that satisfy [Post], and every step of it is safe. *)
Definition ws {A : Type} (ent : Entradas) (p : prog A)
    (Post : A -> Sistema -> Prop) (s : Sistema) : Prop :=
  cadena s (historia ent p s) /\
  exists (a : A) (s' : Sistema) (ev : list evento),
    run ent p s = (Normal a, s', ev) /\ Post a s'.

(** * ControlSemaforos: traffic light driven by an infrared barrier

    Shallow embedding of [ControlSemaforos.py]. The barrier pin and the
    time-adjust ADC are oracles; the four outputs and the sleeps are traced.
    Nothing in this program raises. The delay of [regular_tiempo] is computed
    as the program computes it, in IEEE binary64 arithmetic ([float]); the
    result of [round(_, 2)] is represented by the decimal it prints as. *)

(** The multiple of 1/100 nearest to [q], ties to even. *)
Definition round2 (q : Q) : Q :=
  let x := (q * 100)%Q in
  let f := Qfloor x in
  let r := (x - inject_Z f)%Q in
  let z := match (r ?= 1 # 2)%Q with
           | Lt => f
           | Gt => f + 1
           | Eq => if Z.even f then f else f + 1
           end in
  z # 100.

Module Semaforos.

Import Floats.

(** [float(z)] for an [int] below 2^53, which a float holds exactly. *)
Definition a_flotante (z : Z) : float := PrimFloat.of_uint63 (Uint63.of_Z z).

(** The rational number that a finite float stands for. *)
Definition valor_exacto (f : float) : Q :=
  match Prim2SF f with
  | S754_finite negativo m e =>
      let n := if negativo then Z.neg m else Z.pos m in
      if 0 <=? e then (n * 2 ^ e) # 1 else n # Z.to_pos (2 ^ (- e))
  | _ => 0
  end.

(** [round(f, 2)]: the decimal with two places nearest to the value of the
    float, ties to even. *)
Definition redondear2 (f : float) : Q := round2 (valor_exacto f).

(** The output pins [verde], [roja], [buzzer_d], [buzzer_i]. *)
Inductive salida : Type := Verde | Roja | BuzzerD | BuzzerI.

Inductive evento : Type :=
| EvSalida (p : salida) (encendido : bool)
| EvSleep (segundos : Q)
| EvBarrera (v : bool)
| EvAjuste (raw : Z).

Record Entradas : Type := mkEntradas {
  barrera_value : nat -> bool;
  ajuste_tiempo : nat -> Z
}.

(** [Barrera.__estado] and the number of reads made so far. *)
Record Estado : Type := mkEstado {
  estado : bool;
  n_barrera : nat;
  n_ajuste : nat
}.

(** [Barrera()]: [estado = False]. *)
Definition estado_inicial : Estado := mkEstado false 0 0.

Definition M (A : Type) : Type := Estado -> A * Estado * list evento.

Definition ret {A : Type} (a : A) : M A := fun s => (a, s, []).

Definition bind {A B : Type} (m : M A) (k : A -> M B) : M B :=
  fun s =>
    match m s with
    | (a, s1, ev1) =>
        match k a s1 with
        | (b, s2, ev2) => (b, s2, ev1 ++ ev2)
        end
    end.

Definition emit (e : evento) : M unit := fun s => (tt, s, [e]).

Notation "x <- m ;; k" := (bind m (fun x => k))
  (at level 61, m at next level, right associativity).
Notation "m ;; k" := (bind m (fun _ => k))
  (at level 61, right associativity).

Section Programa.

Variable ent : Entradas.

(** [barrera.value()]. *)
Definition barrera_read : M bool :=
  fun s =>
    let v := barrera_value ent (n_barrera s) in
    (v, mkEstado (estado s) (S (n_barrera s)) (n_ajuste s), [EvBarrera v]).

(** [ajuste_tiempo.read_u16()]. *)
Definition read_u16 : M Z :=
  fun s =>
    let raw := ajuste_tiempo ent (n_ajuste s) mod 65536 in
    (raw, mkEstado (estado s) (n_barrera s) (S (n_ajuste s)), [EvAjuste raw]).

Definition set_estado (v : bool) : M unit :=
  fun s => (tt, mkEstado v (n_barrera s) (n_ajuste s), []).

(** *** class Barrera *)

Definition sensar : M unit :=
  v <- barrera_read;;
  if v then set_estado true else set_estado false.

Definition get_estado : M string :=
  sensar;;
  e <- (fun s => (estado s, s, []));;
  if e then ret "Sensando"%string else ret "En espera"%string.

(** *** class Semaforo *)

(** [round((lectura / 10) / 1000, 2)] up to 1000 counts,
    [round((lectura * .0224 + 100) / 1000, 2)] above. Every operation is a
    float operation, rounded to the nearest float; [.0224] is the float
    nearest to 0.0224. *)
Definition regular_tiempo : M Q :=
  lectura <- read_u16;;
  if lectura <=? 1000
  then ret (redondear2 ((a_flotante lectura / 10) / 1000)%float)
  else ret (redondear2 ((a_flotante lectura * 0.0224 + 100) / 1000)%float).

(** [None] is the implicit return of the outer [if]. *)
Definition leer_barrera : M (option bool) :=
  e <- get_estado;;
  if String.eqb e "Sensando" then
    t <- regular_tiempo;;
    emit (EvSleep t);;
    e2 <- get_estado;;
    if String.eqb e2 "Sensando" then ret (Some true) else ret (Some false)
  else ret None.

Definition encender_luz_verde : M unit := emit (EvSalida Verde true).
Definition apagar_luz_verde : M unit := emit (EvSalida Verde false).
Definition encender_luz_roja : M unit := emit (EvSalida Roja true).
Definition apagar_luz_roja : M unit := emit (EvSalida Roja false).

Definition encender_buzzer : M unit :=
  emit (EvSalida BuzzerD true);;
  emit (EvSalida BuzzerI true).

Definition apagar_buzzer : M unit :=
  emit (EvSalida BuzzerI false);;
  emit (EvSalida BuzzerD false).

(** The truth value of what [leer_barrera] returns. *)
Definition verdadero (r : option bool) : bool :=
  match r with
  | Some true => true
  | _ => false
  end.

(** [control_luces()], with at most [fuel] evaluations of the loop
    condition: [true] when the call has returned, [false] when it is still
    looping. *)
Fixpoint control_luces (fuel : nat) : M bool :=
  match fuel with
  | O => ret false
  | S k =>
      r <- leer_barrera;;
      if verdadero r then
        apagar_luz_verde;;
        encender_luz_roja;;
        encender_buzzer;;
        emit (EvSleep 5);;
        control_luces k
      else
        apagar_luz_roja;;
        apagar_buzzer;;
        encender_luz_verde;;
        ret true
  end.

End Programa.

(** The positions of the outputs: green, red, right buzzer, left buzzer. *)
Record Luces : Type := mkLuces {
  verde : bool;
  roja : bool;
  buzzer_d : bool;
  buzzer_i : bool
}.

Definition conmuta (l : Luces) (e : evento) : Luces :=
  match e with
  | EvSalida Verde v => mkLuces v (roja l) (buzzer_d l) (buzzer_i l)
  | EvSalida Roja v => mkLuces (verde l) v (buzzer_d l) (buzzer_i l)
  | EvSalida BuzzerD v => mkLuces (verde l) (roja l) v (buzzer_i l)
  | EvSalida BuzzerI v => mkLuces (verde l) (roja l) (buzzer_d l) v
  | _ => l
  end.

Definition luces_tras (l : Luces) (ev : list evento) : Luces :=
  fold_left conmuta ev l.

(** Replaying [ev] from [l], green and red are never lit together after a
    command to an output. *)
Fixpoint verde_o_roja (l : Luces) (ev : list evento) : bool :=
  match ev with
  | [] => true
  | EvSalida p v :: ev' =>
      negb (verde (conmuta l (EvSalida p v)) && roja (conmuta l (EvSalida p v)))
      && verde_o_roja (conmuta l (EvSalida p v)) ev'
  | _ :: ev' => verde_o_roja l ev'
  end.

(** The number of times red is switched on in a trace. *)
Fixpoint rojas (ev : list evento) : nat :=
  match ev with
  | [] => 0
  | EvSalida Roja true :: ev' => S (rojas ev')
  | _ :: ev' => rojas ev'
  end.

(** The delay that [regular_tiempo] returns for a reading. *)
Definition tiempo_de (lectura : Z) : Q :=
  if lectura <=? 1000
  then redondear2 ((a_flotante lectura / 10) / 1000)%float
  else redondear2 ((a_flotante lectura * 0.0224 + 100) / 1000)%float.

(** The delay for [lectura] is a number of hundredths between 0 and 157, at
    most 10 up to 1000 counts and at least 12 above. *)
Definition tiempo_en_rango (lectura : Z) : bool :=
  match tiempo_de lectura with
  | Qmake z d =>
      (d =? 100)%positive && (0 <=? z) && (z <=? 157) &&
      (if lectura <=? 1000 then z <=? 10 else 12 <=? z)
  end.

(** The barrier is seen busy on the first two reads and free afterwards;
    the knob reads [raw]. *)
Definition ent_un_paso (raw : Z) : Entradas :=
  mkEntradas (fun k => (k <? 2)%nat) (fun _ => raw).

End Semaforos.

(** * ObtenerHoraWifi: lamp switched by the time of day

    Shallow embedding of [obtener_hora], [activar_salida] and of the body of
    the loop of the script. [ntptime.settime()] followed by
    [utime.localtime()] is an oracle; the manual input is another. *)

Module HoraWifi.

(** The 8-tuple of [utime.localtime()]; [hora[3]] is [tm_hour]. *)
Record struct_time : Type := mkTime {
  tm_year : Z; tm_mon : Z; tm_mday : Z; tm_hour : Z;
  tm_min : Z; tm_sec : Z; tm_wday : Z; tm_yday : Z
}.

Inductive excepcion : Type := OverflowError | OSError | TypeError.

(** What the [k]-th synchronisation does: it sets the clock, which then
    reads [t], or it raises. *)
Inductive sincronia : Type :=
| Hora (t : struct_time)
| Falla (e : excepcion).

Inductive evento : Type :=
| EvSettime
| EvManual (v : bool)
| EvSalida (encendido : bool)
| EvSleep (segundos : Z).

Record Entradas : Type := mkEntradas {
  ntp : nat -> sincronia;
  ent_manual : nat -> bool
}.

Record Estado : Type := mkEstado {
  n_ntp : nat;
  n_manual : nat
}.

Inductive resultado (A : Type) : Type :=
| Normal (a : A)
| Lanza (e : excepcion).
Arguments Normal {A} a.
Arguments Lanza {A} e.

Definition M (A : Type) : Type := Estado -> resultado A * Estado * list evento.

Definition ret {A : Type} (a : A) : M A := fun s => (Normal a, s, []).

Definition bind {A B : Type} (m : M A) (k : A -> M B) : M B :=
  fun s =>
    match m s with
    | (Normal a, s1, ev1) =>
        match k a s1 with
        | (r, s2, ev2) => (r, s2, ev1 ++ ev2)
        end
    | (Lanza e, s1, ev1) => (Lanza e, s1, ev1)
    end.

Definition raise {A : Type} (e : excepcion) : M A := fun s => (Lanza e, s, []).
Definition emit (e : evento) : M unit := fun s => (Normal tt, s, [e]).

(** [try: m  except E: h e], for the exceptions [E] that [atrapa] accepts. *)
Definition try_except {A : Type} (m : M A) (atrapa : excepcion -> bool)
    (h : M A) : M A :=
  fun s =>
    match m s with
    | (Normal a, s1, ev1) => (Normal a, s1, ev1)
    | (Lanza e, s1, ev1) =>
        if atrapa e then
          match h s1 with
          | (r, s2, ev2) => (r, s2, ev1 ++ ev2)
          end
        else (Lanza e, s1, ev1)
    end.

Notation "x <- m ;; k" := (bind m (fun x => k))
  (at level 61, m at next level, right associativity).
Notation "m ;; k" := (bind m (fun _ => k))
  (at level 61, right associativity).

Section Programa.

Variable ent : Entradas.

(** [ntptime.settime(); return utime.localtime()]. *)
Definition settime_localtime : M struct_time :=
  fun s =>
    (match ntp ent (n_ntp s) with
     | Hora t => Normal t
     | Falla e => Lanza e
     end, mkEstado (S (n_ntp s)) (n_manual s), [EvSettime]).

(** [ent_manual.value()]. *)
Definition manual_read : M bool :=
  fun s =>
    let v := ent_manual ent (n_manual s) in
    (Normal v, mkEstado (n_ntp s) (S (n_manual s)), [EvManual v]).

Definition obtener_hora : M (option struct_time) :=
  try_except
    (t <- settime_localtime;; ret (Some t))
    (fun e => match e with OverflowError => true | _ => false end)
    (ret None).

(** [hora[3]]: a [TypeError] when [hora] is [None]. The [or] of the
    condition is evaluated left to right and stops at the first true
    operand, so the input is read only when the hour is outside both
    ranges. *)
Definition activar_salida : M unit :=
  hora <- obtener_hora;;
  match hora with
  | None => raise TypeError
  | Some t =>
      let h := tm_hour t in
      if ((h - 3 >=? 0) && (h - 3 <? 7)) || ((h - 3 >=? 19) && (h - 3 <=? 23))
      then emit (EvSalida true)
      else
        v <- manual_read;;
        if v then emit (EvSalida true) else emit (EvSalida false)
  end.

(** The body of [while True]: [try: activar_salida(); utime.sleep(10)]
    with a bare [except: continue]. *)
Definition cuerpo_bucle : M unit :=
  try_except
    (activar_salida;; emit (EvSleep 10))
    (fun _ => true)
    (ret tt).

End Programa.

(** The clock reads 22:30 UTC on 1 March 2024. *)
Definition a_las_22 : struct_time := mkTime 2024 3 1 22 30 0 4 61.

Definition ent_ok : Entradas :=
  mkEntradas (fun _ => Hora a_las_22) (fun _ => false).

End HoraWifi.

(** ** Properties of the builtins *)

Lemma max_fold_spec (xs : list Q) :
  forall (x0 m : Q),
    fold_left (fun m y => if Qle_bool y m then m else y) xs x0 = m ->
    In m (x0 :: xs) /\ (x0 <= m)%Q /\ (forall x, In x xs -> (x <= m)%Q).
Proof.
  induction xs as [|y ys IH]; intros x0 m <-; simpl.
  - split; [now left|]. split; [apply Qle_refl|]. intros x [].
  - destruct (Qle_bool y x0) eqn:Hc.
    + destruct (IH x0 _ eq_refl) as (Hin & Hle & Hall). simpl in Hin.
      split; [simpl; tauto|].
      split; [exact Hle|].
      intros x [<-|Hx]; [|now apply Hall].
      apply Qle_bool_iff in Hc. now apply Qle_trans with x0.
    + destruct (IH y _ eq_refl) as (Hin & Hle & Hall). simpl in Hin.
      split; [simpl; tauto|].
      assert (Hlt : (x0 < y)%Q).
      { apply Qnot_le_lt. intros H. apply Qle_bool_iff in H. congruence. }
      split; [apply Qle_trans with y; [now apply Qlt_le_weak|exact Hle]|].
      intros x [<-|Hx]; [exact Hle|now apply Hall].
Qed.

Lemma max_lista_spec (lista : list Q) (m : Q) :
  max_lista lista = Some m ->
  In m lista /\ (forall x, In x lista -> (x <= m)%Q).
Proof.
  destruct lista as [|x0 xs]; simpl; [discriminate|].
  intros [= Hm]. destruct (max_fold_spec xs x0 m Hm) as (Hin & Hle & Hall).
  split; [exact Hin|]. intros x [<-|Hx]; auto.
Qed.

Lemma max_lista_some (lista : list Q) :
  lista <> [] -> exists m, max_lista lista = Some m.
Proof.
  destruct lista; [congruence|]. intros _. simpl. eauto.
Qed.

Lemma In_rango (n : nat) :
  forall a z : Z, a <= z < a + Z.of_nat n -> In z (rango n a).
Proof.
  induction n as [|n IH]; intros a z H; [lia|].
  cbn [rango]. destruct (Z.eq_dec a z) as [->|Hne]; [now left|right].
  apply IH. lia.
Qed.

(** ** The sampling loop *)

Lemma muestrear_run (ent : Entradas) (n : nat) :
  forall (lista : list Q) (s : Sistema),
    muestrear ent n lista s =
    (Normal (lista ++ ventana ent (n_adc s) n),
     con_n_adc (n_adc s + n) s,
     eventos_ventana ent (n_adc s) n).
Proof.
  induction n as [|k IH]; intros lista s.
  - unfold ventana, eventos_ventana, con_n_adc. simpl.
    rewrite app_nil_r, Nat.add_0_r. unfold ret. now destruct s.
  - cbn [muestrear]. unfold bind at 1. unfold read_u16.
    unfold bind at 1. unfold sleep_ms, emit.
    rewrite IH. cbn [n_adc avanza_adc].
    unfold ventana, eventos_ventana. cbn [seq map flat_map].
    rewrite <- app_assoc. cbn [app].
    unfold con_n_adc. cbn. now rewrite Nat.add_succ_r.
Qed.

Lemma ventana_length (ent : Entradas) (k n : nat) :
  List.length (ventana ent k n) = n.
Proof. unfold ventana. now rewrite length_map, length_seq. Qed.

Lemma ventana_no_vacia (ent : Entradas) (k : nat) :
  ventana ent k MUESTRAS <> [].
Proof.
  intros H. apply (f_equal (@List.length Q)) in H.
  rewrite ventana_length in H. discriminate H.
Qed.

(** ** class Bomba *)

Lemma parada_run (i : id_bomba) (s : Sistema) :
  parada i s = (Normal tt, con_bomba i (con_estado_bomba false) s, [EvRele i false]).
Proof. reflexivity. Qed.

Lemma marcha_run (i : id_bomba) (s : Sistema) :
  marcha i s = (Normal tt, con_bomba i (con_estado_bomba true) s, [EvRele i true]).
Proof. reflexivity. Qed.

Lemma falla_run (i : id_bomba) (s : Sistema) :
  falla i s = (Normal tt, fallar i s, [EvRele i false]).
Proof. reflexivity. Qed.

Lemma fallar_bomba (i : id_bomba) (s : Sistema) :
  estado_falla (bomba i (fallar i s)) = true /\
  estado_bomba (bomba i (fallar i s)) = false /\
  corriente (bomba i (fallar i s)) = corriente (bomba i s) /\
  temperatura (bomba i (fallar i s)) = temperatura (bomba i s) /\
  bomba (otra i) (fallar i s) = bomba (otra i) s.
Proof. destruct i; cbn; auto. Qed.

Lemma medir_corriente_run (ent : Entradas) (i : id_bomba) (s : Sistema) :
  exists maximo,
    max_lista (ventana ent (n_adc s) MUESTRAS) = Some maximo /\
    medir_corriente ent i s =
    if Qle_bool (corriente_falla (bomba i s)) maximo
    then (Normal tt, fallar i (con_n_adc (n_adc s + MUESTRAS) s),
          eventos_ventana ent (n_adc s) MUESTRAS ++ [EvRele i false])
    else (Normal tt,
          con_bomba i (con_corriente maximo) (con_n_adc (n_adc s + MUESTRAS) s),
          eventos_ventana ent (n_adc s) MUESTRAS ++ []).
Proof.
  destruct (max_lista_some _ (ventana_no_vacia ent (n_adc s))) as [maximo Hmax].
  exists maximo. split; [exact Hmax|].
  unfold medir_corriente, bind. rewrite muestrear_run. cbn [app].
  rewrite Hmax. unfold gets.
  replace (corriente_falla (bomba i (con_n_adc (n_adc s + MUESTRAS) s)))
    with (corriente_falla (bomba i s)) by (destruct i; reflexivity).
  destruct (Qle_bool (corriente_falla (bomba i s)) maximo).
  - rewrite falla_run. reflexivity.
  - reflexivity.
Qed.

(** C1. In every call of [medir_corriente], whatever the 1000 samples read
    from the ADC are, the value compared and stored is the maximum of the
    window (a sample of the window that no sample exceeds). When that maximum
    reaches [corriente_falla] the pump ends faulted and stopped, whatever its
    state before, and keeps its stored [corriente]; otherwise the maximum
    becomes [corriente] and the fault and run flags are untouched. The call
    returns normally and leaves the other pump alone. *)
Theorem medir_corriente_maximo (ent : Entradas) (i : id_bomba) (s : Sistema) :
  exists (maximo : Q) (s' : Sistema) (ev : list evento),
    let lista := ventana ent (n_adc s) MUESTRAS in
    List.length lista = 1000%nat /\
    max_lista lista = Some maximo /\
    In maximo lista /\
    (forall x, In x lista -> (x <= maximo)%Q) /\
    medir_corriente ent i s = (Normal tt, s', ev) /\
    bomba (otra i) s' = bomba (otra i) s /\
    ((corriente_falla (bomba i s) <= maximo)%Q ->
       estado_falla (bomba i s') = true /\
       estado_bomba (bomba i s') = false /\
       corriente (bomba i s') = corriente (bomba i s)) /\
    ((maximo < corriente_falla (bomba i s))%Q ->
       corriente (bomba i s') = maximo /\
       estado_falla (bomba i s') = estado_falla (bomba i s) /\
       estado_bomba (bomba i s') = estado_bomba (bomba i s)).
Proof.
  destruct (medir_corriente_run ent i s) as (maximo & Hmax & Hrun).
  destruct (max_lista_spec _ _ Hmax) as (Hin & Hall).
  destruct (Qle_bool (corriente_falla (bomba i s)) maximo) eqn:Hc.
  - apply Qle_bool_iff in Hc.
    destruct (fallar_bomba i (con_n_adc (n_adc s + MUESTRAS) s))
      as (Hf & Hb & Hco & _ & Ho).
    eexists maximo, _, _. cbv zeta.
    split; [apply ventana_length|].
    split; [exact Hmax|]. split; [exact Hin|]. split; [exact Hall|].
    split; [exact Hrun|].
    split; [rewrite Ho; destruct i; reflexivity|].
    split.
    + intros _. split; [exact Hf|]. split; [exact Hb|].
      rewrite Hco. destruct i; reflexivity.
    + intros H. exfalso. exact (Qlt_not_le _ _ H Hc).
  - assert (Hlt : ~ (corriente_falla (bomba i s) <= maximo)%Q).
    { intros H. apply Qle_bool_iff in H. congruence. }
    eexists maximo, _, _. cbv zeta.
    split; [apply ventana_length|].
    split; [exact Hmax|]. split; [exact Hin|]. split; [exact Hall|].
    split; [exact Hrun|].
    split; [destruct i; reflexivity|].
    split.
    + intros H. exfalso. exact (Hlt H).
    + intros _. destruct i; cbn; auto.
Qed.

(** A window that starts with 10, 11, 12, 13.1 and 12 A and then stays at
    12 A, against the threshold of 13 A: the maximum is 13.1 A, the running
    pump ends faulted and stopped, and the reading is not stored. *)
Example medir_corriente_escenario :
  firstn 5 (ventana ent_escenario 0 MUESTRAS)
    = [100 # 10; 110 # 10; 120 # 10; 131 # 10; 120 # 10] /\
  max_lista (ventana ent_escenario 0 MUESTRAS) = Some (131 # 10) /\
  corriente_falla (b1 estado_inicial) = 13%Q /\
  exists (s' : Sistema) (ev : list evento),
    medir_corriente ent_escenario B1
      (con_bomba B1 (con_estado_bomba true) estado_inicial) = (Normal tt, s', ev) /\
    estado_falla (b1 s') = true /\
    estado_bomba (b1 s') = false /\
    corriente (b1 s') = corriente (b1 estado_inicial).
Proof.
  split; [vm_compute; reflexivity|]. split; [vm_compute; reflexivity|].
  split; [reflexivity|].
  eexists _, _. split; [vm_compute; reflexivity|]. repeat split; reflexivity.
Qed.

(** ** Float switch and cycle counter *)

Lemma verificar_flotante_run (ent : Entradas) (s : Sistema) :
  verificar_flotante ent s =
  (Normal (pin_value ent PinFlotante (n_flotante s)),
   tras_flotante (pin_value ent PinFlotante (n_flotante s)) s,
   [EvPin PinFlotante (pin_value ent PinFlotante (n_flotante s))]).
Proof.
  unfold verificar_flotante, bind, pin_read, gets, modify, ret, tras_flotante.
  cbn [n_pin avanza_pin flotante_previo].
  destruct (pin_value ent PinFlotante (n_flotante s));
    destruct (flotante_previo s) eqn:Hp; cbn; rewrite ?Hp; reflexivity.
Qed.

Lemma last_cons_previo {A : Type} (l : list A) :
  forall v d : A, last (v :: l) d = last l v.
Proof.
  induction l as [|a l IH]; intros v d; [reflexivity|].
  change (last (v :: a :: l) d) with (last (a :: l) d).
  now rewrite (IH a d), (IH a v).
Qed.

Lemma sondear_run (ent : Entradas) (n : nat) :
  forall s : Sistema,
  exists (s' : Sistema) (ev : list evento),
    sondear ent n s = (Normal (niveles_leidos ent s n), s', ev) /\
    ciclo s' = ciclo s + flancos (flotante_previo s) (niveles_leidos ent s n) /\
    flotante_previo s' = last (niveles_leidos ent s n) (flotante_previo s) /\
    b1 s' = b1 s /\ b2 s' = b2 s.
Proof.
  induction n as [|k IH]; intros s.
  - exists s, []. cbn. repeat split; lia.
  - destruct (IH (tras_flotante (pin_value ent PinFlotante (n_flotante s)) s))
      as (s' & ev & Hrun & Hc & Hp & Hb1 & Hb2).
    cbn [sondear]. unfold bind at 1. rewrite verificar_flotante_run.
    unfold bind at 1. rewrite Hrun. unfold ret.
    eexists _, _. split.
    { unfold niveles_leidos. cbn [seq map]. reflexivity. }
    unfold niveles_leidos in *. cbn [seq map flancos].
    cbn [tras_flotante n_flotante ciclo flotante_previo b1 b2] in Hc, Hp, Hb1, Hb2.
    repeat split; try assumption.
    + rewrite Hc. destruct (pin_value ent PinFlotante (n_flotante s) &&
                            negb (flotante_previo s)); lia.
    + rewrite Hp. symmetry. apply last_cons_previo.
Qed.

(** C4. Each call of [verificar_flotante] returns the level it reads,
    records it in [flotante_previo], and adds one to [ciclo] exactly when the
    level read is high and the remembered level was low; on every other poll
    [ciclo] is unchanged. Hence after any number of polls [ciclo] has grown
    by the number of low-to-high transitions of the polled sequence. *)
Theorem verificar_flotante_cuenta_flancos (ent : Entradas) (n : nat) (s : Sistema) :
  (exists s1 : Sistema,
     verificar_flotante ent s =
       (Normal (pin_value ent PinFlotante (n_flotante s)), s1,
        [EvPin PinFlotante (pin_value ent PinFlotante (n_flotante s))]) /\
     flotante_previo s1 = pin_value ent PinFlotante (n_flotante s) /\
     ciclo s1 =
       (if pin_value ent PinFlotante (n_flotante s) && negb (flotante_previo s)
        then ciclo s + 1 else ciclo s) /\
     b1 s1 = b1 s /\ b2 s1 = b2 s) /\
  (exists (s' : Sistema) (ev : list evento),
     sondear ent n s = (Normal (niveles_leidos ent s n), s', ev) /\
     ciclo s' = ciclo s + flancos (flotante_previo s) (niveles_leidos ent s n) /\
     flotante_previo s' = last (niveles_leidos ent s n) (flotante_previo s)).
Proof.
  split.
  - eexists. rewrite verificar_flotante_run. split; [reflexivity|].
    cbn. auto.
  - destruct (sondear_run ent n s) as (s' & ev & Hrun & Hc & Hp & _).
    exists s', ev. auto.
Qed.

(** ** Automatic mode *)

Lemma display_run (linea1 linea2 : string) (s : Sistema) :
  display linea1 linea2 s = (Normal tt, s, eventos_display linea1 linea2).
Proof. reflexivity. Qed.

(** C5. A call of [marcha_auto] that reads the manual switch inactive
    returns [True]; when it then reads the float active it stops the pump
    that is not selected, sleeps one second, starts pump 1 if [ciclo] (as it
    stands after the float poll) is even and pump 2 if it is odd, and writes
    the mode and the pump to the display; when it reads the float inactive it
    stops both pumps and displays the waiting message. A call that reads the
    manual switch active returns [False] and changes no program variable. *)
Theorem marcha_auto_tick (ent : Entradas) (s : Sistema) :
  exists (s' : Sistema) (ev : list evento),
    marcha_auto ent s =
      (Normal (negb (pin_value ent PinManual (n_manual s))), s', ev) /\
    (pin_value ent PinManual (n_manual s) = true ->
       ev = [EvPin PinManual true] /\
       b1 s' = b1 s /\ b2 s' = b2 s /\
       ciclo s' = ciclo s /\ flotante_previo s' = flotante_previo s) /\
    (pin_value ent PinManual (n_manual s) = false ->
     pin_value ent PinFlotante (n_flotante s) = true ->
       let sel := if ciclo s' mod 2 =? 0 then B1 else B2 in
       ev = [EvPin PinManual false; EvPin PinFlotante true;
             EvRele (otra sel) false; EvSleep 1000; EvRele sel true] ++
            eventos_display "Modo: Auto" ("Bomba " ++ nombre sel ++ ": ON") /\
       ciclo s' = (if flotante_previo s then ciclo s else ciclo s + 1) /\
       estado_bomba (bomba sel s') = true /\
       estado_bomba (bomba (otra sel) s') = false /\
       estado_falla (b1 s') = estado_falla (b1 s) /\
       estado_falla (b2 s') = estado_falla (b2 s)) /\
    (pin_value ent PinManual (n_manual s) = false ->
     pin_value ent PinFlotante (n_flotante s) = false ->
       ev = [EvPin PinManual false; EvPin PinFlotante false;
             EvRele B1 false; EvRele B2 false] ++
            eventos_display "Esperando..." "" /\
       ciclo s' = ciclo s /\
       estado_bomba (b1 s') = false /\
       estado_bomba (b2 s') = false /\
       estado_falla (b1 s') = estado_falla (b1 s) /\
       estado_falla (b2 s') = estado_falla (b2 s)).
Proof.
  unfold marcha_auto. unfold bind at 1.
  unfold verificar_manual, bind at 1. unfold pin_read, ret.
  cbn [n_pin].
  destruct (pin_value ent PinManual (n_manual s)) eqn:Hm; cbn [negb app].
  - eexists _, _. split; [reflexivity|].
    split; [intros _; cbn; auto|].
    split; intros; discriminate.
  - unfold bind at 1. unfold bind at 1. rewrite verificar_flotante_run.
    cbn [n_flotante avanza_pin].
    destruct (pin_value ent PinFlotante (n_flotante s)) eqn:Hf.
    + unfold bind at 1. unfold gets.
      cbn [ciclo tras_flotante flotante_previo avanza_pin andb].
      destruct ((if negb (flotante_previo s) then ciclo s + 1 else ciclo s)
                  mod 2 =? 0) eqn:Hpar.
      * eexists _, _. split; [reflexivity|].
        split; [intros; discriminate|].
        split; [|intros; discriminate]. intros _ _.
        cbn. rewrite Hpar. cbn.
        destruct (flotante_previo s); repeat split; reflexivity.
      * eexists _, _. split; [reflexivity|].
        split; [intros; discriminate|].
        split; [|intros; discriminate]. intros _ _.
        cbn. rewrite Hpar. cbn.
        destruct (flotante_previo s); repeat split; reflexivity.
    + eexists _, _. split; [reflexivity|].
      split; [intros; discriminate|].
      split; [intros; discriminate|]. intros _ _.
      cbn. repeat split; reflexivity.
Qed.

(** What the next loops need to know about a call of [marcha_auto] in
    automatic mode. *)
Lemma marcha_auto_efecto (ent : Entradas) (s : Sistema) :
  pin_value ent PinManual (n_manual s) = false ->
  exists (s' : Sistema) (ev : list evento),
    marcha_auto ent s = (Normal true, s', ev) /\
    n_manual s' = S (n_manual s) /\
    n_flotante s' = S (n_flotante s) /\
    flotante_previo s' = pin_value ent PinFlotante (n_flotante s) /\
    ciclo s' =
      (if pin_value ent PinFlotante (n_flotante s) && negb (flotante_previo s)
       then ciclo s + 1 else ciclo s) /\
    arrancada ev =
      (if pin_value ent PinFlotante (n_flotante s)
       then Some (if ciclo s' mod 2 =? 0 then B1 else B2) else None) /\
    (if pin_value ent PinFlotante (n_flotante s)
     then estado_bomba (bomba (if ciclo s' mod 2 =? 0 then B1 else B2) s') = true /\
          estado_bomba (bomba (if ciclo s' mod 2 =? 0 then B2 else B1) s') = false
     else estado_bomba (b1 s') = false /\ estado_bomba (b2 s') = false).
Proof.
  intros Hm.
  unfold marcha_auto. unfold bind at 1.
  unfold verificar_manual, bind at 1. unfold pin_read, ret.
  cbn [n_pin]. rewrite Hm. cbn [negb app].
  unfold bind at 1. unfold bind at 1. rewrite verificar_flotante_run.
  cbn [n_flotante avanza_pin].
  destruct (pin_value ent PinFlotante (n_flotante s)) eqn:Hf.
  - unfold bind at 1. unfold gets.
    cbn [ciclo tras_flotante flotante_previo avanza_pin andb].
    destruct ((if negb (flotante_previo s) then ciclo s + 1 else ciclo s)
                mod 2 =? 0) eqn:Hpar;
      (eexists _, _; split; [reflexivity|]; cbn; rewrite Hpar;
       repeat split; reflexivity).
  - eexists _, _. split; [reflexivity|]. cbn. repeat split; reflexivity.
Qed.

Lemma activaciones_S (ent : Entradas) (k : nat) (s s1 : Sistema)
    (r : resultado bool) (ev : list evento) :
  marcha_auto ent s = (r, s1, ev) ->
  activaciones ent (S k) s =
  (arrancada ev :: fst (activaciones ent k s1), snd (activaciones ent k s1)).
Proof.
  intros H. cbn [activaciones]. rewrite H.
  now destruct (activaciones ent k s1).
Qed.

(** Ticks with the float low start nothing and keep [ciclo] and
    [flotante_previo] as they are at startup. *)
Lemma activaciones_reposo (ent : Entradas) (n : nat) :
  forall s : Sistema,
    flotante_previo s = false ->
    (forall k, (k < n)%nat -> pin_value ent PinManual (n_manual s + k) = false) ->
    (forall k, (k < n)%nat -> pin_value ent PinFlotante (n_flotante s + k) = false) ->
    fst (activaciones ent n s) = repeat None n /\
    ciclo (snd (activaciones ent n s)) = ciclo s /\
    flotante_previo (snd (activaciones ent n s)) = false /\
    n_manual (snd (activaciones ent n s)) = (n_manual s + n)%nat /\
    n_flotante (snd (activaciones ent n s)) = (n_flotante s + n)%nat.
Proof.
  induction n as [|n IH]; intros s Hp Hman Hflo.
  - cbn. rewrite !Nat.add_0_r. auto.
  - assert (Hm0 : pin_value ent PinManual (n_manual s) = false).
    { rewrite <- (Nat.add_0_r (n_manual s)). apply Hman. lia. }
    assert (Hf0 : pin_value ent PinFlotante (n_flotante s) = false).
    { rewrite <- (Nat.add_0_r (n_flotante s)). apply Hflo. lia. }
    destruct (marcha_auto_efecto ent s Hm0)
      as (s1 & ev & Hrun & Hnm & Hnf & Hp1 & Hc1 & Harr & _).
    rewrite Hf0 in Hp1, Hc1, Harr. cbn [andb] in Hc1.
    rewrite (activaciones_S _ _ _ _ _ _ Hrun). cbn [fst snd].
    destruct (IH s1 Hp1) as (Hl & Hc & Hpp & Hn1 & Hn2).
    + intros k Hk. rewrite Hnm.
      replace (S (n_manual s) + k)%nat with (n_manual s + S k)%nat by lia.
      apply Hman. lia.
    + intros k Hk. rewrite Hnf.
      replace (S (n_flotante s) + k)%nat with (n_flotante s + S k)%nat by lia.
      apply Hflo. lia.
    + rewrite Hl, Harr, Hc, Hc1, Hpp, Hn1, Hn2, Hnm, Hnf.
      cbn [repeat]. repeat split; lia.
Qed.

Lemma activaciones_add (ent : Entradas) (n m : nat) :
  forall s : Sistema,
    activaciones ent (n + m) s =
    (fst (activaciones ent n s) ++ fst (activaciones ent m (snd (activaciones ent n s))),
     snd (activaciones ent m (snd (activaciones ent n s)))).
Proof.
  induction n as [|n IH]; intros s.
  - cbn. now destruct (activaciones ent m s).
  - cbn [Nat.add activaciones].
    destruct (marcha_auto ent s) as [[r s1] ev].
    rewrite IH. destruct (activaciones ent n s1). reflexivity.
Qed.

(** C10. From [ciclo = 0] and [flotante_previo = False] (the values at
    startup), after any number of automatic ticks with the float low, the
    first tick that reads the float high starts pump 2 and not pump 1:
    [ciclo] is 1 when the parity is tested. *)
Theorem primera_activacion_bomba2 (ent : Entradas) (n : nat) (s : Sistema) :
  ciclo s = 0 ->
  flotante_previo s = false ->
  (forall k, (k <= n)%nat -> pin_value ent PinManual (n_manual s + k) = false) ->
  (forall k, (k < n)%nat -> pin_value ent PinFlotante (n_flotante s + k) = false) ->
  pin_value ent PinFlotante (n_flotante s + n) = true ->
  fst (activaciones ent (S n) s) = repeat None n ++ [Some B2] /\
  ciclo (snd (activaciones ent (S n) s)) = 1 /\
  estado_bomba (b2 (snd (activaciones ent (S n) s))) = true /\
  estado_bomba (b1 (snd (activaciones ent (S n) s))) = false.
Proof.
  intros Hc Hp Hman Hflo Hhigh.
  destruct (activaciones_reposo ent n s Hp) as (Hl & Hc' & Hp' & Hnm & Hnf).
  { intros k Hk. apply Hman. lia. }
  { exact Hflo. }
  replace (S n) with (n + 1)%nat by lia. rewrite activaciones_add. cbn [fst snd].
  set (sn := snd (activaciones ent n s)) in *.
  assert (Hm : pin_value ent PinManual (n_manual sn) = false).
  { rewrite Hnm. apply Hman. lia. }
  destruct (marcha_auto_efecto ent sn Hm)
    as (s1 & ev & Hrun & _ & _ & _ & Hc1 & Harr & Hest).
  rewrite Hnf, Hhigh in Hc1, Harr, Hest. rewrite Hp', Hc', Hc in Hc1.
  cbn in Hc1. rewrite Hc1 in Harr, Hest. cbn in Harr, Hest.
  rewrite (activaciones_S _ _ _ _ _ _ Hrun). cbn [activaciones fst snd].
  rewrite Hl, Harr. tauto.
Qed.

Lemma primera_activacion_bomba2_witness :
  fst (activaciones ent_primera 3 estado_inicial) = [None; None; Some B2] /\
  ciclo (snd (activaciones ent_primera 3 estado_inicial)) = 1 /\
  estado_bomba (b2 (snd (activaciones ent_primera 3 estado_inicial))) = true /\
  estado_bomba (b1 (snd (activaciones ent_primera 3 estado_inicial))) = false.
Proof.
  apply (primera_activacion_bomba2 ent_primera 2 estado_inicial).
  - reflexivity.
  - reflexivity.
  - intros k _. cbn. now destruct k as [|[|[|k]]].
  - intros k Hk. cbn. destruct k as [|[|k]]; [reflexivity|reflexivity|lia].
  - reflexivity.
Defined.

(** C6 fails as stated: with the float read low, high, low, high from
    [ciclo = 0], [ciclo] ends at 2, but the first activation starts pump 2
    and the second starts pump 1. *)
Lemma segunda_activacion_otra_bomba :
  fst (activaciones ent_alternancia 4 estado_inicial)
    = [None; Some B2; None; Some B1] /\
  ciclo (snd (activaciones ent_alternancia 4 estado_inicial)) = 2 /\
  ~ (nth 3 (fst (activaciones ent_alternancia 4 estado_inicial)) None
     = nth 1 (fst (activaciones ent_alternancia 4 estado_inicial)) None).
Proof.
  split; [reflexivity|]. split; [reflexivity|]. discriminate.
Qed.

Lemma activaciones_auto (ent : Entradas) (k : nat) (s : Sistema) :
  pin_value ent PinManual (n_manual s) = false ->
  exists s1 : Sistema,
    activaciones ent (S k) s =
      ((if pin_value ent PinFlotante (n_flotante s)
        then Some (if ciclo s1 mod 2 =? 0 then B1 else B2) else None)
         :: fst (activaciones ent k s1),
       snd (activaciones ent k s1)) /\
    n_manual s1 = S (n_manual s) /\
    n_flotante s1 = S (n_flotante s) /\
    flotante_previo s1 = pin_value ent PinFlotante (n_flotante s) /\
    ciclo s1 =
      (if pin_value ent PinFlotante (n_flotante s) && negb (flotante_previo s)
       then ciclo s + 1 else ciclo s).
Proof.
  intros Hm.
  destruct (marcha_auto_efecto ent s Hm)
    as (s1 & ev & Hrun & Hnm & Hnf & Hp1 & Hc1 & Harr & _).
  exists s1. rewrite (activaciones_S _ _ _ _ _ _ Hrun), Harr. auto.
Qed.

(** C6, as the code has it. From [ciclo = 0] and [flotante_previo = False],
    four automatic ticks that read the float low, high, low, high leave
    [ciclo = 2]; the first activation ([ciclo = 1], odd) starts pump 2 and
    the second ([ciclo = 2], parity 0) starts pump 1, the other pump. *)
Theorem alternancia_bajo_alto_bajo_alto (ent : Entradas) (s : Sistema) :
  ciclo s = 0 ->
  flotante_previo s = false ->
  (forall k, (k < 4)%nat -> pin_value ent PinManual (n_manual s + k) = false) ->
  pin_value ent PinFlotante (n_flotante s) = false ->
  pin_value ent PinFlotante (n_flotante s + 1) = true ->
  pin_value ent PinFlotante (n_flotante s + 2) = false ->
  pin_value ent PinFlotante (n_flotante s + 3) = true ->
  fst (activaciones ent 4 s) = [None; Some B2; None; Some B1] /\
  ciclo (snd (activaciones ent 4 s)) = 2.
Proof.
  intros Hc Hp Hman Hf0 Hf1 Hf2 Hf3.
  assert (Hm0 : pin_value ent PinManual (n_manual s) = false).
  { rewrite <- (Nat.add_0_r (n_manual s)). apply Hman. lia. }
  destruct (activaciones_auto ent 3 s Hm0) as (s1 & E1 & Hnm1 & Hnf1 & Hp1 & Hc1).
  rewrite E1. clear E1.
  rewrite Hf0 in *. cbn [andb] in Hc1. rewrite Hc in Hc1.
  assert (Hm1 : pin_value ent PinManual (n_manual s1) = false).
  { replace (n_manual s1) with (n_manual s + 1)%nat by lia. apply Hman. lia. }
  destruct (activaciones_auto ent 2 s1 Hm1) as (s2 & E2 & Hnm2 & Hnf2 & Hp2 & Hc2).
  rewrite E2. clear E2.
  replace (n_flotante s1) with (n_flotante s + 1)%nat in * by lia.
  rewrite Hf1 in *. rewrite Hp1, Hc1 in Hc2. cbn in Hc2.
  assert (Hm2 : pin_value ent PinManual (n_manual s2) = false).
  { replace (n_manual s2) with (n_manual s + 2)%nat by lia. apply Hman. lia. }
  destruct (activaciones_auto ent 1 s2 Hm2) as (s3 & E3 & Hnm3 & Hnf3 & Hp3 & Hc3).
  rewrite E3. clear E3.
  replace (n_flotante s2) with (n_flotante s + 2)%nat in * by lia.
  rewrite Hf2 in *. cbn [andb] in Hc3. rewrite Hc2 in Hc3.
  assert (Hm3 : pin_value ent PinManual (n_manual s3) = false).
  { replace (n_manual s3) with (n_manual s + 3)%nat by lia. apply Hman. lia. }
  destruct (activaciones_auto ent 0 s3 Hm3) as (s4 & E4 & Hnm4 & Hnf4 & Hp4 & Hc4).
  rewrite E4. clear E4.
  replace (n_flotante s3) with (n_flotante s + 3)%nat in * by lia.
  rewrite Hf3 in *. rewrite Hp3, Hc3 in Hc4. cbn in Hc4.
  cbn [activaciones fst snd]. rewrite Hc2, Hc4. split; reflexivity.
Qed.

Lemma alternancia_bajo_alto_bajo_alto_witness :
  fst (activaciones ent_alternancia 4 estado_inicial)
    = [None; Some B2; None; Some B1] /\
  ciclo (snd (activaciones ent_alternancia 4 estado_inicial)) = 2.
Proof.
  apply (alternancia_bajo_alto_bajo_alto ent_alternancia estado_inicial);
    try reflexivity.
  intros k Hk. cbn. now destruct k as [|[|[|[|k]]]].
Defined.

(** ** Starting a pump *)

Lemma cuerpo_falla_en_falla (ent : Entradas) (sana : id_bomba) (s : Sistema) :
  estado_falla (bomba sana s) = true ->
  cuerpo_falla ent sana s =
  if pin_value ent PinFlotante (n_flotante s)
  then (Normal true, tras_flotante true s, [EvPin PinFlotante true])
  else (Normal false,
        con_bomba sana (con_estado_bomba false) (tras_flotante false s),
        [EvPin PinFlotante false; EvRele sana false]).
Proof.
  intros Hf. unfold cuerpo_falla. unfold bind at 1.
  rewrite verificar_flotante_run.
  destruct (pin_value ent PinFlotante (n_flotante s)).
  - unfold bind, gets, ret.
    replace (estado_falla (bomba sana (tras_flotante true s)))
      with true by (destruct sana; exact (eq_sym Hf)).
    reflexivity.
  - reflexivity.
Qed.

(** C7 fails as stated: [marcha()] on a faulted pump returns normally and
    leaves it running. *)
Lemma marcha_no_rechaza_en_falla :
  estado_falla (b1 (fallar B1 estado_inicial)) = true /\
  exists s' : Sistema,
    marcha B1 (fallar B1 estado_inicial) = (Normal tt, s', [EvRele B1 true]) /\
    estado_bomba (b1 s') = true /\
    estado_falla (b1 s') = true.
Proof.
  split; [reflexivity|]. eexists. split; [reflexivity|]. split; reflexivity.
Qed.

(** C7, as the code has it. [marcha()] has no guard: for every pump,
    faulted or not, it switches the relay on, sets [estado_bomba] and raises
    nothing; [estado_falla] is not read and not changed. The test of
    [estado_falla] is made by the caller in the single-fault loops of
    [verificar_falla], whose iteration never starts a pump that is faulted. *)
Theorem marcha_sin_guarda :
  (forall (i : id_bomba) (s : Sistema),
     exists s' : Sistema,
       marcha i s = (Normal tt, s', [EvRele i true]) /\
       estado_bomba (bomba i s') = true /\
       estado_falla (bomba i s') = estado_falla (bomba i s) /\
       bomba (otra i) s' = bomba (otra i) s) /\
  (forall (ent : Entradas) (sana : id_bomba) (s : Sistema),
     estado_falla (bomba sana s) = true ->
     exists (a : bool) (s' : Sistema) (ev : list evento),
       cuerpo_falla ent sana s = (Normal a, s', ev) /\
       Forall (fun e => es_arranque e = false) ev /\
       estado_falla (bomba sana s') = true /\
       (estado_bomba (bomba sana s) = false ->
        estado_bomba (bomba sana s') = false)).
Proof.
  split.
  - intros i s. eexists. rewrite marcha_run. split; [reflexivity|].
    destruct i; cbn; auto.
  - intros ent sana s Hf. rewrite (cuerpo_falla_en_falla ent sana s Hf).
    destruct (pin_value ent PinFlotante (n_flotante s)).
    + eexists _, _, _. split; [reflexivity|].
      split; [repeat constructor|].
      destruct sana; cbn; auto.
    + eexists _, _, _. split; [reflexivity|].
      split; [repeat constructor|].
      destruct sana; cbn; auto.
Qed.

(** ** Temperature measurement *)

Lemma cuerpo_temperatura_run (ent : Entradas) (i : id_bomba) (s : Sistema) :
  cuerpo_temperatura ent i s =
  if ow_convert ent (n_convert s) then
    match ow_read ent (n_read s) (id_temp (bomba i s)) with
    | Some t =>
        if temp_falla (bomba i s) <=? int_of_float t
        then (Normal tt, fallar i (avanza_read (avanza_convert s)),
              [EvConvertTemp; EvSleep 1000; EvReadTemp (id_temp (bomba i s));
               EvRele i false])
        else (Normal tt,
              con_bomba i (con_temperatura (int_of_float t))
                (avanza_read (avanza_convert s)),
              [EvConvertTemp; EvSleep 1000; EvReadTemp (id_temp (bomba i s))])
    | None =>
        (Lanza CRCError, avanza_read (avanza_convert s),
         [EvConvertTemp; EvSleep 1000; EvReadTemp (id_temp (bomba i s))])
    end
  else (Lanza OneWireError, avanza_convert s, [EvConvertTemp]).
Proof.
  unfold cuerpo_temperatura. unfold bind at 1. unfold convert_temp.
  destruct (ow_convert ent (n_convert s)); [|reflexivity].
  unfold bind, sleep_ms, emit, gets, read_temp.
  replace (id_temp (bomba i (avanza_convert s))) with (id_temp (bomba i s))
    by (destruct i; reflexivity).
  cbn [n_read avanza_convert].
  destruct (ow_read ent (n_read s) (id_temp (bomba i s))) as [t|]; [|reflexivity].
  replace (temp_falla (bomba i (avanza_read (avanza_convert s))))
    with (temp_falla (bomba i s)) by (destruct i; reflexivity).
  destruct (temp_falla (bomba i s) <=? int_of_float t); reflexivity.
Qed.

(** C8 fails as stated: the handler is not empty; when the conversion
    raises, the call ends with a reset of the one-wire bus. *)
Lemma medir_temperatura_reinicia_bus :
  exists s1 : Sistema,
    cuerpo_temperatura ent_sin_sensor B1 estado_inicial
      = (Lanza OneWireError, s1, [EvConvertTemp]) /\
    medir_temperatura ent_sin_sensor B1 estado_inicial
      = (Normal tt, s1, [EvConvertTemp; EvOwReset]) /\
    [EvConvertTemp; EvOwReset] <> [EvConvertTemp].
Proof.
  eexists. split; [reflexivity|]. split; [reflexivity|]. discriminate.
Qed.

(** C8, as the code has it. When the [try] block of [medir_temperatura]
    raises, the bare [except] catches the error and its only action is
    [ow.reset()]: the call returns normally, the pump is not faulted by it,
    and both pumps (so [estado_falla], [estado_bomba] and [temperatura]),
    [ciclo] and [flotante_previo] are as before the call; nothing is written
    to a relay or to the display. *)
Theorem medir_temperatura_error (ent : Entradas) (i : id_bomba) (s s1 : Sistema)
    (e : excepcion) (ev1 : list evento) :
  cuerpo_temperatura ent i s = (Lanza e, s1, ev1) ->
  medir_temperatura ent i s = (Normal tt, s1, ev1 ++ [EvOwReset]) /\
  b1 s1 = b1 s /\ b2 s1 = b2 s /\
  ciclo s1 = ciclo s /\ flotante_previo s1 = flotante_previo s /\
  (ev1 = [EvConvertTemp] \/
   ev1 = [EvConvertTemp; EvSleep 1000; EvReadTemp (id_temp (bomba i s))]).
Proof.
  intros Hc. unfold medir_temperatura, try_except. rewrite Hc.
  split; [reflexivity|].
  rewrite cuerpo_temperatura_run in Hc.
  destruct (ow_convert ent (n_convert s)).
  - destruct (ow_read ent (n_read s) (id_temp (bomba i s))) as [t|].
    + destruct (temp_falla (bomba i s) <=? int_of_float t); discriminate Hc.
    + injection Hc as _ <- <-. cbn. auto 10.
  - injection Hc as _ <- <-. cbn. auto 10.
Qed.

Lemma medir_temperatura_error_witness :
  medir_temperatura ent_sin_sensor B2 estado_inicial
    = (Normal tt, avanza_convert estado_inicial, [EvConvertTemp] ++ [EvOwReset]) /\
  b1 (avanza_convert estado_inicial) = b1 estado_inicial /\
  b2 (avanza_convert estado_inicial) = b2 estado_inicial /\
  ciclo (avanza_convert estado_inicial) = ciclo estado_inicial /\
  flotante_previo (avanza_convert estado_inicial) = flotante_previo estado_inicial /\
  ([EvConvertTemp] = [EvConvertTemp] \/
   [EvConvertTemp]
   = [EvConvertTemp; EvSleep 1000; EvReadTemp (id_temp (bomba B2 estado_inicial))]).
Proof.
  apply (medir_temperatura_error ent_sin_sensor B2 estado_inicial
           (avanza_convert estado_inicial) OneWireError [EvConvertTemp]).
  reflexivity.
Defined.

(** ** Display *)

Lemma length_append (a b : string) :
  String.length (a ++ b) = (String.length a + String.length b)%nat.
Proof. induction a as [|c a IH]; cbn; [reflexivity|now rewrite IH]. Qed.

Lemma length_espacios (n : nat) : String.length (espacios n) = n.
Proof. induction n as [|n IH]; cbn; [reflexivity|now rewrite IH]. Qed.

Lemma center_length (l : string) (w : nat) :
  String.length (center l w) = Nat.max w (String.length l).
Proof.
  unfold center. destruct (w <=? String.length l)%nat eqn:Hw.
  - apply Nat.leb_le in Hw. lia.
  - apply Nat.leb_gt in Hw.
    rewrite !length_append, !length_espacios.
    assert (Hh : (Nat.div (w - String.length l) 2 <= w - String.length l)%nat).
    { apply Nat.Div0.div_le_upper_bound. lia. }
    assert (Hodd : Nat.odd (w - String.length l) && Nat.odd w = true ->
                   (Nat.div (w - String.length l) 2 < w - String.length l)%nat).
    { intros _. apply Nat.div_lt; lia. }
    destruct (Nat.odd (w - String.length l) && Nat.odd w); [specialize (Hodd eq_refl)|];
      lia.
Qed.

(** ** Reasoning rules for the monad *)

Lemma wp_ret {A : Type} (a : A) (Q : A -> Sistema -> Prop)
    (E : evento -> Prop) (s : Sistema) :
  Q a s -> wp (ret a) Q E s.
Proof. intros H. exists a, s, []. repeat split; auto. Qed.

Lemma wp_bind {A B : Type} (m : M A) (k : A -> M B) (Q : B -> Sistema -> Prop)
    (E : evento -> Prop) (s : Sistema) :
  wp m (fun a s1 => wp (k a) Q E s1) E s -> wp (bind m k) Q E s.
Proof.
  intros (a & s1 & ev1 & Hm & (b & s2 & ev2 & Hk & HQ & HE2) & HE1).
  exists b, s2, (ev1 ++ ev2). unfold bind. rewrite Hm, Hk.
  repeat split; auto. apply Forall_app; auto.
Qed.

Lemma wp_conseq {A : Type} (m : M A) (Q Q' : A -> Sistema -> Prop)
    (E E' : evento -> Prop) (s : Sistema) :
  wp m Q' E' s ->
  (forall a s', Q' a s' -> Q a s') ->
  (forall e, E' e -> E e) ->
  wp m Q E s.
Proof.
  intros (a & s' & ev & Hm & HQ & HE) HQQ HEE.
  exists a, s', ev. repeat split; auto.
  eapply Forall_impl; [exact HEE|exact HE].
Qed.

Lemma wp_gets {A : Type} (f : Sistema -> A) (Q : A -> Sistema -> Prop)
    (E : evento -> Prop) (s : Sistema) :
  Q (f s) s -> wp (gets f) Q E s.
Proof. intros H. exists (f s), s, []. repeat split; auto. Qed.

Lemma wp_run {A : Type} (m : M A) (Q : A -> Sistema -> Prop)
    (E : evento -> Prop) (s s' : Sistema) (a : A) (ev : list evento) :
  m s = (Normal a, s', ev) -> Q a s' -> Forall E ev -> wp m Q E s.
Proof. intros Hm HQ HE. exists a, s', ev. auto. Qed.

Lemma no_arranque_permitido (s : Sistema) (e : evento) :
  es_arranque e = false -> arranque_permitido s e.
Proof. intros H i ->. discriminate H. Qed.

Lemma reposo_no_arranque (e : evento) :
  es_reposo e = true -> es_arranque e = false.
Proof. destruct e as [i [|]| | | | | [| |] v | | | |]; cbn; congruence. Qed.

Lemma pantalla_reposo (e : evento) :
  es_pantalla e = true -> es_reposo e = true.
Proof. destruct e as [i [|]| | | | | [| |] v | | | |]; cbn; congruence. Qed.

Lemma eventos_display_pantalla (linea1 linea2 : string) :
  Forall (fun e => es_pantalla e = true) (eventos_display linea1 linea2).
Proof. repeat constructor. Qed.

Lemma eventos_ventana_no_arranque (ent : Entradas) (n : nat) :
  forall k : nat,
    Forall (fun e => es_arranque e = false) (eventos_ventana ent k n).
Proof.
  unfold eventos_ventana.
  induction n as [|n IH]; intros k; cbn [seq flat_map app].
  - constructor.
  - constructor; [reflexivity|]. constructor; [reflexivity|]. apply IH.
Qed.

Lemma tras_medida_trans (i : id_bomba) (s s1 s2 : Sistema) :
  tras_medida i s s1 -> tras_medida i s1 s2 -> tras_medida i s s2.
Proof.
  intros [Ho1 H1] [Ho2 H2]. split; [congruence|].
  destruct H2 as [H2|[Hf2 Hb2]]; [now left|].
  destruct H1 as [[Hf1 Hb1]|[Hf1 Hb1]].
  - left. split; congruence.
  - right. split; congruence.
Qed.

(** ** Effects of the measurements *)

Lemma medir_corriente_wp (ent : Entradas) (i : id_bomba) (s : Sistema) :
  wp (medir_corriente ent i) (fun _ s' => tras_medida i s s')
     (fun e => es_arranque e = false) s.
Proof.
  destruct (medir_corriente_run ent i s) as (maximo & _ & Hrun).
  destruct (Qle_bool (corriente_falla (bomba i s)) maximo).
  - eapply wp_run; [exact Hrun| |].
    + destruct (fallar_bomba i (con_n_adc (n_adc s + MUESTRAS) s))
        as (Hf & Hb & _ & _ & Ho).
      split; [rewrite Ho; destruct i; reflexivity|]. left. split; assumption.
    + apply Forall_app. split; [apply eventos_ventana_no_arranque|].
      repeat constructor.
  - eapply wp_run; [exact Hrun| |].
    + split; [destruct i; reflexivity|]. right. destruct i; split; reflexivity.
    + apply Forall_app. split; [apply eventos_ventana_no_arranque|].
      constructor.
Qed.

Lemma medir_temperatura_run (ent : Entradas) (i : id_bomba) (s : Sistema) :
  medir_temperatura ent i s =
  if ow_convert ent (n_convert s) then
    match ow_read ent (n_read s) (id_temp (bomba i s)) with
    | Some t =>
        if temp_falla (bomba i s) <=? int_of_float t
        then (Normal tt, fallar i (avanza_read (avanza_convert s)),
              [EvConvertTemp; EvSleep 1000; EvReadTemp (id_temp (bomba i s));
               EvRele i false])
        else (Normal tt,
              con_bomba i (con_temperatura (int_of_float t))
                (avanza_read (avanza_convert s)),
              [EvConvertTemp; EvSleep 1000; EvReadTemp (id_temp (bomba i s))])
    | None =>
        (Normal tt, avanza_read (avanza_convert s),
         [EvConvertTemp; EvSleep 1000; EvReadTemp (id_temp (bomba i s));
          EvOwReset])
    end
  else (Normal tt, avanza_convert s, [EvConvertTemp; EvOwReset]).
Proof.
  unfold medir_temperatura, try_except. rewrite cuerpo_temperatura_run.
  destruct (ow_convert ent (n_convert s)); [|reflexivity].
  destruct (ow_read ent (n_read s) (id_temp (bomba i s))) as [t|]; [|reflexivity].
  destruct (temp_falla (bomba i s) <=? int_of_float t); reflexivity.
Qed.

Lemma medir_temperatura_wp (ent : Entradas) (i : id_bomba) (s : Sistema) :
  wp (medir_temperatura ent i) (fun _ s' => tras_medida i s s')
     (fun e => es_arranque e = false) s.
Proof.
  pose proof (medir_temperatura_run ent i s) as Hrun.
  destruct (ow_convert ent (n_convert s)).
  - destruct (ow_read ent (n_read s) (id_temp (bomba i s))) as [t|].
    + destruct (temp_falla (bomba i s) <=? int_of_float t).
      * eapply wp_run; [exact Hrun| |repeat constructor].
        destruct (fallar_bomba i (avanza_read (avanza_convert s)))
          as (Hf & Hb & _ & _ & Ho).
        split; [rewrite Ho; destruct i; reflexivity|]. left. split; assumption.
      * eapply wp_run; [exact Hrun| |repeat constructor].
        split; [destruct i; reflexivity|]. right. destruct i; split; reflexivity.
    + eapply wp_run; [exact Hrun| |repeat constructor].
      split; [destruct i; reflexivity|]. right. destruct i; split; reflexivity.
  - eapply wp_run; [exact Hrun| |repeat constructor].
    split; [destruct i; reflexivity|]. right. destruct i; split; reflexivity.
Qed.

(** The two measurements of an activation, one after the other. *)
Lemma medidas_wp (ent : Entradas) (i : id_bomba) (s : Sistema) {A : Type}
    (k : M A) (Q : A -> Sistema -> Prop) (E : evento -> Prop) :
  (forall e, es_arranque e = false -> E e) ->
  (forall s', tras_medida i s s' -> wp k Q E s') ->
  wp (medir_corriente ent i;; medir_temperatura ent i;; k) Q E s.
Proof.
  intros HE Hk.
  apply wp_bind. eapply wp_conseq; [apply medir_corriente_wp| |exact HE].
  intros [] s1 H1. cbv beta.
  apply wp_bind. eapply wp_conseq; [apply medir_temperatura_wp| |exact HE].
  intros [] s2 H2. cbv beta.
  apply Hk. eapply tras_medida_trans; eassumption.
Qed.

Lemma mostrar_medidas_run (i : id_bomba) (s : Sistema) :
  mostrar_medidas i s =
  (Normal tt, s,
   EvSleep 2000
     :: eventos_display (linea_corriente i (bomba i s)) (linea_temperatura i (bomba i s))
     ++ [EvSleep 2000]).
Proof. reflexivity. Qed.

Lemma mostrar_medidas_pantalla (i : id_bomba) (s : Sistema) :
  Forall (fun e => es_pantalla e = true)
    (EvSleep 2000
       :: eventos_display (linea_corriente i (bomba i s)) (linea_temperatura i (bomba i s))
       ++ [EvSleep 2000]).
Proof. repeat constructor. Qed.

Lemma cuerpo_alarma_run (linea : string) (s : Sistema) :
  cuerpo_alarma linea s =
  (Normal tt, s,
   eventos_display "Falla en" "ambas bombas" ++ EvSleep 5000
     :: eventos_display "Llamar al" linea ++ [EvSleep 5000]).
Proof. reflexivity. Qed.

Lemma verificar_falla_run (s : Sistema) :
  verificar_falla s =
  if estado_falla (b1 s) && estado_falla (b2 s)
  then (Normal (Some BucleAmbas),
        con_bomba B2 (con_estado_bomba false) (con_bomba B1 (con_estado_bomba false) s),
        [EvRele B1 false; EvRele B2 false])
  else if estado_falla (b1 s)
  then (Normal (Some BucleFallaB1), con_bomba B1 (con_estado_bomba false) s,
        [EvRele B1 false])
  else if estado_falla (b2 s)
  then (Normal (Some BucleFallaB2), con_bomba B2 (con_estado_bomba false) s,
        [EvRele B2 false])
  else (Normal None, s, []).
Proof.
  unfold verificar_falla, bind, gets.
  destruct (estado_falla (b1 s)), (estado_falla (b2 s)); reflexivity.
Qed.

(** ** The main loop *)

Lemma marcha_manual_wp (ent : Entradas) (s : Sistema) :
  wp (marcha_manual ent) (fun _ s' => mismas_fallas s s') (fun _ => True) s.
Proof.
  unfold wp, marcha_manual. unfold bind at 1.
  unfold verificar_manual, bind at 1. unfold pin_read, ret. cbn [n_pin].
  destruct (pin_value ent PinManual (n_manual s)).
  - unfold bind at 1. unfold verificar_bomba1, bind at 1.
    unfold pin_read, ret. cbn [n_pin avanza_pin n_bomba1].
    destruct (pin_value ent PinBomba1 (n_bomba1 s));
      (eexists _, _, _; split; [reflexivity|];
       split; [split; reflexivity|apply Forall_forall; auto]).
  - eexists _, _, _. split; [reflexivity|].
    split; [split; reflexivity|apply Forall_forall; auto].
Qed.

Lemma marcha_auto_wp (ent : Entradas) (s : Sistema) :
  wp (marcha_auto ent) (fun _ s' => mismas_fallas s s') (fun _ => True) s.
Proof.
  unfold wp, marcha_auto. unfold bind at 1.
  unfold verificar_manual, bind at 1. unfold pin_read, ret. cbn [n_pin].
  destruct (pin_value ent PinManual (n_manual s)); cbn [negb].
  - eexists _, _, _. split; [reflexivity|].
    split; [split; reflexivity|apply Forall_forall; auto].
  - unfold bind at 1. unfold bind at 1. rewrite verificar_flotante_run.
    cbn [n_flotante avanza_pin].
    destruct (pin_value ent PinFlotante (n_flotante s)).
    + unfold bind at 1. unfold gets.
      match goal with |- context [?c mod 2 =? 0] => destruct (c mod 2 =? 0) end;
        (eexists _, _, _; split; [reflexivity|];
         split; [split; reflexivity|apply Forall_forall; auto]).
    + eexists _, _, _. split; [reflexivity|].
      split; [split; reflexivity|apply Forall_forall; auto].
Qed.

Lemma Forall_True (ev : list evento) : Forall (fun _ : evento => True) ev.
Proof. apply Forall_forall. auto. Qed.

Lemma supervisar_wp (ent : Entradas) (i : id_bomba) (en_marcha : bool)
    (s : Sistema) :
  estado_falla (b1 s) = false ->
  estado_falla (b2 s) = false ->
  wp (supervisar ent i en_marcha)
     (fun r s' =>
        match r with
        | None => estado_falla (b1 s') = false /\ estado_falla (b2 s') = false
        | Some l => Inv l s' /\ l <> BucleMain
        end)
     (fun _ => True) s.
Proof.
  intros H1 H2. destruct en_marcha; [|apply wp_ret; auto].
  unfold supervisar. apply medidas_wp; [auto|]. intros s2 [Ho Hi].
  apply wp_bind, wp_gets.
  destruct (estado_falla (bomba i s2)) eqn:Hf; cbn [negb].
  - assert (Hav : averiada (bomba i s2)).
    { destruct Hi as [Hi|[Hi _]]; [exact Hi|].
      destruct i; cbn [bomba] in *; congruence. }
    destruct Hav as [_ Hb].
    unfold wp. rewrite verificar_falla_run.
    destruct i; cbn [bomba otra] in *.
    + assert (H2' : estado_falla (b2 s2) = false) by congruence.
      rewrite Hf, H2'. cbn [andb].
      eexists _, _, _. split; [reflexivity|]. split; [|apply Forall_True].
      split; [|discriminate]. cbn. unfold averiada, coherente. cbn.
      rewrite Hf, H2'. repeat split; congruence.
    + assert (H1' : estado_falla (b1 s2) = false) by congruence.
      rewrite Hf, H1'. cbn [andb].
      eexists _, _, _. split; [reflexivity|]. split; [|apply Forall_True].
      split; [|discriminate]. cbn. unfold averiada, coherente. cbn.
      rewrite Hf, H1'. repeat split; congruence.
  - apply wp_bind.
    eapply wp_run; [apply mostrar_medidas_run| |apply Forall_True].
    apply wp_ret. destruct i; cbn [bomba otra] in *; split; congruence.
Qed.

Lemma cuerpo_main_wp (ent : Entradas) (s : Sistema) :
  Inv BucleMain s ->
  wp (cuerpo_main ent) (fun l s' => Inv l s') (fun _ => True) s.
Proof.
  intros [H1 H2]. unfold cuerpo_main.
  apply wp_bind. eapply wp_conseq; [apply marcha_manual_wp| |auto].
  intros _ s1 [Ha1 Ha2]. cbv beta.
  apply wp_bind. eapply wp_conseq; [apply marcha_auto_wp| |auto].
  intros _ s2 [Hb1 Hb2]. cbv beta.
  apply wp_bind, wp_gets. apply wp_bind, wp_gets.
  apply wp_bind.
  eapply wp_conseq; [apply supervisar_wp; congruence| |auto].
  intros [l|] s3 H3; cbv beta.
  - apply wp_ret. apply H3.
  - destruct H3 as [H31 H32]. apply wp_bind.
    eapply wp_conseq; [apply supervisar_wp; congruence| |auto].
    intros [l|] s4 H4; apply wp_ret; [apply H4|exact H4].
Qed.

(** ** The single-fault loops *)

Lemma cuerpo_falla_wp (ent : Entradas) (sana : id_bomba) (s : Sistema) :
  coherente (bomba sana s) ->
  wp (cuerpo_falla ent sana)
     (fun a s' =>
        bomba (otra sana) s' = bomba (otra sana) s /\
        (if a then averiada (bomba sana s') else coherente (bomba sana s')) /\
        (estado_falla (bomba sana s) = true ->
         estado_falla (bomba sana s') = true))
     (arranque_permitido s) s.
Proof.
  intros Hco. destruct (estado_falla (bomba sana s)) eqn:Hf.
  - pose proof (cuerpo_falla_en_falla ent sana s Hf) as Hrun.
    specialize (Hco Hf).
    destruct (pin_value ent PinFlotante (n_flotante s)).
    + eapply wp_run; [exact Hrun| |].
      * destruct sana; cbn [bomba otra tras_flotante b1 b2] in *;
          unfold averiada; auto.
      * constructor; [|constructor]. apply no_arranque_permitido. reflexivity.
    + eapply wp_run; [exact Hrun| |].
      * destruct sana; cbn in *; unfold coherente; cbn; auto.
      * repeat constructor; apply no_arranque_permitido; reflexivity.
  - unfold cuerpo_falla. apply wp_bind.
    eapply wp_run; [apply verificar_flotante_run| |].
    2:{ constructor; [|constructor]. apply no_arranque_permitido. reflexivity. }
    destruct (pin_value ent PinFlotante (n_flotante s)).
    + apply wp_bind, wp_gets.
      replace (estado_falla (bomba sana (tras_flotante true s))) with false
        by (destruct sana; cbn in *; congruence).
      cbn [negb]. apply wp_bind.
      eapply wp_run; [apply marcha_run| |].
      2:{ constructor; [|constructor]. intros i [= <-]. exact Hf. }
      apply wp_bind. eapply wp_run; [apply display_run| |].
      2:{ eapply Forall_impl; [|apply eventos_display_pantalla].
          intros e He. apply no_arranque_permitido.
          apply reposo_no_arranque, pantalla_reposo, He. }
      apply medidas_wp; [intros e He; now apply no_arranque_permitido|].
      intros s2 [Ho Hi].
      apply wp_bind, wp_gets. apply wp_bind.
      assert (Hpost :
        bomba (otra sana) s2 = bomba (otra sana) s /\
        coherente (bomba sana s2)).
      { split; [rewrite Ho; destruct sana; reflexivity|].
        destruct Hi as [[_ Hb]|[Hf2 _]]; intros Hx; [exact Hb|].
        rewrite Hx in Hf2. destruct sana; cbn in *; congruence. }
      destruct (estado_falla (bomba sana s2)); cbn [negb].
      * apply wp_ret, wp_ret.
        split; [apply Hpost|]. split; [apply Hpost|discriminate].
      * eapply wp_run; [apply mostrar_medidas_run| |].
        2:{ eapply Forall_impl; [|apply mostrar_medidas_pantalla].
            intros e He. apply no_arranque_permitido.
            apply reposo_no_arranque, pantalla_reposo, He. }
        apply wp_ret.
        split; [apply Hpost|]. split; [apply Hpost|discriminate].
    + apply wp_bind. eapply wp_run; [apply parada_run| |].
      2:{ constructor; [|constructor]. apply no_arranque_permitido. reflexivity. }
      apply wp_ret.
      split; [destruct sana; reflexivity|]. split; [|discriminate].
      intros _. destruct sana; reflexivity.
Qed.

(** ** Invariant of the loops *)

Lemma Inv_coherente (l : lugar) (s : Sistema) (i : id_bomba) :
  Inv l s -> coherente (bomba i s).
Proof.
  destruct l, i; cbn; unfold coherente, averiada; intuition congruence.
Qed.

Lemma Inv_doble_falla (l : lugar) (s : Sistema) :
  Inv l s ->
  estado_falla (b1 s) = true ->
  estado_falla (b2 s) = true ->
  l <> BucleMain /\ averiada (b1 s) /\ averiada (b2 s).
Proof.
  unfold averiada. intros HI H1 H2.
  pose proof (Inv_coherente l s B1 HI H1) as Hb1.
  pose proof (Inv_coherente l s B2 HI H2) as Hb2.
  cbn in Hb1, Hb2. repeat split; auto.
  intros ->. destruct HI. congruence.
Qed.

Lemma enclavada_refl (s : Sistema) : enclavada s s.
Proof. intros i H. exact H. Qed.

Lemma enclavada_trans (s s1 s2 : Sistema) :
  enclavada s s1 -> enclavada s1 s2 -> enclavada s s2.
Proof. intros H1 H2 i H. apply H2, H1, H. Qed.

Lemma arranque_permitido_antes (s s1 : Sistema) (e : evento) :
  enclavada s s1 -> arranque_permitido s1 e -> arranque_permitido s e.
Proof.
  intros Hen He i Hi. specialize (He i Hi). specialize (Hen i).
  destruct (estado_falla (bomba i s)); [|reflexivity].
  rewrite Hen in He; [discriminate He|reflexivity].
Qed.

Lemma cuerpo_alarma_pantalla (linea : string) :
  Forall (fun e => es_pantalla e = true)
    (eventos_display "Falla en" "ambas bombas" ++ EvSleep 5000
       :: eventos_display "Llamar al" linea ++ [EvSleep 5000]).
Proof. repeat constructor. Qed.

Lemma paso_alarma (ent : Entradas) (l : lugar) (s : Sistema) :
  es_alarma l = true ->
  exists ev : list evento,
    paso ent l s = (Normal l, s, ev) /\
    Forall (fun e => es_pantalla e = true) ev.
Proof.
  intros Hl. destruct l; try discriminate Hl; cbn [paso];
    (eexists; split;
     [unfold bind; rewrite cuerpo_alarma_run; unfold ret; rewrite app_nil_r;
      reflexivity
     |apply cuerpo_alarma_pantalla]).
Qed.

Lemma paso_inv (ent : Entradas) (l : lugar) (s : Sistema) :
  Inv l s ->
  wp (paso ent l) (fun l' s' => Inv l' s' /\ enclavada s s')
     (arranque_permitido s) s.
Proof.
  intros HI.
  destruct (es_alarma l) eqn:Hal.
  { destruct (paso_alarma ent l s Hal) as (ev & Hrun & Hev).
    eapply wp_run; [exact Hrun|split; [exact HI|apply enclavada_refl]|].
    eapply Forall_impl; [|exact Hev]. intros e He.
    apply no_arranque_permitido, reposo_no_arranque, pantalla_reposo, He. }
  destruct l; try discriminate Hal; cbn [paso].
  - eapply wp_conseq; [apply cuerpo_main_wp, HI| |].
    + intros l' s' HI'. split; [exact HI'|].
      destruct HI as [H1 H2]. intros [|] H; cbn in H; congruence.
    + intros e _ i _. destruct HI as [H1 H2]. destruct i; assumption.
  - destruct HI as [Hav Hco]. apply wp_bind.
    eapply wp_conseq; [apply (cuerpo_falla_wp ent B2 s Hco)| |auto].
    intros a s' (Ho & Ha & Hen). cbn [otra bomba] in *. apply wp_ret.
    split.
    + destruct a; cbn [Inv]; rewrite Ho; auto.
    + intros [|] H; cbn [bomba] in *; [rewrite Ho; exact H|auto].
  - destruct HI as [Hco Hav]. apply wp_bind.
    eapply wp_conseq; [apply (cuerpo_falla_wp ent B1 s Hco)| |auto].
    intros a s' (Ho & Ha & Hen). cbn [otra bomba] in *. apply wp_ret.
    split.
    + destruct a; cbn [Inv]; rewrite Ho; auto.
    + intros [|] H; cbn [bomba] in *; [auto|rewrite Ho; exact H].
Qed.

Lemma iterar_inv (ent : Entradas) (n : nat) :
  forall (l : lugar) (s : Sistema),
    Inv l s ->
    wp (iterar ent n l) (fun l' s' => Inv l' s' /\ enclavada s s')
       (arranque_permitido s) s.
Proof.
  induction n as [|n IH]; intros l s HI; cbn [iterar].
  - apply wp_ret. split; [exact HI|apply enclavada_refl].
  - apply wp_bind. eapply wp_conseq; [apply paso_inv, HI| |auto].
    intros l1 s1 [HI1 Hen1]. cbv beta.
    eapply wp_conseq; [apply IH, HI1| |].
    + intros l2 s2 [HI2 Hen2]. split; [exact HI2|].
      eapply enclavada_trans; eassumption.
    + intros e He. eapply arranque_permitido_antes; eassumption.
Qed.

Lemma inicio_run (s : Sistema) :
  exists ev : list evento,
    inicio s =
    (Normal tt,
     con_bomba B2 (con_estado_bomba false) (con_bomba B1 (con_estado_bomba false) s),
     ev).
Proof. eexists. reflexivity. Qed.

Lemma iterar_add (ent : Entradas) (n m : nat) :
  forall (l l1 : lugar) (s s1 s2 : Sistema) (r : resultado lugar)
         (ev1 ev2 : list evento),
    iterar ent n l s = (Normal l1, s1, ev1) ->
    iterar ent m l1 s1 = (r, s2, ev2) ->
    iterar ent (n + m) l s = (r, s2, ev1 ++ ev2).
Proof.
  induction n as [|n IH]; intros l l1 s s1 s2 r ev1 ev2 H1 H2.
  - cbn in H1. injection H1 as <- <- <-. exact H2.
  - cbn [Nat.add iterar] in *. unfold bind in *.
    destruct (paso ent l s) as [[[l0|e0] s0] ev0]; [|discriminate H1].
    destruct (iterar ent n l0 s0) as [[r' s'] ev'] eqn:Hn.
    injection H1 as -> -> <-.
    rewrite (IH _ _ _ _ _ _ _ _ Hn H2). now rewrite app_assoc.
Qed.

Lemma main_add (ent : Entradas) (n m : nat) (l l' : lugar) (s0 s s' : Sistema)
    (ev ev' : list evento) :
  main ent n s0 = (Normal l, s, ev) ->
  iterar ent m l s = (Normal l', s', ev') ->
  main ent (n + m) s0 = (Normal l', s', ev ++ ev').
Proof.
  unfold main, bind. destruct (inicio s0) as [[[[]|e] si] evi]; [|discriminate].
  destruct (iterar ent n BucleMain si) as [[r sn] evn] eqn:Hn.
  intros [= -> -> <-] Hm.
  rewrite (iterar_add _ _ _ _ _ _ _ _ _ _ _ Hn Hm). now rewrite app_assoc.
Qed.

(** Every run of [main] reaches the head of a loop after each iteration,
    and there the invariant of that loop holds. *)
Lemma main_inv (ent : Entradas) (n : nat) :
  exists (l : lugar) (s : Sistema) (ev : list evento),
    main ent n estado_inicial = (Normal l, s, ev) /\ Inv l s.
Proof.
  destruct (inicio_run estado_inicial) as (ev0 & Hini).
  destruct (iterar_inv ent n BucleMain
              (con_bomba B2 (con_estado_bomba false)
                 (con_bomba B1 (con_estado_bomba false) estado_inicial)))
    as (l & s & ev & Hrun & [HI _] & _).
  { split; reflexivity. }
  exists l, s, (ev0 ++ ev). split; [|exact HI].
  unfold main, bind. rewrite Hini, Hrun. reflexivity.
Qed.

(** Between two loop heads of a run of [main]: a pump that is faulted at
    the first is stopped there, and is still faulted and stopped at the
    second, its relay never having been switched on in between. *)
Lemma falla_enclavada_cabeceras (ent : Entradas) (n m : nat) :
  exists (l l' : lugar) (s s' : Sistema) (ev ev' : list evento),
    main ent n estado_inicial = (Normal l, s, ev) /\
    iterar ent m l s = (Normal l', s', ev') /\
    main ent (n + m) estado_inicial = (Normal l', s', ev ++ ev') /\
    (forall i : id_bomba,
       estado_falla (bomba i s) = true -> estado_bomba (bomba i s) = false) /\
    (forall i : id_bomba,
       estado_falla (bomba i s) = true ->
       estado_falla (bomba i s') = true /\
       estado_bomba (bomba i s') = false /\
       Forall (fun e => e <> EvRele i true) ev').
Proof.
  destruct (main_inv ent n) as (l & s & ev & Hmain & HI).
  destruct (iterar_inv ent m l s HI) as (l' & s' & ev' & Hrun & [HI' Hen] & Hev).
  exists l, l', s, s', ev, ev'.
  split; [exact Hmain|]. split; [exact Hrun|].
  split; [exact (main_add _ _ _ _ _ _ _ _ _ _ Hmain Hrun)|].
  split; [intros i; apply (Inv_coherente l s i HI)|].
  intros i Hf. split; [apply Hen, Hf|].
  split; [apply (Inv_coherente l' s' i HI'), Hen, Hf|].
  eapply Forall_impl; [|exact Hev].
  intros e He ->. specialize (He i eq_refl). congruence.
Qed.

(** A run in which the latch is engaged: pump 1, started in manual mode,
    draws 25 A and is faulted by the first iteration. *)
Example falla_alcanzable :
  exists (s : Sistema) (ev : list evento),
    main ent_doble_falla 1 estado_inicial = (Normal BucleFallaB1, s, ev) /\
    arrancada ev = Some B1 /\
    estado_falla (b1 s) = true /\
    estado_bomba (b1 s) = false /\
    estado_falla (b2 s) = false.
Proof.
  eexists _, _. split; [vm_compute; reflexivity|]. repeat split; reflexivity.
Qed.

(** ** Both pumps faulted *)

Lemma iterar_alarma (ent : Entradas) (n : nat) (l : lugar) (s : Sistema) :
  es_alarma l = true ->
  exists ev : list evento,
    iterar ent n l s = (Normal l, s, ev) /\
    Forall (fun e => es_pantalla e = true) ev.
Proof.
  intros Hl. induction n as [|n (ev & Hrun & Hev)].
  - exists []. split; [reflexivity|constructor].
  - destruct (paso_alarma ent l s Hl) as (ev1 & Hp & Hev1).
    exists (ev1 ++ ev). cbn [iterar]. unfold bind. rewrite Hp, Hrun.
    split; [reflexivity|]. apply Forall_app. auto.
Qed.

(** An iteration of a single-fault loop when the other pump is faulted
    too: one poll of the float, which decides between the nested alarm loop
    and one more round. *)
Lemma paso_falla_doble (ent : Entradas) (s : Sistema) :
  estado_falla (b1 s) = true ->
  estado_falla (b2 s) = true ->
  paso ent BucleFallaB1 s =
    (if pin_value ent PinFlotante (n_flotante s)
     then (Normal BucleFallaB1Ambas, tras_flotante true s, [EvPin PinFlotante true])
     else (Normal BucleFallaB1,
           con_bomba B2 (con_estado_bomba false) (tras_flotante false s),
           [EvPin PinFlotante false; EvRele B2 false])) /\
  paso ent BucleFallaB2 s =
    (if pin_value ent PinFlotante (n_flotante s)
     then (Normal BucleFallaB2Ambas, tras_flotante true s, [EvPin PinFlotante true])
     else (Normal BucleFallaB2,
           con_bomba B1 (con_estado_bomba false) (tras_flotante false s),
           [EvPin PinFlotante false; EvRele B1 false])).
Proof.
  intros H1 H2. cbn [paso]. unfold bind.
  rewrite (cuerpo_falla_en_falla ent B2 s H2), (cuerpo_falla_en_falla ent B1 s H1).
  destruct (pin_value ent PinFlotante (n_flotante s)); split; reflexivity.
Qed.

Lemma paso_doble_falla (ent : Entradas) (l : lugar) (s : Sistema) :
  l <> BucleMain ->
  averiada (b1 s) ->
  averiada (b2 s) ->
  wp (paso ent l)
     (fun l' s' => l' <> BucleMain /\ averiada (b1 s') /\ averiada (b2 s'))
     (fun e => es_reposo e = true) s.
Proof.
  intros Hl Ha1 Ha2.
  destruct (es_alarma l) eqn:Hal.
  { destruct (paso_alarma ent l s Hal) as (ev & Hrun & Hev).
    eapply wp_run; [exact Hrun|auto|].
    eapply Forall_impl; [|exact Hev]. intros e He. apply pantalla_reposo, He. }
  destruct (paso_falla_doble ent s (proj1 Ha1) (proj1 Ha2)) as [E1 E2].
  destruct l; try discriminate Hal; [congruence| |].
  - destruct (pin_value ent PinFlotante (n_flotante s));
      (eapply wp_run; [exact E1| |repeat constructor]);
      (split; [discriminate|]); split; [exact Ha1|exact Ha2|exact Ha1|].
    destruct Ha2. split; [assumption|reflexivity].
  - destruct (pin_value ent PinFlotante (n_flotante s));
      (eapply wp_run; [exact E2| |repeat constructor]);
      (split; [discriminate|]); split; [exact Ha1|exact Ha2| |exact Ha2].
    destruct Ha1. split; [assumption|reflexivity].
Qed.

Lemma iterar_doble_falla (ent : Entradas) (n : nat) :
  forall (l : lugar) (s : Sistema),
    l <> BucleMain ->
    averiada (b1 s) ->
    averiada (b2 s) ->
    wp (iterar ent n l)
       (fun l' s' => l' <> BucleMain /\ averiada (b1 s') /\ averiada (b2 s'))
       (fun e => es_reposo e = true) s.
Proof.
  induction n as [|n IH]; intros l s Hl Ha1 Ha2; cbn [iterar].
  - apply wp_ret. auto.
  - apply wp_bind.
    eapply wp_conseq; [apply paso_doble_falla; assumption| |auto].
    intros l1 s1 (Hl1 & Hb1 & Hb2). cbv beta. apply IH; assumption.
Qed.

(** C3 fails as stated: in this run both pumps are faulted after two
    iterations, inside the single-fault loop of pump 1; the temperature of
    pump 2 was still measured after its current fault, and the next
    iteration polls the float switch again and stays in the same loop, not
    in an alarm loop. *)
Lemma doble_falla_sigue_sensando :
  exists (s1 s2 s3 : Sistema) (ev1 ev2 : list evento),
    main ent_doble_falla 1 estado_inicial = (Normal BucleFallaB1, s1, ev1) /\
    paso ent_doble_falla BucleFallaB1 s1 = (Normal BucleFallaB1, s2, ev2) /\
    skipn 2007 ev2 =
      [EvRele B2 false; EvConvertTemp; EvSleep 1000; EvReadTemp (id_temp (b2 s1))] /\
    estado_falla (b1 s2) = true /\
    estado_falla (b2 s2) = true /\
    paso ent_doble_falla BucleFallaB1 s2 =
      (Normal BucleFallaB1, s3, [EvPin PinFlotante false; EvRele B2 false]) /\
    es_sensado (EvPin PinFlotante false) = true /\
    es_alarma BucleFallaB1 = false.
Proof.
  eexists _, _, _, _, _.
  split; [vm_compute; reflexivity|].
  split; [vm_compute; reflexivity|].
  split; [vm_compute; reflexivity|].
  split; [reflexivity|]. split; [reflexivity|].
  split; [vm_compute; reflexivity|].
  split; reflexivity.
Qed.

(** C3, as the code has it. (1) [verificar_falla] entered with both pumps
    faulted stops both and goes to the alarm loop. (2) An alarm loop is
    terminal: every iteration stays in it, changes nothing and only writes
    to the display and sleeps. (3) In every run of [main], from a loop head
    where both pumps are faulted no pump is ever started again and neither
    the ADC nor the temperature sensor is read again; both pumps stay
    faulted and stopped; the only input still read is the float switch.
    (4) That poll is what a single-fault loop does once its healthy pump has
    faulted too: it enters its nested alarm loop when the float reads high,
    and otherwise stops the pump and polls again. *)
Theorem doble_falla_terminal (ent : Entradas) :
  (forall s : Sistema,
     estado_falla (b1 s) = true ->
     estado_falla (b2 s) = true ->
     exists s' : Sistema,
       verificar_falla s =
         (Normal (Some BucleAmbas), s', [EvRele B1 false; EvRele B2 false]) /\
       averiada (b1 s') /\ averiada (b2 s')) /\
  (forall (n : nat) (l : lugar) (s : Sistema),
     es_alarma l = true ->
     exists ev : list evento,
       iterar ent n l s = (Normal l, s, ev) /\
       Forall (fun e => es_pantalla e = true) ev) /\
  (forall n m : nat,
     exists (l : lugar) (s : Sistema) (ev : list evento),
       main ent n estado_inicial = (Normal l, s, ev) /\
       (estado_falla (b1 s) = true ->
        estado_falla (b2 s) = true ->
        exists (l' : lugar) (s' : Sistema) (ev' : list evento),
          iterar ent m l s = (Normal l', s', ev') /\
          Forall (fun e => es_reposo e = true) ev' /\
          Forall (fun e => es_arranque e = false) ev' /\
          averiada (b1 s') /\ averiada (b2 s') /\
          l' <> BucleMain)) /\
  (forall s : Sistema,
     estado_falla (b1 s) = true ->
     estado_falla (b2 s) = true ->
     paso ent BucleFallaB1 s =
       (if pin_value ent PinFlotante (n_flotante s)
        then (Normal BucleFallaB1Ambas, tras_flotante true s,
              [EvPin PinFlotante true])
        else (Normal BucleFallaB1,
              con_bomba B2 (con_estado_bomba false) (tras_flotante false s),
              [EvPin PinFlotante false; EvRele B2 false])) /\
     paso ent BucleFallaB2 s =
       (if pin_value ent PinFlotante (n_flotante s)
        then (Normal BucleFallaB2Ambas, tras_flotante true s,
              [EvPin PinFlotante true])
        else (Normal BucleFallaB2,
              con_bomba B1 (con_estado_bomba false) (tras_flotante false s),
              [EvPin PinFlotante false; EvRele B1 false]))).
Proof.
  split; [|split; [|split]].
  - intros s H1 H2. rewrite verificar_falla_run, H1, H2. cbn [andb].
    eexists. split; [reflexivity|]. unfold averiada. cbn. auto.
  - intros n l s Hl. apply iterar_alarma, Hl.
  - intros n m. destruct (main_inv ent n) as (l & s & ev & Hmain & HI).
    exists l, s, ev. split; [exact Hmain|]. intros H1 H2.
    destruct (Inv_doble_falla l s HI H1 H2) as (Hl & Ha1 & Ha2).
    destruct (iterar_doble_falla ent m l s Hl Ha1 Ha2)
      as (l' & s' & ev' & Hrun & (Hl' & Hb1 & Hb2) & Hev).
    exists l', s', ev'. split; [exact Hrun|]. split; [exact Hev|].
    split; [|auto].
    eapply Forall_impl; [|exact Hev]. intros e He. apply reposo_no_arranque, He.
  - intros s H1 H2. apply paso_falla_doble; assumption.
Qed.

(** * Further properties of the program *)

(** ** Manual mode *)

(** X1. A call of [marcha_manual] that reads the manual switch active reads
    the selector, stops the pump that is not selected, sleeps one second,
    starts the selected pump (pump 1 when the selector reads high, pump 2
    otherwise) and shows it on the display; it returns [True] and neither
    polls the float nor touches [ciclo] or the fault flags. A call that reads
    the switch inactive returns [False], reads nothing else and changes no
    program variable. *)
Theorem marcha_manual_tick (ent : Entradas) (s : Sistema) :
  exists (s' : Sistema) (ev : list evento),
    marcha_manual ent s =
      (Normal (pin_value ent PinManual (n_manual s)), s', ev) /\
    n_flotante s' = n_flotante s /\
    ciclo s' = ciclo s /\ flotante_previo s' = flotante_previo s /\
    estado_falla (b1 s') = estado_falla (b1 s) /\
    estado_falla (b2 s') = estado_falla (b2 s) /\
    (pin_value ent PinManual (n_manual s) = false ->
       ev = [EvPin PinManual false] /\
       b1 s' = b1 s /\ b2 s' = b2 s /\ n_bomba1 s' = n_bomba1 s) /\
    (pin_value ent PinManual (n_manual s) = true ->
       let sel := if pin_value ent PinBomba1 (n_bomba1 s) then B1 else B2 in
       ev = [EvPin PinManual true;
             EvPin PinBomba1 (pin_value ent PinBomba1 (n_bomba1 s));
             EvRele (otra sel) false; EvSleep 1000; EvRele sel true] ++
            eventos_display "Modo: Manual" ("Bomba " ++ nombre sel ++ ": ON") /\
       estado_bomba (bomba sel s') = true /\
       estado_bomba (bomba (otra sel) s') = false).
Proof.
  unfold marcha_manual. unfold bind at 1.
  unfold verificar_manual, bind at 1. unfold pin_read, ret. cbn [n_pin].
  destruct (pin_value ent PinManual (n_manual s)).
  - unfold bind at 1. unfold verificar_bomba1, bind at 1.
    unfold pin_read, ret. cbn [n_pin avanza_pin n_bomba1].
    destruct (pin_value ent PinBomba1 (n_bomba1 s));
      (eexists _, _; split; [reflexivity|]; cbn;
       repeat split; try reflexivity; intros; discriminate).
  - eexists _, _. split; [reflexivity|]. cbn.
    repeat split; try reflexivity; intros; discriminate.
Qed.

(** ** Temperature threshold *)

Lemma int_of_float_umbral (L : Z) (t : Q) :
  1 <= L -> (L <= int_of_float t <-> (inject_Z L <= t)%Q).
Proof.
  intros HL. destruct t as [n d]. unfold int_of_float, Qle. cbn [Qnum Qden inject_Z].
  rewrite Z.mul_1_r.
  destruct (Z_lt_le_dec n 0) as [Hn|Hn].
  - assert (Hq : Z.quot n (Z.pos d) <= 0).
    { replace n with (- (- n)) by lia.
      rewrite Z.quot_opp_l by discriminate.
      assert (0 <= Z.quot (- n) (Z.pos d)) by (apply Z.quot_pos; lia). lia. }
    split; intros H; [lia|]. exfalso.
    assert (0 < L * Z.pos d) by (apply Z.mul_pos_pos; lia). lia.
  - rewrite Z.quot_div_nonneg by lia. split; intros H.
    + apply Z.le_trans with (Z.pos d * (n / Z.pos d)).
      * rewrite (Z.mul_comm L). apply Z.mul_le_mono_nonneg_l; lia.
      * apply Z.mul_div_le. lia.
    + apply Z.div_le_lower_bound; lia.
Qed.

(** X2. When the sensor answers [t], [medir_temperatura] compares
    [int(t)], the reading truncated towards zero, with [temp_falla]: at or
    above it the pump ends faulted and stopped and [temperatura] keeps its
    old value; below it [int(t)] is stored and the two flags are untouched.
    For a threshold of at least 1 (the default is 70) the pump faults exactly
    when [t >= temp_falla]. The other pump is never touched. *)
Theorem medir_temperatura_lectura (ent : Entradas) (i : id_bomba) (s : Sistema)
    (t : Q) :
  ow_convert ent (n_convert s) = true ->
  ow_read ent (n_read s) (id_temp (bomba i s)) = Some t ->
  exists (s' : Sistema) (ev : list evento),
    medir_temperatura ent i s = (Normal tt, s', ev) /\
    bomba (otra i) s' = bomba (otra i) s /\
    (temp_falla (bomba i s) <= int_of_float t ->
       estado_falla (bomba i s') = true /\
       estado_bomba (bomba i s') = false /\
       temperatura (bomba i s') = temperatura (bomba i s)) /\
    (int_of_float t < temp_falla (bomba i s) ->
       temperatura (bomba i s') = int_of_float t /\
       estado_falla (bomba i s') = estado_falla (bomba i s) /\
       estado_bomba (bomba i s') = estado_bomba (bomba i s)) /\
    (1 <= temp_falla (bomba i s) ->
       (temp_falla (bomba i s) <= int_of_float t <->
        (inject_Z (temp_falla (bomba i s)) <= t)%Q)).
Proof.
  intros Hc Hr. rewrite medir_temperatura_run, Hc, Hr.
  destruct (temp_falla (bomba i s) <=? int_of_float t) eqn:Hle.
  - apply Z.leb_le in Hle.
    destruct (fallar_bomba i (avanza_read (avanza_convert s)))
      as (Hf & Hb & _ & Ht & Ho).
    eexists _, _. split; [reflexivity|].
    split; [rewrite Ho; destruct i; reflexivity|].
    split; [intros _; rewrite Ht; destruct i; auto|].
    split; [intros H; lia|]. apply int_of_float_umbral.
  - apply Z.leb_gt in Hle.
    eexists _, _. split; [reflexivity|].
    split; [destruct i; reflexivity|].
    split; [intros H; lia|].
    split; [intros _; destruct i; cbn; auto|]. apply int_of_float_umbral.
Qed.

Lemma medir_temperatura_lectura_witness :
  exists (s' : Sistema) (ev : list evento),
    medir_temperatura ent_tibia B1 estado_inicial = (Normal tt, s', ev) /\
    bomba (otra B1) s' = bomba (otra B1) estado_inicial /\
    (temp_falla (bomba B1 estado_inicial) <= int_of_float (699 # 10) ->
       estado_falla (bomba B1 s') = true /\
       estado_bomba (bomba B1 s') = false /\
       temperatura (bomba B1 s') = temperatura (bomba B1 estado_inicial)) /\
    (int_of_float (699 # 10) < temp_falla (bomba B1 estado_inicial) ->
       temperatura (bomba B1 s') = int_of_float (699 # 10) /\
       estado_falla (bomba B1 s') = estado_falla (bomba B1 estado_inicial) /\
       estado_bomba (bomba B1 s') = estado_bomba (bomba B1 estado_inicial)) /\
    (1 <= temp_falla (bomba B1 estado_inicial) ->
       (temp_falla (bomba B1 estado_inicial) <= int_of_float (699 # 10) <->
        (inject_Z (temp_falla (bomba B1 estado_inicial)) <= 699 # 10)%Q)).
Proof.
  apply (medir_temperatura_lectura ent_tibia B1 estado_inicial (699 # 10));
    reflexivity.
Defined.

(** ** Range of the current reading *)

Lemma round1_cerca (q : Q) :
  exists z : Z,
    round1 q = z # 10 /\
    (inject_Z z - (1 # 2) <= q * 10)%Q /\ (q * 10 <= inject_Z z + (1 # 2))%Q.
Proof.
  unfold round1.
  pose proof (Qfloor_le (q * 10)) as Hlo.
  pose proof (Qlt_floor (q * 10)) as Hhi.
  rewrite inject_Z_plus in Hhi. change (inject_Z 1) with 1%Q in Hhi.
  set (f := Qfloor (q * 10)) in *.
  destruct (Qcompare_spec (q * 10 - inject_Z f) (1 # 2)) as [He|Hl|Hg].
  - destruct (Z.even f).
    + exists f. split; [reflexivity|]. split; lra.
    + exists (f + 1). split; [reflexivity|]. rewrite inject_Z_plus. change (inject_Z 1) with 1%Q. split; lra.
  - exists f. split; [reflexivity|]. split; lra.
  - exists (f + 1). split; [reflexivity|]. rewrite inject_Z_plus. change (inject_Z 1) with 1%Q. split; lra.
Qed.

Lemma diez_amperes (raw : Z) :
  (((inject_Z raw * CONVERSION - (165 # 100)) / (66 # 1000)) * 10
   == (inject_Z raw * (500 # 65535)) - 250)%Q.
Proof. unfold CONVERSION. field. Qed.

Lemma amperes_cerca (raw : Z) :
  exists z : Z,
    amperes raw = z # 10 /\
    (inject_Z z - (1 # 2) <= inject_Z raw * (500 # 65535) - 250)%Q /\
    (inject_Z raw * (500 # 65535) - 250 <= inject_Z z + (1 # 2))%Q.
Proof.
  unfold amperes.
  destruct (round1_cerca ((inject_Z raw * CONVERSION - (165 # 100)) / (66 # 1000)))
    as (z & Hz & Hlo & Hhi).
  exists z. split; [exact Hz|]. rewrite diez_amperes in Hlo, Hhi. auto.
Qed.

Lemma amperes_rango (raw : Z) :
  0 <= raw <= 65535 ->
  exists z : Z, amperes raw = z # 10 /\ -250 <= z <= 250.
Proof.
  intros [H0 H1]. destruct (amperes_cerca raw) as (z & Hz & Hlo & Hhi).
  exists z. split; [exact Hz|].
  rewrite Zle_Qle in H0, H1.
  change (inject_Z 0) with 0%Q in H0. change (inject_Z 65535) with 65535%Q in H1.
  assert (Ha : (inject_Z z < 251)%Q) by lra.
  assert (Hb : (-251 < inject_Z z)%Q) by lra.
  change 251%Q with (inject_Z 251) in Ha. change (-251)%Q with (inject_Z (-251)) in Hb.
  rewrite <- Zlt_Qlt in Ha, Hb. lia.
Qed.

Lemma amperes_umbral_13 (raw : Z) :
  (13 <= amperes raw)%Q <-> 49742 <= raw.
Proof.
  destruct (amperes_cerca raw) as (z & Hz & Hlo & Hhi). rewrite Hz.
  assert (Hq : (13 <= z # 10)%Q <-> 130 <= z).
  { unfold Qle. cbn. lia. }
  rewrite Hq. split; intros H.
  - destruct (Z_lt_le_dec raw 49742) as [Hr|Hr]; [exfalso|exact Hr].
    assert (Hr' : raw <= 49741) by lia.
    rewrite Zle_Qle in H, Hr'.
    change (inject_Z 130) with 130%Q in H. change (inject_Z 49741) with 49741%Q in Hr'. lra.
  - rewrite Zle_Qle in H. change (inject_Z 49742) with 49742%Q in H.
    assert (Ha : (129 < inject_Z z)%Q) by lra.
    change 129%Q with (inject_Z 129) in Ha. rewrite <- Zlt_Qlt in Ha. lia.
Qed.

Lemma ventana_In (ent : Entradas) (k n : nat) (x : Q) :
  In x (ventana ent k n) <->
  exists j : nat, (k <= j < k + n)%nat /\ x = amperes (adc26 ent j mod 65536).
Proof.
  unfold ventana. rewrite in_map_iff. split.
  - intros (j & <- & Hj). apply in_seq in Hj. eauto.
  - intros (j & Hj & ->). exists j. split; [reflexivity|]. apply in_seq, Hj.
Qed.

(** X3. Every current reading is a multiple of 0.1 A between -25 A and
    25 A, whatever the ADC returns: so is the maximum that [medir_corriente]
    compares with [corriente_falla]. A pump configured with a threshold above
    25 A is therefore never faulted by [medir_corriente], and one with a
    threshold of -25 A or less is faulted by every call. *)
Theorem corriente_acotada (ent : Entradas) (i : id_bomba) (s : Sistema) :
  exists (z : Z) (s' : Sistema) (ev : list evento),
    max_lista (ventana ent (n_adc s) MUESTRAS) = Some (z # 10) /\
    -250 <= z <= 250 /\
    medir_corriente ent i s = (Normal tt, s', ev) /\
    ((25 < corriente_falla (bomba i s))%Q ->
       corriente (bomba i s') = z # 10 /\
       estado_falla (bomba i s') = estado_falla (bomba i s) /\
       estado_bomba (bomba i s') = estado_bomba (bomba i s)) /\
    ((corriente_falla (bomba i s) <= -25)%Q ->
       estado_falla (bomba i s') = true /\ estado_bomba (bomba i s') = false).
Proof.
  destruct (medir_corriente_run ent i s) as (maximo & Hmax & Hrun).
  destruct (max_lista_spec _ _ Hmax) as (Hin & _).
  apply ventana_In in Hin. destruct Hin as (j & _ & Hj).
  destruct (amperes_rango (adc26 ent j mod 65536)) as (z & Hz & Hr).
  { pose proof (Z.mod_pos_bound (adc26 ent j) 65536). lia. }
  rewrite Hz in Hj. subst maximo.
  assert (Hlo : (-25 <= z # 10)%Q) by (unfold Qle; cbn; lia).
  assert (Hhi : (z # 10 <= 25)%Q) by (unfold Qle; cbn; lia).
  destruct (Qle_bool (corriente_falla (bomba i s)) (z # 10)) eqn:Hc.
  - apply Qle_bool_iff in Hc.
    destruct (fallar_bomba i (con_n_adc (n_adc s + MUESTRAS) s))
      as (Hf & Hb & _).
    exists z. eexists _, _. split; [exact Hmax|]. split; [exact Hr|].
    split; [exact Hrun|]. split; [intros H; exfalso; lra|]. auto.
  - assert (Hn : ~ (corriente_falla (bomba i s) <= z # 10)%Q).
    { intros H. apply Qle_bool_iff in H. congruence. }
    exists z. eexists _, _. split; [exact Hmax|]. split; [exact Hr|].
    split; [exact Hrun|]. split; [intros _; destruct i; cbn; auto|].
    intros H. exfalso. apply Hn. lra.
Qed.

(** X4. For a pump whose threshold is 13 A, as both pumps of the program
    are configured, [medir_corriente] faults the pump exactly when some
    sample of the window is a raw ADC value of 49742 or more; when every
    sample is below 49742 the flags are untouched and the stored reading is
    below 13 A. *)
Theorem umbral_13_en_cuentas (ent : Entradas) (i : id_bomba) (s : Sistema) :
  (corriente_falla (bomba i s) == 13)%Q ->
  exists (s' : Sistema) (ev : list evento),
    medir_corriente ent i s = (Normal tt, s', ev) /\
    ((exists k : nat,
        (k < MUESTRAS)%nat /\ 49742 <= adc26 ent (n_adc s + k) mod 65536) ->
       estado_falla (bomba i s') = true /\
       estado_bomba (bomba i s') = false /\
       corriente (bomba i s') = corriente (bomba i s)) /\
    ((forall k : nat,
        (k < MUESTRAS)%nat -> adc26 ent (n_adc s + k) mod 65536 < 49742) ->
       estado_falla (bomba i s') = estado_falla (bomba i s) /\
       estado_bomba (bomba i s') = estado_bomba (bomba i s) /\
       (corriente (bomba i s') < 13)%Q).
Proof.
  intros Hu.
  destruct (medir_corriente_run ent i s) as (maximo & Hmax & Hrun).
  destruct (max_lista_spec _ _ Hmax) as (Hin & Hall).
  apply ventana_In in Hin. destruct Hin as (j & Hj & Hmj).
  destruct (Qle_bool (corriente_falla (bomba i s)) maximo) eqn:Hc.
  - apply Qle_bool_iff in Hc. rewrite Hu in Hc.
    destruct (fallar_bomba i (con_n_adc (n_adc s + MUESTRAS) s))
      as (Hf & Hb & Hco & _).
    eexists _, _. split; [exact Hrun|]. split.
    + intros _. split; [exact Hf|]. split; [exact Hb|].
      rewrite Hco. destruct i; reflexivity.
    + intros Hbajo. exfalso.
      rewrite Hmj in Hc. apply amperes_umbral_13 in Hc.
      specialize (Hbajo (j - n_adc s)%nat).
      replace (n_adc s + (j - n_adc s))%nat with j in Hbajo by lia.
      assert (adc26 ent j mod 65536 < 49742) by (apply Hbajo; lia). lia.
  - assert (Hn : ~ (13 <= maximo)%Q).
    { intros H. rewrite <- Hu in H. apply Qle_bool_iff in H. congruence. }
    eexists _, _. split; [exact Hrun|]. split.
    + intros (k & Hk & Hraw). exfalso. apply Hn.
      apply Qle_trans with (amperes (adc26 ent (n_adc s + k) mod 65536)).
      * apply amperes_umbral_13, Hraw.
      * apply Hall, ventana_In. exists (n_adc s + k)%nat. split; [lia|reflexivity].
    + intros _. split; [destruct i; reflexivity|].
      split; [destruct i; reflexivity|].
      replace (corriente (bomba i
                 (con_bomba i (con_corriente maximo)
                    (con_n_adc (n_adc s + MUESTRAS) s)))) with maximo
        by (destruct i; reflexivity).
      apply Qnot_le_lt, Hn.
Qed.

Lemma umbral_13_en_cuentas_witness :
  exists (s' : Sistema) (ev : list evento),
    medir_corriente ent_escenario B1 estado_inicial = (Normal tt, s', ev) /\
    ((exists k : nat,
        (k < MUESTRAS)%nat /\
        49742 <= adc26 ent_escenario (n_adc estado_inicial + k) mod 65536) ->
       estado_falla (bomba B1 s') = true /\
       estado_bomba (bomba B1 s') = false /\
       corriente (bomba B1 s') = corriente (bomba B1 estado_inicial)) /\
    ((forall k : nat,
        (k < MUESTRAS)%nat ->
        adc26 ent_escenario (n_adc estado_inicial + k) mod 65536 < 49742) ->
       estado_falla (bomba B1 s') = estado_falla (bomba B1 estado_inicial) /\
       estado_bomba (bomba B1 s') = estado_bomba (bomba B1 estado_inicial) /\
       (corriente (bomba B1 s') < 13)%Q).
Proof.
  apply (umbral_13_en_cuentas ent_escenario B1 estado_inicial). reflexivity.
Defined.

(** ** Alternation of the pumps in automatic mode *)

Lemma niveles_leidos_S (ent : Entradas) (s : Sistema) (n : nat) :
  niveles_leidos ent s (S n) =
  pin_value ent PinFlotante (n_flotante s)
    :: map (pin_value ent PinFlotante) (seq (S (n_flotante s)) n).
Proof. reflexivity. Qed.

Lemma activaciones_seleccion (ent : Entradas) (n : nat) :
  forall s : Sistema,
    (forall k, (k < n)%nat -> pin_value ent PinManual (n_manual s + k) = false) ->
    fst (activaciones ent n s) =
      seleccion_auto (ciclo s) (flotante_previo s) (niveles_leidos ent s n) /\
    ciclo (snd (activaciones ent n s)) =
      ciclo s + flancos (flotante_previo s) (niveles_leidos ent s n).
Proof.
  induction n as [|n IH]; intros s Hman.
  - cbn. split; [reflexivity|lia].
  - assert (Hm0 : pin_value ent PinManual (n_manual s) = false).
    { rewrite <- (Nat.add_0_r (n_manual s)). apply Hman. lia. }
    destruct (activaciones_auto ent n s Hm0) as (s1 & E1 & Hnm & Hnf & Hp & Hc).
    rewrite E1. cbn [fst snd]. rewrite niveles_leidos_S.
    cbn [seleccion_auto flancos].
    destruct (IH s1) as [IH1 IH2].
    { intros k Hk. rewrite Hnm.
      replace (S (n_manual s) + k)%nat with (n_manual s + S k)%nat by lia.
      apply Hman. lia. }
    unfold niveles_leidos in IH1, IH2. rewrite Hnf, Hp, Hc in *.
    rewrite IH1, IH2. split; [reflexivity|].
    destruct (pin_value ent PinFlotante (n_flotante s) && negb (flotante_previo s));
      lia.
Qed.

(** X5. In automatic mode the pump started at each tick is a function of
    the float levels alone: a tick that reads the float low starts nothing,
    and a tick that reads it high starts pump 1 when [ciclo], counted up by
    every low-to-high transition so far, is even, and pump 2 when it is odd.
    After the ticks [ciclo] has grown by the number of transitions. *)
Theorem seleccion_por_flancos (ent : Entradas) (n : nat) (s : Sistema) :
  (forall k, (k < n)%nat -> pin_value ent PinManual (n_manual s + k) = false) ->
  fst (activaciones ent n s) =
    seleccion_auto (ciclo s) (flotante_previo s) (niveles_leidos ent s n) /\
  ciclo (snd (activaciones ent n s)) =
    ciclo s + flancos (flotante_previo s) (niveles_leidos ent s n).
Proof. apply activaciones_seleccion. Qed.

Lemma seleccion_por_flancos_witness :
  fst (activaciones ent_dos_activaciones 4 estado_inicial) =
    seleccion_auto (ciclo estado_inicial) (flotante_previo estado_inicial)
      (niveles_leidos ent_dos_activaciones estado_inicial 4) /\
  ciclo (snd (activaciones ent_dos_activaciones 4 estado_inicial)) =
    ciclo estado_inicial +
    flancos (flotante_previo estado_inicial)
      (niveles_leidos ent_dos_activaciones estado_inicial 4).
Proof.
  apply (seleccion_por_flancos ent_dos_activaciones 4 estado_inicial).
  intros k _. cbn. now destruct k as [|[|[|[|k]]]].
Defined.

Lemma paridad_siguiente (c : Z) :
  (if (c + 1) mod 2 =? 0 then B1 else B2) = otra (if c mod 2 =? 0 then B1 else B2).
Proof.
  pose proof (Z.mod_pos_bound c 2 ltac:(lia)) as Hb.
  rewrite Z.add_mod by lia.
  destruct (c mod 2 =? 0) eqn:Hc.
  - apply Z.eqb_eq in Hc. rewrite Hc. reflexivity.
  - apply Z.eqb_neq in Hc. replace (c mod 2) with 1 by lia. reflexivity.
Qed.

Lemma seleccion_auto_altos (a : nat) :
  forall (c : Z) (resto : list bool),
    seleccion_auto c true (repeat true a ++ resto) =
    repeat (Some (if c mod 2 =? 0 then B1 else B2)) a ++ seleccion_auto c true resto.
Proof.
  induction a as [|a IH]; intros c resto; [reflexivity|].
  cbn [repeat app seleccion_auto andb negb]. now rewrite IH.
Qed.

Lemma seleccion_auto_bajos (b : nat) :
  forall (c : Z) (resto : list bool),
    seleccion_auto c false (repeat false b ++ resto) =
    repeat None b ++ seleccion_auto c false resto.
Proof.
  induction b as [|b IH]; intros c resto; [reflexivity|].
  cbn [repeat app seleccion_auto andb]. now rewrite IH.
Qed.

(** X6. Two consecutive automatic activations start different pumps:
    when the float is read high for [a >= 1] ticks, low for [b >= 1] ticks
    and then high again, every tick of the first activation starts the same
    pump and the tick after the pause starts the other one, whatever the
    value of [ciclo] and the remembered float level at the beginning. *)
Theorem activaciones_alternan (ent : Entradas) (a b : nat) (s : Sistema) :
  (1 <= a)%nat ->
  (1 <= b)%nat ->
  (forall k, (k < a + b + 1)%nat ->
     pin_value ent PinManual (n_manual s + k) = false) ->
  niveles_leidos ent s (a + b + 1) = repeat true a ++ repeat false b ++ [true] ->
  exists p : id_bomba,
    fst (activaciones ent (a + b + 1) s) =
    repeat (Some p) a ++ repeat None b ++ [Some (otra p)].
Proof.
  intros Ha Hb Hman Hniv.
  destruct (activaciones_seleccion ent (a + b + 1) s Hman) as [Hsel _].
  rewrite Hsel, Hniv. clear Hsel Hniv Hman.
  destruct a as [|a]; [lia|]. destruct b as [|b]; [lia|].
  cbn [repeat app seleccion_auto andb].
  set (c1 := if negb (flotante_previo s) then ciclo s + 1 else ciclo s).
  exists (if c1 mod 2 =? 0 then B1 else B2).
  rewrite seleccion_auto_altos. cbn [app seleccion_auto andb].
  rewrite seleccion_auto_bajos. cbn [seleccion_auto andb negb].
  now rewrite paridad_siguiente.
Qed.

Lemma activaciones_alternan_witness :
  exists p : id_bomba,
    fst (activaciones ent_dos_activaciones (2 + 1 + 1) estado_inicial) =
    repeat (Some p) 2 ++ repeat None 1 ++ [Some (otra p)].
Proof.
  apply (activaciones_alternan ent_dos_activaciones 2 1 estado_inicial).
  - lia.
  - lia.
  - intros k _. cbn. now destruct k as [|[|[|[|k]]]].
  - reflexivity.
Defined.

(** ** The relays and the interlock *)

Lemma wpt_ret {A : Type} (a : A) (Q : A -> Sistema -> list evento -> Prop)
    (s : Sistema) :
  Q a s [] -> wpt (ret a) Q s.
Proof. intros H. exists a, s, []. auto. Qed.

Lemma wpt_gets {A : Type} (f : Sistema -> A)
    (Q : A -> Sistema -> list evento -> Prop) (s : Sistema) :
  Q (f s) s [] -> wpt (gets f) Q s.
Proof. intros H. exists (f s), s, []. auto. Qed.

Lemma wpt_bind {A B : Type} (m : M A) (k : A -> M B)
    (Q : B -> Sistema -> list evento -> Prop) (s : Sistema) :
  wpt m (fun a s1 ev1 => wpt (k a) (fun b s2 ev2 => Q b s2 (ev1 ++ ev2)) s1) s ->
  wpt (bind m k) Q s.
Proof.
  intros (a & s1 & ev1 & Hm & b & s2 & ev2 & Hk & HQ).
  exists b, s2, (ev1 ++ ev2). unfold bind. rewrite Hm, Hk. auto.
Qed.

Lemma wpt_conseq {A : Type} (m : M A)
    (Q Q' : A -> Sistema -> list evento -> Prop) (s : Sistema) :
  wpt m Q' s -> (forall a s' ev, Q' a s' ev -> Q a s' ev) -> wpt m Q s.
Proof. intros (a & s' & ev & Hm & HQ) H. exists a, s', ev. auto. Qed.

Lemma wpt_run {A : Type} (m : M A) (Q : A -> Sistema -> list evento -> Prop)
    (s s' : Sistema) (a : A) (ev : list evento) :
  m s = (Normal a, s', ev) -> Q a s' ev -> wpt m Q s.
Proof. intros Hm HQ. exists a, s', ev. auto. Qed.

(** Two facts about the same run hold together. *)
Lemma wpt_wp {A : Type} (m : M A) (Q : A -> Sistema -> list evento -> Prop)
    (P : A -> Sistema -> Prop) (E : evento -> Prop) (s : Sistema) :
  wpt m Q s -> wp m P E s ->
  wpt m (fun a s' ev => Q a s' ev /\ P a s' /\ Forall E ev) s.
Proof.
  intros (a & s' & ev & Hm & HQ) (a' & s'' & ev' & Hm' & HP & HE).
  rewrite Hm in Hm'. injection Hm' as <- <- <-.
  exists a, s', ev. auto.
Qed.

Lemma nunca_ambas_app (ev1 ev2 : list evento) :
  forall r : bool * bool,
    nunca_ambas r (ev1 ++ ev2) =
    nunca_ambas r ev1 && nunca_ambas (reles_tras r ev1) ev2.
Proof.
  induction ev1 as [|e ev1 IH]; intros r; [reflexivity|].
  cbn [app nunca_ambas reles_tras fold_left]. rewrite IH.
  unfold reles_tras. now rewrite andb_assoc.
Qed.

Lemma espejo_app (s s1 s2 : Sistema) (ev1 ev2 : list evento) :
  espejo s s1 ev1 -> espejo s1 s2 ev2 -> espejo s s2 (ev1 ++ ev2).
Proof.
  intros (H1 & N1 & _) (H2 & N2 & X2). unfold espejo.
  rewrite nunca_ambas_app, N1. unfold reles_tras in *.
  rewrite fold_left_app, H1, H2, N2. auto.
Qed.

Lemma espejo_sin_reles (s s' : Sistema) (ev : list evento) :
  Forall (fun e => es_rele e = false) ev ->
  exclusivo s ->
  estados s' = estados s ->
  espejo s s' ev.
Proof.
  intros Hev Hx He. unfold espejo, exclusivo in *. rewrite He.
  assert (Hx' : fst (estados s) && snd (estados s) = false) by exact Hx.
  revert Hx'. generalize (estados s) as r. intros r Hr.
  split; [|split].
  - induction Hev as [|e ev He' _ IH]; [reflexivity|].
    cbn [reles_tras fold_left].
    replace (conmuta r e) with r by (destruct e; try reflexivity; discriminate He').
    exact IH.
  - induction Hev as [|e ev He' _ IH]; [reflexivity|].
    cbn [nunca_ambas].
    replace (conmuta r e) with r by (destruct e; try reflexivity; discriminate He').
    now rewrite Hr, IH.
  - unfold estados in He. injection He as -> ->. exact Hx.
Qed.

Lemma eventos_ventana_sin_reles (ent : Entradas) (n : nat) :
  forall k : nat, Forall (fun e => es_rele e = false) (eventos_ventana ent k n).
Proof.
  unfold eventos_ventana.
  induction n as [|n IH]; intros k; cbn [seq flat_map app].
  - constructor.
  - constructor; [reflexivity|]. constructor; [reflexivity|]. apply IH.
Qed.

Lemma eventos_display_sin_reles (linea1 linea2 : string) :
  Forall (fun e => es_rele e = false) (eventos_display linea1 linea2).
Proof. repeat constructor. Qed.

(** Switching a relay off keeps the record and the relays in step. *)
Lemma espejo_parada (i : id_bomba) (s : Sistema) :
  exclusivo s ->
  espejo s (con_bomba i (con_estado_bomba false) s) [EvRele i false].
Proof.
  unfold espejo, exclusivo, estados, reles_tras.
  destruct i; cbn; destruct (estado_bomba (b1 s)), (estado_bomba (b2 s));
    cbn; intros H; auto; discriminate H.
Qed.

Lemma espejo_fallar (i : id_bomba) (s : Sistema) :
  exclusivo s -> espejo s (fallar i s) [EvRele i false].
Proof.
  unfold espejo, exclusivo, estados, reles_tras.
  destruct i; cbn; destruct (estado_bomba (b1 s)), (estado_bomba (b2 s));
    cbn; intros H; auto; discriminate H.
Qed.

(** Switching a relay on is safe when the other pump is stopped. *)
Lemma espejo_marcha (i : id_bomba) (s : Sistema) :
  estado_bomba (bomba (otra i) s) = false ->
  espejo s (con_bomba i (con_estado_bomba true) s) [EvRele i true].
Proof.
  unfold espejo, exclusivo, estados, reles_tras.
  destruct i; cbn; intros ->; destruct (estado_bomba (b1 s)), (estado_bomba (b2 s));
    cbn; auto.
Qed.

Lemma marcha_manual_espejo (ent : Entradas) (s : Sistema) :
  exclusivo s ->
  wpt (marcha_manual ent) (fun _ s' ev => espejo s s' ev) s.
Proof.
  intros Hx. unfold wpt, marcha_manual. unfold bind at 1.
  unfold verificar_manual, bind at 1. unfold pin_read, ret. cbn [n_pin].
  destruct (pin_value ent PinManual (n_manual s)).
  - unfold bind at 1. unfold verificar_bomba1, bind at 1.
    unfold pin_read, ret. cbn [n_pin avanza_pin n_bomba1].
    destruct (pin_value ent PinBomba1 (n_bomba1 s));
      (eexists _, _, _; split; [reflexivity|];
       unfold espejo, exclusivo, estados, reles_tras in *; cbn;
       destruct (estado_bomba (b1 s)), (estado_bomba (b2 s)); cbn; auto;
       discriminate Hx).
  - eexists _, _, _. split; [reflexivity|].
    apply espejo_sin_reles; [repeat constructor|exact Hx|reflexivity].
Qed.

Lemma marcha_auto_espejo (ent : Entradas) (s : Sistema) :
  exclusivo s ->
  wpt (marcha_auto ent) (fun _ s' ev => espejo s s' ev) s.
Proof.
  intros Hx. unfold wpt, marcha_auto. unfold bind at 1.
  unfold verificar_manual, bind at 1. unfold pin_read, ret. cbn [n_pin].
  destruct (pin_value ent PinManual (n_manual s)); cbn [negb].
  - eexists _, _, _. split; [reflexivity|].
    apply espejo_sin_reles; [repeat constructor|exact Hx|reflexivity].
  - unfold bind at 1. unfold bind at 1. rewrite verificar_flotante_run.
    cbn [n_flotante avanza_pin].
    destruct (pin_value ent PinFlotante (n_flotante s)).
    + unfold bind at 1. unfold gets.
      match goal with |- context [?c mod 2 =? 0] => destruct (c mod 2 =? 0) end;
        (eexists _, _, _; split; [reflexivity|];
         unfold espejo, exclusivo, estados, reles_tras in *; cbn;
         destruct (estado_bomba (b1 s)), (estado_bomba (b2 s)); cbn; auto;
         discriminate Hx).
    + eexists _, _, _. split; [reflexivity|].
      unfold espejo, exclusivo, estados, reles_tras in *; cbn.
      destruct (estado_bomba (b1 s)), (estado_bomba (b2 s)); cbn; auto.
Qed.

Lemma medir_corriente_espejo (ent : Entradas) (i : id_bomba) (s : Sistema) :
  exclusivo s ->
  wpt (medir_corriente ent i) (fun _ s' ev => espejo s s' ev) s.
Proof.
  intros Hx.
  destruct (medir_corriente_run ent i s) as (maximo & _ & Hrun).
  assert (Hv : espejo s (con_n_adc (n_adc s + MUESTRAS) s)
                 (eventos_ventana ent (n_adc s) MUESTRAS)).
  { apply espejo_sin_reles;
      [apply eventos_ventana_sin_reles|exact Hx|reflexivity]. }
  destruct (Qle_bool (corriente_falla (bomba i s)) maximo).
  - eapply wpt_run; [exact Hrun|].
    eapply espejo_app; [exact Hv|]. apply espejo_fallar. apply Hv.
  - eapply wpt_run; [exact Hrun|]. rewrite app_nil_r.
    destruct Hv as (H1 & H2 & H3). unfold espejo. rewrite H1, H2.
    split; [destruct i; reflexivity|]. split; [reflexivity|].
    destruct i; exact Hx.
Qed.

Lemma medir_temperatura_espejo (ent : Entradas) (i : id_bomba) (s : Sistema) :
  exclusivo s ->
  wpt (medir_temperatura ent i) (fun _ s' ev => espejo s s' ev) s.
Proof.
  intros Hx. pose proof (medir_temperatura_run ent i s) as Hrun.
  destruct (ow_convert ent (n_convert s)).
  - destruct (ow_read ent (n_read s) (id_temp (bomba i s))) as [t|].
    + destruct (temp_falla (bomba i s) <=? int_of_float t).
      * eapply wpt_run; [exact Hrun|].
        apply (espejo_app s (avanza_read (avanza_convert s)) _
                 [EvConvertTemp; EvSleep 1000; EvReadTemp (id_temp (bomba i s))]
                 [EvRele i false]).
        -- apply espejo_sin_reles; [repeat constructor|exact Hx|reflexivity].
        -- apply espejo_fallar. exact Hx.
      * eapply wpt_run; [exact Hrun|].
        apply espejo_sin_reles;
          [repeat constructor|exact Hx|destruct i; reflexivity].
    + eapply wpt_run; [exact Hrun|].
      apply espejo_sin_reles; [repeat constructor|exact Hx|reflexivity].
  - eapply wpt_run; [exact Hrun|].
    apply espejo_sin_reles; [repeat constructor|exact Hx|reflexivity].
Qed.

Lemma espejo_exclusivo (s s' : Sistema) (ev : list evento) :
  espejo s s' ev -> exclusivo s'.
Proof. intros (_ & _ & H). exact H. Qed.

(** After the two measurements of an activation. *)
Lemma medidas_espejo (ent : Entradas) (i : id_bomba) (s : Sistema) {A : Type}
    (k : M A) (Q : A -> Sistema -> list evento -> Prop) :
  exclusivo s ->
  (forall s' ev, espejo s s' ev ->
     wpt k (fun a s2 ev2 => Q a s2 (ev ++ ev2)) s') ->
  wpt (medir_corriente ent i;; medir_temperatura ent i;; k) Q s.
Proof.
  intros Hx Hk.
  apply wpt_bind. eapply wpt_conseq; [apply medir_corriente_espejo, Hx|].
  intros [] s1 ev1 H1. cbv beta.
  apply wpt_bind.
  eapply wpt_conseq;
    [apply medir_temperatura_espejo, (espejo_exclusivo _ _ _ H1)|].
  intros [] s2 ev2 H2. cbv beta.
  eapply wpt_conseq; [apply (Hk s2 (ev1 ++ ev2)), (espejo_app _ _ _ _ _ H1 H2)|].
  intros a s3 ev3 HQ. cbv beta in HQ. now rewrite app_assoc.
Qed.

Lemma mostrar_medidas_espejo (i : id_bomba) (s : Sistema) :
  exclusivo s ->
  wpt (mostrar_medidas i) (fun _ s' ev => espejo s s' ev) s.
Proof.
  intros Hx. eapply wpt_run; [apply mostrar_medidas_run|].
  apply espejo_sin_reles; [repeat constructor|exact Hx|reflexivity].
Qed.

Lemma verificar_falla_espejo (s : Sistema) :
  exclusivo s ->
  wpt verificar_falla (fun _ s' ev => espejo s s' ev) s.
Proof.
  intros Hx. pose proof (verificar_falla_run s) as Hrun.
  destruct (estado_falla (b1 s)), (estado_falla (b2 s)); cbn [andb] in Hrun;
    (eapply wpt_run; [exact Hrun|]).
  - apply (espejo_app s (con_bomba B1 (con_estado_bomba false) s) _
             [EvRele B1 false] [EvRele B2 false]).
    + apply espejo_parada, Hx.
    + apply espejo_parada. apply (espejo_exclusivo s _ [EvRele B1 false]).
      apply espejo_parada, Hx.
  - apply espejo_parada, Hx.
  - apply espejo_parada, Hx.
  - apply espejo_sin_reles; [constructor|exact Hx|reflexivity].
Qed.

Lemma supervisar_espejo (ent : Entradas) (i : id_bomba) (en_marcha : bool)
    (s : Sistema) :
  exclusivo s ->
  wpt (supervisar ent i en_marcha) (fun _ s' ev => espejo s s' ev) s.
Proof.
  intros Hx. destruct en_marcha.
  - unfold supervisar. apply medidas_espejo; [exact Hx|].
    intros s2 ev2 H2. apply wpt_bind, wpt_gets.
    destruct (negb (estado_falla (bomba i s2))).
    + apply wpt_bind.
      eapply wpt_conseq;
        [apply mostrar_medidas_espejo, (espejo_exclusivo _ _ _ H2)|].
      intros [] s3 ev3 H3. apply wpt_ret. cbn [app]. rewrite app_nil_r.
      eapply espejo_app; eassumption.
    + eapply wpt_conseq;
        [apply verificar_falla_espejo, (espejo_exclusivo _ _ _ H2)|].
      intros r s3 ev3 H3. cbn [app]. eapply espejo_app; eassumption.
  - apply wpt_ret. apply espejo_sin_reles; [constructor|exact Hx|reflexivity].
Qed.

Lemma cuerpo_main_espejo (ent : Entradas) (s : Sistema) :
  exclusivo s ->
  wpt (cuerpo_main ent) (fun _ s' ev => espejo s s' ev) s.
Proof.
  intros Hx. unfold cuerpo_main.
  apply wpt_bind. eapply wpt_conseq; [apply marcha_manual_espejo, Hx|].
  intros a1 s1 ev1 H1. cbv beta.
  apply wpt_bind.
  eapply wpt_conseq; [apply marcha_auto_espejo, (espejo_exclusivo _ _ _ H1)|].
  intros a2 s2 ev2 H2. cbv beta.
  pose proof (espejo_app _ _ _ _ _ H1 H2) as H12.
  apply wpt_bind, wpt_gets. apply wpt_bind, wpt_gets.
  apply wpt_bind.
  eapply wpt_conseq; [apply supervisar_espejo, (espejo_exclusivo _ _ _ H2)|].
  intros r1 s3 ev3 H3. cbv beta. cbn [app].
  pose proof (espejo_app _ _ _ _ _ H12 H3) as H123.
  destruct r1 as [l|].
  - apply wpt_ret. rewrite app_nil_r, app_assoc. exact H123.
  - apply wpt_bind.
    eapply wpt_conseq; [apply supervisar_espejo, (espejo_exclusivo _ _ _ H3)|].
    intros r2 s4 ev4 H4. cbv beta.
    pose proof (espejo_app _ _ _ _ _ H123 H4) as H1234.
    destruct r2 as [l|]; apply wpt_ret;
      rewrite app_nil_r, !app_assoc; exact H1234.
Qed.

Lemma cuerpo_falla_espejo (ent : Entradas) (sana : id_bomba) (s : Sistema) :
  estado_bomba (bomba (otra sana) s) = false ->
  wpt (cuerpo_falla ent sana) (fun _ s' ev => espejo s s' ev) s.
Proof.
  intros Ho.
  assert (Hx : exclusivo s).
  { unfold exclusivo. destruct sana; cbn in Ho; rewrite Ho;
      [apply andb_false_r|apply andb_false_l]. }
  unfold cuerpo_falla. apply wpt_bind.
  eapply wpt_run; [apply verificar_flotante_run|].
  set (v := pin_value ent PinFlotante (n_flotante s)).
  assert (Hv : espejo s (tras_flotante v s) [EvPin PinFlotante v]).
  { apply espejo_sin_reles; [repeat constructor|exact Hx|reflexivity]. }
  assert (Ho' : estado_bomba (bomba (otra sana) (tras_flotante v s)) = false).
  { destruct sana; exact Ho. }
  destruct v.
  - apply wpt_bind, wpt_gets.
    destruct (negb (estado_falla (bomba sana (tras_flotante true s)))).
    + apply wpt_bind. eapply wpt_run; [apply marcha_run|].
      pose proof (espejo_marcha sana _ Ho') as Hm.
      pose proof (espejo_app _ _ _ _ _ Hv Hm) as H1.
      apply wpt_bind. eapply wpt_run; [apply display_run|].
      set (sm := con_bomba sana (con_estado_bomba true) (tras_flotante true s)) in *.
      assert (Hd : espejo sm sm
                     (eventos_display "Modo: Auto" ("Bomba " ++ nombre sana ++ ": ON"))).
      { apply espejo_sin_reles;
          [apply eventos_display_sin_reles|apply (espejo_exclusivo _ _ _ Hm)
          |reflexivity]. }
      pose proof (espejo_app _ _ _ _ _ H1 Hd) as H2.
      apply medidas_espejo; [apply (espejo_exclusivo _ _ _ Hm)|].
      intros s3 ev3 H3. pose proof (espejo_app _ _ _ _ _ H2 H3) as H4.
      apply wpt_bind, wpt_gets. apply wpt_bind.
      destruct (negb (estado_falla (bomba sana s3))).
      * eapply wpt_conseq;
          [apply mostrar_medidas_espejo, (espejo_exclusivo _ _ _ H3)|].
        intros [] s5 ev5 H5. apply wpt_ret. cbn [app]. rewrite app_nil_r.
        pose proof (espejo_app _ _ _ _ _ H4 H5) as H6.
        repeat rewrite <- app_assoc in H6. repeat rewrite <- app_assoc.
        exact H6.
      * apply wpt_ret, wpt_ret. cbn [app]. rewrite !app_nil_r.
        repeat rewrite <- app_assoc in H4. repeat rewrite <- app_assoc.
        exact H4.
    + apply wpt_ret. cbn [app]. exact Hv.
  - apply wpt_bind. eapply wpt_run; [apply parada_run|]. apply wpt_ret.
    cbn [app].
    apply (espejo_app s (tras_flotante false s) _
             [EvPin PinFlotante false] [EvRele sana false]); [exact Hv|].
    apply espejo_parada, (espejo_exclusivo _ _ _ Hv).
Qed.

Lemma pantalla_sin_reles (ev : list evento) :
  Forall (fun e => es_pantalla e = true) ev ->
  Forall (fun e => es_rele e = false) ev.
Proof.
  apply Forall_impl. intros e He. destruct e; try reflexivity; discriminate He.
Qed.

Lemma paso_espejo (ent : Entradas) (l : lugar) (s : Sistema) :
  Inv l s ->
  exclusivo s ->
  wpt (paso ent l) (fun _ s' ev => espejo s s' ev) s.
Proof.
  intros HI Hx.
  destruct (es_alarma l) eqn:Hal.
  { destruct (paso_alarma ent l s Hal) as (ev & Hrun & Hev).
    eapply wpt_run; [exact Hrun|].
    apply espejo_sin_reles; [apply pantalla_sin_reles, Hev|exact Hx|reflexivity]. }
  destruct l; try discriminate Hal; cbn [paso].
  - apply cuerpo_main_espejo, Hx.
  - destruct HI as [[_ Hb] _]. apply wpt_bind.
    eapply wpt_conseq; [apply (cuerpo_falla_espejo ent B2 s Hb)|].
    intros a s' ev H. apply wpt_ret. rewrite app_nil_r. exact H.
  - destruct HI as [_ [_ Hb]]. apply wpt_bind.
    eapply wpt_conseq; [apply (cuerpo_falla_espejo ent B1 s Hb)|].
    intros a s' ev H. apply wpt_ret. rewrite app_nil_r. exact H.
Qed.

Lemma iterar_espejo (ent : Entradas) (n : nat) :
  forall (l : lugar) (s : Sistema),
    Inv l s ->
    exclusivo s ->
    wpt (iterar ent n l) (fun _ s' ev => espejo s s' ev) s.
Proof.
  induction n as [|n IH]; intros l s HI Hx; cbn [iterar].
  - apply wpt_ret. apply espejo_sin_reles; [constructor|exact Hx|reflexivity].
  - apply wpt_bind.
    eapply wpt_conseq;
      [apply (wpt_wp _ _ _ _ _ (paso_espejo ent l s HI Hx) (paso_inv ent l s HI))|].
    intros l1 s1 ev1 (H1 & [HI1 _] & _). cbv beta.
    eapply wpt_conseq; [apply (IH l1 s1 HI1 (espejo_exclusivo _ _ _ H1))|].
    intros l2 s2 ev2 H2. eapply espejo_app; eassumption.
Qed.

Lemma inicio_espejo (s : Sistema) :
  exclusivo s ->
  wpt inicio
    (fun _ s' ev =>
       espejo s s' ev /\
       s' = con_bomba B2 (con_estado_bomba false)
              (con_bomba B1 (con_estado_bomba false) s)) s.
Proof.
  intros Hx. eapply wpt_run; [reflexivity|]. split; [|reflexivity].
  unfold espejo, exclusivo, estados, reles_tras in *. cbn.
  destruct (estado_bomba (b1 s)), (estado_bomba (b2 s)); cbn; auto.
Qed.

(** X7. In every run of [main], for any inputs and any number of
    iterations, the two relays are never on at the same time: replaying the
    relay commands of the whole trace from both relays off never reaches a
    position with both on. Moreover [estado_bomba] of each pump is, at every
    loop head, the last position commanded to its relay. *)
Theorem reles_nunca_ambos (ent : Entradas) (n : nat) :
  exists (l : lugar) (s : Sistema) (ev : list evento),
    main ent n estado_inicial = (Normal l, s, ev) /\
    nunca_ambas (false, false) ev = true /\
    reles_tras (false, false) ev = (estado_bomba (b1 s), estado_bomba (b2 s)) /\
    estado_bomba (b1 s) && estado_bomba (b2 s) = false.
Proof.
  assert (Hx0 : exclusivo estado_inicial) by reflexivity.
  destruct (inicio_espejo estado_inicial Hx0) as ([] & s0 & ev0 & Hini & H0 & Hs0).
  assert (HI0 : Inv BucleMain s0) by (subst s0; split; reflexivity).
  destruct (iterar_espejo ent n BucleMain s0 HI0 (espejo_exclusivo _ _ _ H0))
    as (l & s & ev & Hrun & H1).
  destruct (espejo_app _ _ _ _ _ H0 H1) as (Hr & Hn & Hx).
  exists l, s, (ev0 ++ ev).
  split; [unfold main, bind; rewrite Hini, Hrun; reflexivity|].
  split; [exact Hn|]. split; [exact Hr|exact Hx].
Qed.

(** The predicate has teeth: it rejects a trace that switches both on. *)
Example nunca_ambas_detecta :
  nunca_ambas (false, false) [EvRele B1 true; EvSleep 1000; EvRele B2 true] = false.
Proof. reflexivity. Qed.

(** ** After a fault *)

Lemma eventos_ventana_Forall (ent : Entradas) (P : evento -> Prop) (n : nat) :
  (forall raw, P (EvADC raw)) ->
  P (EvSleep 1) ->
  forall k : nat, Forall P (eventos_ventana ent k n).
Proof.
  intros Ha Hs. unfold eventos_ventana.
  induction n as [|n IH]; intros k; cbn [seq flat_map app].
  - constructor.
  - constructor; [apply Ha|]. constructor; [exact Hs|]. apply IH.
Qed.

Lemma wp_wpt {A : Type} (m : M A) (P : A -> Sistema -> Prop)
    (E : evento -> Prop) (s : Sistema) :
  wp m P E s -> wpt m (fun a s' ev => P a s' /\ Forall E ev) s.
Proof. intros (a & s' & ev & Hm & HP & HE). exists a, s', ev. auto. Qed.

Lemma medir_corriente_sin_mando (ent : Entradas) (i : id_bomba) (s : Sistema) :
  wp (medir_corriente ent i) (fun _ _ => True) (fun e => es_mando e = false) s.
Proof.
  destruct (medir_corriente_run ent i s) as (maximo & _ & Hrun).
  destruct (Qle_bool (corriente_falla (bomba i s)) maximo);
    (eapply wp_run; [exact Hrun|exact I|]);
    (apply Forall_app; split;
     [apply eventos_ventana_Forall; reflexivity|repeat constructor]).
Qed.

Lemma medir_temperatura_sin_mando (ent : Entradas) (i : id_bomba) (s : Sistema) :
  wp (medir_temperatura ent i) (fun _ _ => True) (fun e => es_mando e = false) s.
Proof.
  pose proof (medir_temperatura_run ent i s) as Hrun.
  destruct (ow_convert ent (n_convert s));
    [destruct (ow_read ent (n_read s) (id_temp (bomba i s))) as [t|];
     [destruct (temp_falla (bomba i s) <=? int_of_float t)|]|];
    (eapply wp_run; [exact Hrun|exact I|repeat constructor]).
Qed.

Lemma cuerpo_falla_sin_mando (ent : Entradas) (sana : id_bomba) (s : Sistema) :
  wp (cuerpo_falla ent sana) (fun _ _ => True) (fun e => es_mando e = false) s.
Proof.
  unfold cuerpo_falla. apply wp_bind.
  eapply wp_run; [apply verificar_flotante_run| |repeat constructor].
  destruct (pin_value ent PinFlotante (n_flotante s)).
  - apply wp_bind, wp_gets.
    destruct (negb (estado_falla (bomba sana (tras_flotante true s)))).
    + apply wp_bind. eapply wp_run; [apply marcha_run| |repeat constructor].
      apply wp_bind. eapply wp_run; [apply display_run| |repeat constructor].
      apply wp_bind.
      eapply wp_conseq; [apply medir_corriente_sin_mando| |auto].
      intros [] s1 _. cbv beta. apply wp_bind.
      eapply wp_conseq; [apply medir_temperatura_sin_mando| |auto].
      intros [] s2 _. cbv beta. apply wp_bind, wp_gets. apply wp_bind.
      destruct (negb (estado_falla (bomba sana s2))).
      * eapply wp_run; [apply mostrar_medidas_run| |repeat constructor].
        apply wp_ret. exact I.
      * apply wp_ret, wp_ret. exact I.
    + apply wp_ret. exact I.
  - apply wp_bind. eapply wp_run; [apply parada_run| |repeat constructor].
    apply wp_ret. exact I.
Qed.

Lemma paso_sin_mando (ent : Entradas) (l : lugar) (s : Sistema) :
  l <> BucleMain ->
  wp (paso ent l) (fun l' _ => l' <> BucleMain) (fun e => es_mando e = false) s.
Proof.
  intros Hl.
  destruct (es_alarma l) eqn:Hal.
  { destruct (paso_alarma ent l s Hal) as (ev & Hrun & Hev).
    eapply wp_run; [exact Hrun|exact Hl|].
    eapply Forall_impl; [|exact Hev].
    intros e He. destruct e; try reflexivity; discriminate He. }
  destruct l; try discriminate Hal; [congruence| |]; cbn [paso]; apply wp_bind;
    (eapply wp_conseq; [apply cuerpo_falla_sin_mando| |auto]);
    intros [|] s' _; apply wp_ret; discriminate.
Qed.

Lemma iterar_sin_mando (ent : Entradas) (n : nat) :
  forall (l : lugar) (s : Sistema),
    l <> BucleMain ->
    wp (iterar ent n l) (fun l' _ => l' <> BucleMain)
       (fun e => es_mando e = false) s.
Proof.
  induction n as [|n IH]; intros l s Hl; cbn [iterar].
  - apply wp_ret, Hl.
  - apply wp_bind. eapply wp_conseq; [apply paso_sin_mando, Hl| |auto].
    intros l1 s1 Hl1. cbv beta. apply IH, Hl1.
Qed.

(** X8. In every run of [main], control is in the main loop exactly as
    long as no pump is faulted. From the first fault on it stays in the
    loops of [verificar_falla] for ever, whatever the inputs: the manual
    switch and the pump selector are never read again, so manual mode is no
    longer available. *)
Theorem mando_perdido_tras_falla (ent : Entradas) (n m : nat) :
  exists (l : lugar) (s : Sistema) (ev : list evento),
    main ent n estado_inicial = (Normal l, s, ev) /\
    (l = BucleMain <->
     estado_falla (b1 s) = false /\ estado_falla (b2 s) = false) /\
    (l <> BucleMain ->
     exists (l' : lugar) (s' : Sistema) (ev' : list evento),
       iterar ent m l s = (Normal l', s', ev') /\
       l' <> BucleMain /\
       Forall (fun e => es_mando e = false) ev').
Proof.
  destruct (main_inv ent n) as (l & s & ev & Hmain & HI).
  exists l, s, ev. split; [exact Hmain|]. split.
  - split.
    + intros ->. exact HI.
    + intros [H1 H2].
      destruct l; cbn in HI; unfold averiada in HI; try reflexivity;
        intuition congruence.
  - intros Hl. destruct (iterar_sin_mando ent m l s Hl)
      as (l' & s' & ev' & Hrun & Hl' & Hev).
    exists l', s', ev'. auto.
Qed.

(** The events of a measurement on pump [i]: samples, sleeps, one-wire
    traffic and, on a fault, the relay of pump [i] switched off. *)
Lemma medir_corriente_eventos (ent : Entradas) (i : id_bomba) (s : Sistema)
    (P : evento -> Prop) :
  (forall raw, P (EvADC raw)) ->
  (forall ms, P (EvSleep ms)) ->
  P (EvRele i false) ->
  wp (medir_corriente ent i) (fun _ s' => tras_medida i s s') P s.
Proof.
  intros Ha Hs Hr.
  destruct (medir_corriente_run ent i s) as (maximo & _ & Hrun).
  destruct (Qle_bool (corriente_falla (bomba i s)) maximo).
  - eapply wp_run; [exact Hrun| |].
    + destruct (fallar_bomba i (con_n_adc (n_adc s + MUESTRAS) s))
        as (Hf & Hb & _ & _ & Ho).
      split; [rewrite Ho; destruct i; reflexivity|]. left. split; assumption.
    + apply Forall_app. split; [apply eventos_ventana_Forall; auto|].
      constructor; [exact Hr|constructor].
  - eapply wp_run; [exact Hrun| |].
    + split; [destruct i; reflexivity|]. right. destruct i; split; reflexivity.
    + apply Forall_app. split; [apply eventos_ventana_Forall; auto|].
      constructor.
Qed.

Lemma medir_temperatura_eventos (ent : Entradas) (i : id_bomba) (s : Sistema)
    (P : evento -> Prop) :
  P EvConvertTemp ->
  (forall ms, P (EvSleep ms)) ->
  (forall rom, P (EvReadTemp rom)) ->
  P EvOwReset ->
  P (EvRele i false) ->
  wp (medir_temperatura ent i) (fun _ s' => tras_medida i s s') P s.
Proof.
  intros Hc Hs Hl Ho Hr.
  pose proof (medir_temperatura_run ent i s) as Hrun.
  destruct (ow_convert ent (n_convert s)).
  - destruct (ow_read ent (n_read s) (id_temp (bomba i s))) as [t|].
    + destruct (temp_falla (bomba i s) <=? int_of_float t).
      * eapply wp_run; [exact Hrun| |repeat constructor; auto].
        destruct (fallar_bomba i (avanza_read (avanza_convert s)))
          as (Hf & Hb & _ & _ & Hot).
        split; [rewrite Hot; destruct i; reflexivity|]. left. split; assumption.
      * eapply wp_run; [exact Hrun| |repeat constructor; auto].
        split; [destruct i; reflexivity|]. right. destruct i; split; reflexivity.
    + eapply wp_run; [exact Hrun| |repeat constructor; auto].
      split; [destruct i; reflexivity|]. right. destruct i; split; reflexivity.
  - eapply wp_run; [exact Hrun| |repeat constructor; auto].
    split; [destruct i; reflexivity|]. right. destruct i; split; reflexivity.
Qed.

(** An iteration of a single-fault loop that starts its healthy pump, in
    terms of the two measurements it makes. *)
Lemma cuerpo_falla_relevo (ent : Entradas) (sana : id_bomba)
    (s s1 s2 : Sistema) (ev1 ev2 : list evento) :
  estado_falla (bomba sana s) = false ->
  pin_value ent PinFlotante (n_flotante s) = true ->
  medir_corriente ent sana
    (con_bomba sana (con_estado_bomba true) (tras_flotante true s))
    = (Normal tt, s1, ev1) ->
  medir_temperatura ent sana s1 = (Normal tt, s2, ev2) ->
  cuerpo_falla ent sana s =
    (Normal false, s2,
     EvPin PinFlotante true :: EvRele sana true
       :: eventos_display "Modo: Auto" ("Bomba " ++ nombre sana ++ ": ON")
       ++ ev1 ++ ev2
       ++ (if estado_falla (bomba sana s2) then []
           else EvSleep 2000
                  :: eventos_display (linea_corriente sana (bomba sana s2))
                       (linea_temperatura sana (bomba sana s2))
                  ++ [EvSleep 2000])).
Proof.
  intros Hf Hv Hmc Hmt.
  assert (Hf' : estado_falla (bomba sana (tras_flotante true s)) = false)
    by (destruct sana; exact Hf).
  unfold cuerpo_falla. unfold bind at 1.
  rewrite verificar_flotante_run, Hv. cbv beta iota.
  unfold bind at 1. unfold gets at 1. rewrite Hf'.
  cbn [negb]. unfold bind at 1. rewrite marcha_run.
  unfold bind at 1. rewrite display_run.
  unfold bind at 1. rewrite Hmc. unfold bind at 1. rewrite Hmt.
  unfold bind at 1. unfold gets at 1.
  destruct (estado_falla (bomba sana s2)); cbn [negb]; unfold bind at 1.
  - unfold ret. cbn [app]. rewrite !app_nil_r. reflexivity.
  - rewrite mostrar_medidas_run. unfold ret. cbn [app].
    rewrite !app_nil_r. reflexivity.
Qed.

(** X9. One iteration of a single-fault loop whose healthy pump is not
    faulted. Control stays in the same loop, and the faulted pump is not
    touched. When the single poll of the float reads low, the healthy pump
    is stopped and nothing else happens. When it reads high, the healthy pump
    is started at once, without the one-second pause of the other modes, and
    the display shows it; then [medir_corriente] and [medir_temperatura] run
    on that pump, one after the other, and the iteration ends in the state
    they leave. Nothing that follows the start reads an input pin, starts a
    pump or commands the relay of the faulted pump. If a measurement faulted
    the healthy pump it is left stopped and nothing is displayed; otherwise
    it is left running, and between two pauses of 2 s the display shows the
    stored current and temperature. The text of the current is that of
    [str_float], except that the program writes a zero reading as either
    ["0.0"] or ["-0.0"]. *)
Theorem relevo_bomba_sana (ent : Entradas) (sana : id_bomba) (s : Sistema) :
  estado_falla (bomba sana s) = false ->
  (pin_value ent PinFlotante (n_flotante s) = false ->
     cuerpo_falla ent sana s =
       (Normal false,
        con_bomba sana (con_estado_bomba false) (tras_flotante false s),
        [EvPin PinFlotante false; EvRele sana false])) /\
  (pin_value ent PinFlotante (n_flotante s) = true ->
     exists (s1 s2 : Sistema) (ev1 ev2 ev3 : list evento),
       medir_corriente ent sana
         (con_bomba sana (con_estado_bomba true) (tras_flotante true s))
         = (Normal tt, s1, ev1) /\
       medir_temperatura ent sana s1 = (Normal tt, s2, ev2) /\
       cuerpo_falla ent sana s =
         (Normal false, s2,
          EvPin PinFlotante true :: EvRele sana true
            :: eventos_display "Modo: Auto" ("Bomba " ++ nombre sana ++ ": ON")
            ++ ev1 ++ ev2 ++ ev3) /\
       bomba (otra sana) s2 = bomba (otra sana) s /\
       Forall (fun e => es_entrada e = false /\ es_arranque e = false /\
                        forall v, e <> EvRele (otra sana) v)
              (ev1 ++ ev2 ++ ev3) /\
       ((estado_falla (bomba sana s2) = true /\
         estado_bomba (bomba sana s2) = false /\
         ev3 = []) \/
        (estado_falla (bomba sana s2) = false /\
         estado_bomba (bomba sana s2) = true /\
         exists texto : string,
           (texto = str_float (corriente (bomba sana s2)) \/
            ((corriente (bomba sana s2) == 0)%Q /\ texto = "-0.0"%string)) /\
           ev3 = EvSleep 2000
                   :: eventos_display
                        ("I B" ++ nombre sana ++ ": " ++ texto ++ " A")
                        ("Temp. B" ++ nombre sana ++ ": "
                           ++ str_int (temperatura (bomba sana s2)) ++ " C")
                   ++ [EvSleep 2000]))).
Proof.
  intros Hf. split; intros Hv.
  - unfold cuerpo_falla. unfold bind at 1.
    rewrite verificar_flotante_run, Hv. reflexivity.
  - set (P := fun e : evento =>
                es_entrada e = false /\ es_arranque e = false /\
                forall v, e <> EvRele (otra sana) v).
    assert (Hrele : P (EvRele sana false)).
    { split; [reflexivity|]. split; [reflexivity|].
      intros v. destruct sana; discriminate. }
    destruct (medir_corriente_eventos ent sana
                (con_bomba sana (con_estado_bomba true) (tras_flotante true s)) P)
      as ([] & s1 & ev1 & Hmc & Ht1 & He1);
      [intros; split; [|split]; try reflexivity; discriminate
      |intros; split; [|split]; try reflexivity; discriminate
      |exact Hrele|].
    destruct (medir_temperatura_eventos ent sana s1 P)
      as ([] & s2 & ev2 & Hmt & Ht2 & He2);
      [split; [|split]; try reflexivity; discriminate
      |intros; split; [|split]; try reflexivity; discriminate
      |intros; split; [|split]; try reflexivity; discriminate
      |split; [|split]; try reflexivity; discriminate
      |exact Hrele|].
    destruct (tras_medida_trans _ _ _ _ Ht1 Ht2) as [Ho Hi].
    exists s1, s2, ev1, ev2. eexists.
    split; [exact Hmc|]. split; [exact Hmt|].
    split; [exact (cuerpo_falla_relevo ent sana s s1 s2 ev1 ev2 Hf Hv Hmc Hmt)|].
    split; [rewrite Ho; destruct sana; reflexivity|].
    assert (Hflags :
      (estado_falla (bomba sana s2) = true /\ estado_bomba (bomba sana s2) = false)
      \/ (estado_falla (bomba sana s2) = false /\
          estado_bomba (bomba sana s2) = true)).
    { destruct Hi as [[Hf2 Hb2]|[Hf2 Hb2]]; [left; auto|right].
      clear Hmc Hmt He1 He2 Ht1 Ht2 Ho.
      destruct sana; cbn in Hf, Hf2, Hb2 |- *; split; congruence. }
    destruct (estado_falla (bomba sana s2)) eqn:Hf2.
    + split.
      * repeat (apply Forall_app; split); auto.
      * left. destruct Hflags as [[_ Hb]|[Hx _]]; [auto|discriminate Hx].
    + split.
      * repeat (apply Forall_app; split); auto.
        repeat constructor; try discriminate.
      * right. destruct Hflags as [[Hx _]|[_ Hb]]; [discriminate Hx|].
        split; [reflexivity|]. split; [exact Hb|].
        exists (str_float (corriente (bomba sana s2))).
        split; [left; reflexivity|reflexivity].
Qed.

Lemma relevo_bomba_sana_witness :
  (pin_value ent_relevo PinFlotante (n_flotante estado_inicial) = false ->
     cuerpo_falla ent_relevo B2 estado_inicial =
       (Normal false,
        con_bomba B2 (con_estado_bomba false) (tras_flotante false estado_inicial),
        [EvPin PinFlotante false; EvRele B2 false])) /\
  (pin_value ent_relevo PinFlotante (n_flotante estado_inicial) = true ->
     exists (s1 s2 : Sistema) (ev1 ev2 ev3 : list evento),
       medir_corriente ent_relevo B2
         (con_bomba B2 (con_estado_bomba true) (tras_flotante true estado_inicial))
         = (Normal tt, s1, ev1) /\
       medir_temperatura ent_relevo B2 s1 = (Normal tt, s2, ev2) /\
       cuerpo_falla ent_relevo B2 estado_inicial =
         (Normal false, s2,
          EvPin PinFlotante true :: EvRele B2 true
            :: eventos_display "Modo: Auto" ("Bomba " ++ nombre B2 ++ ": ON")
            ++ ev1 ++ ev2 ++ ev3) /\
       bomba (otra B2) s2 = bomba (otra B2) estado_inicial /\
       Forall (fun e => es_entrada e = false /\ es_arranque e = false /\
                        forall v, e <> EvRele (otra B2) v)
              (ev1 ++ ev2 ++ ev3) /\
       ((estado_falla (bomba B2 s2) = true /\
         estado_bomba (bomba B2 s2) = false /\
         ev3 = []) \/
        (estado_falla (bomba B2 s2) = false /\
         estado_bomba (bomba B2 s2) = true /\
         exists texto : string,
           (texto = str_float (corriente (bomba B2 s2)) \/
            ((corriente (bomba B2 s2) == 0)%Q /\ texto = "-0.0"%string)) /\
           ev3 = EvSleep 2000
                   :: eventos_display
                        ("I B" ++ nombre B2 ++ ": " ++ texto ++ " A")
                        ("Temp. B" ++ nombre B2 ++ ": "
                           ++ str_int (temperatura (bomba B2 s2)) ++ " C")
                   ++ [EvSleep 2000]))).
Proof.
  apply (relevo_bomba_sana ent_relevo B2 estado_inicial). reflexivity.
Defined.

(** ** The cycle counter over a whole run *)

Lemma niveles_sondeados_app (ev1 ev2 : list evento) :
  niveles_sondeados (ev1 ++ ev2) = niveles_sondeados ev1 ++ niveles_sondeados ev2.
Proof.
  induction ev1 as [|e ev1 IH]; [reflexivity|].
  destruct e as [| | | | |[| |] v| | | |]; cbn; rewrite ?IH; reflexivity.
Qed.

Lemma niveles_sondeados_nil (ev : list evento) :
  Forall (fun e => es_sondeo e = false) ev -> niveles_sondeados ev = [].
Proof.
  induction 1 as [|e ev He _ IH]; [reflexivity|].
  destruct e as [| | | | |[| |] v| | | |]; cbn; try exact IH. discriminate He.
Qed.

Lemma last_app_previo {A : Type} (l1 l2 : list A) (d : A) :
  last (l1 ++ l2) d = last l2 (last l1 d).
Proof.
  revert d. induction l1 as [|a l1 IH]; intros d; [reflexivity|].
  change ((a :: l1) ++ l2) with (a :: (l1 ++ l2)).
  now rewrite !last_cons_previo, IH.
Qed.

Lemma flancos_app (l1 l2 : list bool) :
  forall p : bool,
    flancos p (l1 ++ l2) = flancos p l1 + flancos (last l1 p) l2.
Proof.
  induction l1 as [|v l1 IH]; intros p.
  - cbn. lia.
  - change ((v :: l1) ++ l2) with (v :: (l1 ++ l2)).
    cbn [flancos]. rewrite IH, last_cons_previo. lia.
Qed.

Lemma flancos_no_negativo (l : list bool) : forall p : bool, 0 <= flancos p l.
Proof.
  induction l as [|v l IH]; intros p; cbn [flancos]; [lia|].
  specialize (IH v). destruct (v && negb p); lia.
Qed.

Lemma cuenta_app (s s1 s2 : Sistema) (ev1 ev2 : list evento) :
  cuenta s s1 ev1 -> cuenta s1 s2 ev2 -> cuenta s s2 (ev1 ++ ev2).
Proof.
  intros [C1 P1] [C2 P2]. unfold cuenta.
  rewrite niveles_sondeados_app, flancos_app, last_app_previo.
  rewrite C2, P2, C1, P1. split; [lia|reflexivity].
Qed.

Lemma cuenta_sin_sondeo (s s' : Sistema) (ev : list evento) :
  Forall (fun e => es_sondeo e = false) ev ->
  ciclo s' = ciclo s ->
  flotante_previo s' = flotante_previo s ->
  niveles_sondeados ev = [] /\ cuenta s s' ev.
Proof.
  intros Hev Hc Hp. pose proof (niveles_sondeados_nil ev Hev) as Hn.
  split; [exact Hn|]. unfold cuenta. rewrite Hn, Hc, Hp. cbn. split; [lia|reflexivity].
Qed.

Lemma cuenta_sondeo (v : bool) (s : Sistema) :
  cuenta s (tras_flotante v s) [EvPin PinFlotante v].
Proof.
  unfold cuenta. cbn.
  destruct (v && negb (flotante_previo s)); split; try reflexivity; lia.
Qed.

(** Two traces without polls, one after the other. *)
Lemma sin_sondeo_app (s s1 s2 : Sistema) (ev1 ev2 : list evento) :
  niveles_sondeados ev1 = [] /\ cuenta s s1 ev1 ->
  niveles_sondeados ev2 = [] /\ cuenta s1 s2 ev2 ->
  niveles_sondeados (ev1 ++ ev2) = [] /\ cuenta s s2 (ev1 ++ ev2).
Proof.
  intros [N1 C1] [N2 C2]. split; [|eapply cuenta_app; eassumption].
  now rewrite niveles_sondeados_app, N1, N2.
Qed.

Lemma marcha_manual_cuenta (ent : Entradas) (s : Sistema) :
  wpt (marcha_manual ent)
      (fun _ s' ev =>
         (niveles_sondeados ev = [] /\ cuenta s s' ev) /\
         n_manual s' = S (n_manual s) /\ n_flotante s' = n_flotante s) s.
Proof.
  unfold wpt, marcha_manual. unfold bind at 1.
  unfold verificar_manual, bind at 1. unfold pin_read, ret. cbn [n_pin].
  destruct (pin_value ent PinManual (n_manual s)).
  - unfold bind at 1. unfold verificar_bomba1, bind at 1.
    unfold pin_read, ret. cbn [n_pin avanza_pin n_bomba1].
    destruct (pin_value ent PinBomba1 (n_bomba1 s));
      (eexists _, _, _; split; [reflexivity|]; split; [|split; reflexivity];
       apply cuenta_sin_sondeo; [repeat constructor|reflexivity|reflexivity]).
  - eexists _, _, _. split; [reflexivity|]. split; [|split; reflexivity].
    apply cuenta_sin_sondeo; [repeat constructor|reflexivity|reflexivity].
Qed.

Lemma marcha_auto_cuenta (ent : Entradas) (s : Sistema) :
  wpt (marcha_auto ent)
      (fun _ s' ev =>
         niveles_sondeados ev =
           (if pin_value ent PinManual (n_manual s) then []
            else [pin_value ent PinFlotante (n_flotante s)]) /\
         cuenta s s' ev) s.
Proof.
  unfold wpt, marcha_auto. unfold bind at 1.
  unfold verificar_manual, bind at 1. unfold pin_read, ret. cbn [n_pin].
  destruct (pin_value ent PinManual (n_manual s)); cbn [negb].
  - eexists _, _, _. split; [reflexivity|].
    apply cuenta_sin_sondeo; [repeat constructor|reflexivity|reflexivity].
  - unfold bind at 1. unfold bind at 1. rewrite verificar_flotante_run.
    cbn [n_flotante avanza_pin].
    set (v := pin_value ent PinFlotante (n_flotante s)).
    pose proof (cuenta_sondeo v (avanza_pin PinManual s)) as Hv.
    destruct v.
    + unfold bind at 1. unfold gets.
      match goal with |- context [?c mod 2 =? 0] => destruct (c mod 2 =? 0) end;
        (eexists _, _, _; split; [reflexivity|]; split; [reflexivity|];
         unfold cuenta in *; cbn in *; exact Hv).
    + eexists _, _, _. split; [reflexivity|]. split; [reflexivity|].
      unfold cuenta in *; cbn in *; exact Hv.
Qed.

Lemma medir_corriente_cuenta (ent : Entradas) (i : id_bomba) (s : Sistema) :
  wpt (medir_corriente ent i)
      (fun _ s' ev => niveles_sondeados ev = [] /\ cuenta s s' ev) s.
Proof.
  destruct (medir_corriente_run ent i s) as (maximo & _ & Hrun).
  destruct (Qle_bool (corriente_falla (bomba i s)) maximo);
    (eapply wpt_run; [exact Hrun|]);
    (apply cuenta_sin_sondeo;
     [apply Forall_app; split;
      [apply eventos_ventana_Forall; reflexivity|repeat constructor]
     |destruct i; reflexivity|destruct i; reflexivity]).
Qed.

Lemma medir_temperatura_cuenta (ent : Entradas) (i : id_bomba) (s : Sistema) :
  wpt (medir_temperatura ent i)
      (fun _ s' ev => niveles_sondeados ev = [] /\ cuenta s s' ev) s.
Proof.
  pose proof (medir_temperatura_run ent i s) as Hrun.
  destruct (ow_convert ent (n_convert s));
    [destruct (ow_read ent (n_read s) (id_temp (bomba i s))) as [t|];
     [destruct (temp_falla (bomba i s) <=? int_of_float t)|]|];
    (eapply wpt_run; [exact Hrun|]);
    (apply cuenta_sin_sondeo;
     [repeat constructor|destruct i; reflexivity|destruct i; reflexivity]).
Qed.

Lemma mostrar_medidas_cuenta (i : id_bomba) (s : Sistema) :
  wpt (mostrar_medidas i)
      (fun _ s' ev => niveles_sondeados ev = [] /\ cuenta s s' ev) s.
Proof.
  eapply wpt_run; [apply mostrar_medidas_run|].
  apply cuenta_sin_sondeo; [repeat constructor|reflexivity|reflexivity].
Qed.

Lemma verificar_falla_cuenta (s : Sistema) :
  wpt verificar_falla
      (fun _ s' ev => niveles_sondeados ev = [] /\ cuenta s s' ev) s.
Proof.
  pose proof (verificar_falla_run s) as Hrun.
  destruct (estado_falla (b1 s)), (estado_falla (b2 s)); cbn [andb] in Hrun;
    (eapply wpt_run; [exact Hrun|]);
    (apply cuenta_sin_sondeo; [repeat constructor|reflexivity|reflexivity]).
Qed.

Lemma medidas_cuenta (ent : Entradas) (i : id_bomba) (s : Sistema) {A : Type}
    (k : M A) (Q : A -> Sistema -> list evento -> Prop) :
  (forall s' ev, niveles_sondeados ev = [] /\ cuenta s s' ev ->
     wpt k (fun a s2 ev2 => Q a s2 (ev ++ ev2)) s') ->
  wpt (medir_corriente ent i;; medir_temperatura ent i;; k) Q s.
Proof.
  intros Hk.
  apply wpt_bind. eapply wpt_conseq; [apply medir_corriente_cuenta|].
  intros [] s1 ev1 H1. cbv beta.
  apply wpt_bind. eapply wpt_conseq; [apply medir_temperatura_cuenta|].
  intros [] s2 ev2 H2. cbv beta.
  eapply wpt_conseq; [apply (Hk s2 (ev1 ++ ev2)), (sin_sondeo_app _ _ _ _ _ H1 H2)|].
  intros a s3 ev3 HQ. cbv beta in HQ. now rewrite app_assoc.
Qed.

Lemma supervisar_cuenta (ent : Entradas) (i : id_bomba) (en_marcha : bool)
    (s : Sistema) :
  wpt (supervisar ent i en_marcha)
      (fun _ s' ev => niveles_sondeados ev = [] /\ cuenta s s' ev) s.
Proof.
  destruct en_marcha.
  - unfold supervisar. apply medidas_cuenta.
    intros s2 ev2 H2. apply wpt_bind, wpt_gets.
    destruct (negb (estado_falla (bomba i s2))).
    + apply wpt_bind. eapply wpt_conseq; [apply mostrar_medidas_cuenta|].
      intros [] s3 ev3 H3. apply wpt_ret. cbn [app]. rewrite app_nil_r.
      eapply sin_sondeo_app; eassumption.
    + eapply wpt_conseq; [apply verificar_falla_cuenta|].
      intros r s3 ev3 H3. cbn [app]. eapply sin_sondeo_app; eassumption.
  - apply wpt_ret. apply cuenta_sin_sondeo; [constructor|reflexivity|reflexivity].
Qed.

Lemma cuerpo_main_cuenta (ent : Entradas) (s : Sistema) :
  wpt (cuerpo_main ent)
      (fun _ s' ev =>
         niveles_sondeados ev =
           (if pin_value ent PinManual (S (n_manual s)) then []
            else [pin_value ent PinFlotante (n_flotante s)]) /\
         cuenta s s' ev) s.
Proof.
  unfold cuerpo_main.
  apply wpt_bind. eapply wpt_conseq; [apply marcha_manual_cuenta|].
  intros a1 s1 ev1 ([N1 C1] & Hnm & Hnf). cbv beta.
  apply wpt_bind. eapply wpt_conseq; [apply marcha_auto_cuenta|].
  intros a2 s2 ev2 [N2 C2]. cbv beta. rewrite Hnm, Hnf in N2.
  apply wpt_bind, wpt_gets. apply wpt_bind, wpt_gets.
  apply wpt_bind. eapply wpt_conseq; [apply supervisar_cuenta|].
  intros r1 s3 ev3 [N3 C3]. cbv beta. cbn [app].
  destruct r1 as [l|].
  - apply wpt_ret. rewrite app_nil_r.
    split; [now rewrite !niveles_sondeados_app, N1, N2, N3, app_nil_r|].
    eapply cuenta_app; [exact C1|]. eapply cuenta_app; eassumption.
  - apply wpt_bind. eapply wpt_conseq; [apply supervisar_cuenta|].
    intros r2 s4 ev4 [N4 C4]. cbv beta.
    assert (HN : niveles_sondeados (ev1 ++ ev2 ++ ev3 ++ ev4 ++ []) =
                 (if pin_value ent PinManual (S (n_manual s)) then []
                  else [pin_value ent PinFlotante (n_flotante s)])).
    { now rewrite !niveles_sondeados_app, N1, N2, N3, N4, !app_nil_r. }
    assert (HC : cuenta s s4 (ev1 ++ ev2 ++ ev3 ++ ev4 ++ [])).
    { rewrite app_nil_r. eapply cuenta_app; [exact C1|].
      eapply cuenta_app; [exact C2|]. eapply cuenta_app; eassumption. }
    destruct r2 as [l|]; apply wpt_ret; split; assumption.
Qed.

Lemma cuerpo_falla_cuenta (ent : Entradas) (sana : id_bomba) (s : Sistema) :
  wpt (cuerpo_falla ent sana)
      (fun _ s' ev =>
         niveles_sondeados ev = [pin_value ent PinFlotante (n_flotante s)] /\
         cuenta s s' ev) s.
Proof.
  unfold cuerpo_falla. apply wpt_bind.
  eapply wpt_run; [apply verificar_flotante_run|].
  set (v := pin_value ent PinFlotante (n_flotante s)).
  pose proof (cuenta_sondeo v s) as Hv.
  assert (Hfin : forall s' ev,
            niveles_sondeados ev = [] /\ cuenta (tras_flotante v s) s' ev ->
            niveles_sondeados ([EvPin PinFlotante v] ++ ev) = [v] /\
            cuenta s s' ([EvPin PinFlotante v] ++ ev)).
  { intros s' ev [N C]. split; [cbn; now rewrite N|].
    eapply cuenta_app; eassumption. }
  destruct v.
  - apply wpt_bind, wpt_gets.
    destruct (negb (estado_falla (bomba sana (tras_flotante true s)))).
    + apply wpt_bind. eapply wpt_run; [apply marcha_run|].
      apply wpt_bind. eapply wpt_run; [apply display_run|].
      apply medidas_cuenta. intros s3 ev3 H3.
      apply wpt_bind, wpt_gets. apply wpt_bind.
      assert (Hpre : niveles_sondeados
                       ([EvRele sana true] ++
                        eventos_display "Modo: Auto" ("Bomba " ++ nombre sana ++ ": ON"))
                     = [] /\
                     cuenta (tras_flotante true s)
                       (con_bomba sana (con_estado_bomba true) (tras_flotante true s))
                       ([EvRele sana true] ++
                        eventos_display "Modo: Auto" ("Bomba " ++ nombre sana ++ ": ON"))).
      { apply cuenta_sin_sondeo;
          [repeat constructor|destruct sana; reflexivity|destruct sana; reflexivity]. }
      pose proof (sin_sondeo_app _ _ _ _ _ Hpre H3) as H4.
      destruct (negb (estado_falla (bomba sana s3))).
      * eapply wpt_conseq; [apply mostrar_medidas_cuenta|].
        intros [] s5 ev5 H5. apply wpt_ret.
        pose proof (Hfin _ _ (sin_sondeo_app _ _ _ _ _ H4 H5)) as H6.
        cbn [app] in *. rewrite !app_nil_r.
        repeat rewrite <- app_assoc in H6. exact H6.
      * apply wpt_ret, wpt_ret.
        pose proof (Hfin _ _ H4) as H6.
        cbn [app] in *. rewrite !app_nil_r.
        repeat rewrite <- app_assoc in H6. exact H6.
    + apply wpt_ret. rewrite app_nil_r.
      split; [reflexivity|exact Hv].
  - apply wpt_bind. eapply wpt_run; [apply parada_run|]. apply wpt_ret.
    cbn [app].
    apply (Hfin (con_bomba sana (con_estado_bomba false) (tras_flotante false s))
             [EvRele sana false]).
    apply cuenta_sin_sondeo;
      [repeat constructor|destruct sana; reflexivity|destruct sana; reflexivity].
Qed.

Lemma paso_cuenta (ent : Entradas) (l : lugar) (s : Sistema) :
  wpt (paso ent l) (fun _ s' ev => cuenta s s' ev) s.
Proof.
  destruct (es_alarma l) eqn:Hal.
  { destruct (paso_alarma ent l s Hal) as (ev & Hrun & Hev).
    eapply wpt_run; [exact Hrun|].
    apply cuenta_sin_sondeo; [|reflexivity|reflexivity].
    eapply Forall_impl; [|exact Hev].
    intros e He. destruct e; try reflexivity; discriminate He. }
  destruct l; try discriminate Hal; cbn [paso].
  - eapply wpt_conseq; [apply cuerpo_main_cuenta|]. intros a s' ev [_ H]. exact H.
  - apply wpt_bind. eapply wpt_conseq; [apply cuerpo_falla_cuenta|].
    intros a s' ev [_ H]. apply wpt_ret. rewrite app_nil_r. exact H.
  - apply wpt_bind. eapply wpt_conseq; [apply cuerpo_falla_cuenta|].
    intros a s' ev [_ H]. apply wpt_ret. rewrite app_nil_r. exact H.
Qed.

Lemma iterar_cuenta (ent : Entradas) (n : nat) :
  forall (l : lugar) (s : Sistema),
    wpt (iterar ent n l) (fun _ s' ev => cuenta s s' ev) s.
Proof.
  induction n as [|n IH]; intros l s; cbn [iterar].
  - apply wpt_ret.
    apply (proj2 (cuenta_sin_sondeo s s [] (Forall_nil _) eq_refl eq_refl)).
  - apply wpt_bind. eapply wpt_conseq; [apply paso_cuenta|].
    intros l1 s1 ev1 H1. cbv beta.
    eapply wpt_conseq; [apply (IH l1 s1)|].
    intros l2 s2 ev2 H2. exact (cuenta_app _ _ _ _ _ H1 H2).
Qed.

(** X10. In every run of [main], at every loop head, [ciclo] is the number
    of low-to-high transitions in the sequence of float levels the program
    has polled since startup, and [flotante_previo] is the last level polled
    ([False] before the first poll). So [ciclo] is never negative and never
    decreases, and nothing but a poll of the float changes it. *)
Theorem ciclo_cuenta_los_flancos (ent : Entradas) (n m : nat) :
  exists (l l' : lugar) (s s' : Sistema) (ev ev' : list evento),
    main ent n estado_inicial = (Normal l, s, ev) /\
    iterar ent m l s = (Normal l', s', ev') /\
    ciclo s = flancos false (niveles_sondeados ev) /\
    flotante_previo s = last (niveles_sondeados ev) false /\
    ciclo s' = ciclo s + flancos (flotante_previo s) (niveles_sondeados ev') /\
    0 <= ciclo s <= ciclo s'.
Proof.
  destruct (inicio_espejo estado_inicial eq_refl)
    as ([] & s0 & ev0 & Hini & _ & Hs0).
  assert (H0 : cuenta estado_inicial s0 ev0).
  { injection Hini as <- <-. split; reflexivity. }
  destruct (iterar_cuenta ent n BucleMain s0) as (l & s & ev & Hrun & H1).
  destruct (iterar_cuenta ent m l s) as (l' & s' & ev' & Hrun' & [C2 P2]).
  destruct (cuenta_app _ _ _ _ _ H0 H1) as [C P].
  exists l, l', s, s', (ev0 ++ ev), ev'.
  split; [unfold main, bind; rewrite Hini, Hrun; reflexivity|].
  split; [exact Hrun'|]. split; [exact C|]. split; [exact P|].
  split; [exact C2|].
  pose proof (flancos_no_negativo (niveles_sondeados (ev0 ++ ev)) false).
  pose proof (flancos_no_negativo (niveles_sondeados ev') (flotante_previo s)).
  cbn in C. lia.
Qed.

(** X11. One iteration of the main loop reads the manual switch twice,
    and it is the second read, made by [marcha_auto], that decides whether
    the float is polled: when it is high the float is not polled in that
    iteration and [ciclo] and [flotante_previo] are left as they are, so a
    float transition is not counted while the switch is in manual; when it
    is low the float is polled exactly once and counted as
    [verificar_flotante] does. *)
Theorem sondeo_en_main (ent : Entradas) (s : Sistema) :
  exists (l : lugar) (s' : Sistema) (ev : list evento),
    cuerpo_main ent s = (Normal l, s', ev) /\
    (pin_value ent PinManual (S (n_manual s)) = true ->
       niveles_sondeados ev = [] /\
       ciclo s' = ciclo s /\ flotante_previo s' = flotante_previo s) /\
    (pin_value ent PinManual (S (n_manual s)) = false ->
       niveles_sondeados ev = [pin_value ent PinFlotante (n_flotante s)] /\
       ciclo s' =
         (if pin_value ent PinFlotante (n_flotante s) && negb (flotante_previo s)
          then ciclo s + 1 else ciclo s) /\
       flotante_previo s' = pin_value ent PinFlotante (n_flotante s)).
Proof.
  destruct (cuerpo_main_cuenta ent s) as (l & s' & ev & Hrun & HN & [C P]).
  exists l, s', ev. split; [exact Hrun|].
  destruct (pin_value ent PinManual (S (n_manual s))).
  - split; [|intros; discriminate]. intros _. rewrite HN in C, P. cbn in C, P.
    split; [exact HN|]. split; [lia|exact P].
  - split; [intros; discriminate|]. intros _. rewrite HN in C, P.
    cbn in C, P. split; [exact HN|]. split; [|exact P].
    destruct (pin_value ent PinFlotante (n_flotante s) && negb (flotante_previo s));
      lia.
Qed.

(** ** The lines written to the display *)

Lemma texto_decimas_tabulado :
  forallb (fun d => (String.length (texto_decimas d) <=? 5)%nat)
    (rango (Z.to_nat 501) (-250)) = true.
Proof. vm_compute. reflexivity. Qed.

Lemma str_int_tabulado :
  forallb (fun z => (String.length (str_int z) <=? 4)%nat)
    (rango (Z.to_nat 1069) (-999)) = true.
Proof. vm_compute. reflexivity. Qed.

Lemma str_float_corto (q : Q) :
  -250 <= Qfloor (q * 10) <= 250 -> (String.length (str_float q) <= 5)%nat.
Proof.
  intros H. change (str_float q) with (texto_decimas (Qfloor (q * 10))).
  pose proof texto_decimas_tabulado as Ht. rewrite forallb_forall in Ht.
  apply Nat.leb_le, Ht, In_rango. rewrite Z2Nat.id; lia.
Qed.

Lemma str_int_corto (z : Z) :
  -999 <= z < 70 -> (String.length (str_int z) <= 4)%nat.
Proof.
  intros H. pose proof str_int_tabulado as Ht. rewrite forallb_forall in Ht.
  apply Nat.leb_le, Ht, In_rango. rewrite Z2Nat.id; lia.
Qed.

Lemma Qfloor_decimas (z : Z) : Qfloor ((z # 10) * 10) = z.
Proof.
  unfold Qfloor, Qmult. cbn [Qnum Qden].
  change (Zpos (10 * 1)) with 10. apply Z.div_mul. discriminate.
Qed.

Lemma lineas_medidas_caben (i : id_bomba) (b : Bomba) :
  legible b ->
  (String.length (linea_corriente i b) <= 16)%nat /\
  (String.length (linea_temperatura i b) <= 16)%nat.
Proof.
  intros (Hc & Hl & Ht).
  pose proof (str_float_corto _ Hc). pose proof (str_int_corto _ Ht).
  unfold linea_corriente, linea_temperatura. rewrite !length_append.
  destruct i; cbn [nombre String.length]; lia.
Qed.

Lemma eventos_display_caben (linea1 linea2 : string) :
  (String.length linea1 <= 16)%nat ->
  (String.length linea2 <= 16)%nat ->
  Forall cabe (eventos_display linea1 linea2).
Proof.
  intros H1 H2. unfold eventos_display.
  repeat (constructor;
          [first [exact I | cbv [cabe]; rewrite center_length; lia]|]).
  constructor.
Qed.

Lemma lineas_escritas_app (ev1 ev2 : list evento) :
  lineas_escritas (ev1 ++ ev2) = lineas_escritas ev1 ++ lineas_escritas ev2.
Proof.
  induction ev1 as [|e ev1 IH]; [reflexivity|].
  destruct e; cbn; rewrite ?IH; reflexivity.
Qed.

Lemma cabe_lineas (ev : list evento) :
  Forall cabe ev ->
  Forall (fun linea => String.length linea = 16%nat) (lineas_escritas ev).
Proof.
  induction 1 as [|e ev He _ IH]; [constructor|].
  destruct e; cbn; try exact IH. constructor; [exact He|exact IH].
Qed.

Lemma wp_and {A : Type} (m : M A) (Q1 Q2 : A -> Sistema -> Prop)
    (E1 E2 : evento -> Prop) (s : Sistema) :
  wp m Q1 E1 s -> wp m Q2 E2 s ->
  wp m (fun a s' => Q1 a s' /\ Q2 a s') (fun e => E1 e /\ E2 e) s.
Proof.
  intros (a & s' & ev & Hm & HQ & HE) (a' & s'' & ev' & Hm' & HQ' & HE').
  rewrite Hm in Hm'. injection Hm' as <- <- <-.
  exists a, s', ev. split; [exact Hm|]. split; [auto|].
  rewrite Forall_forall in *. auto.
Qed.

Lemma marcha_manual_legible (ent : Entradas) (s : Sistema) :
  legibles s ->
  wp (marcha_manual ent) (fun _ s' => legibles s') cabe s.
Proof.
  intros HL. unfold wp, marcha_manual. unfold bind at 1.
  unfold verificar_manual, bind at 1. unfold pin_read, ret. cbn [n_pin].
  destruct (pin_value ent PinManual (n_manual s)).
  - unfold bind at 1. unfold verificar_bomba1, bind at 1.
    unfold pin_read, ret. cbn [n_pin avanza_pin n_bomba1].
    destruct (pin_value ent PinBomba1 (n_bomba1 s));
      (eexists _, _, _; split; [reflexivity|];
       split; [exact HL|repeat constructor]).
  - eexists _, _, _. split; [reflexivity|].
    split; [exact HL|repeat constructor].
Qed.

Lemma marcha_auto_legible (ent : Entradas) (s : Sistema) :
  legibles s ->
  wp (marcha_auto ent) (fun _ s' => legibles s') cabe s.
Proof.
  intros HL. unfold wp, marcha_auto. unfold bind at 1.
  unfold verificar_manual, bind at 1. unfold pin_read, ret. cbn [n_pin].
  destruct (pin_value ent PinManual (n_manual s)); cbn [negb].
  - eexists _, _, _. split; [reflexivity|].
    split; [exact HL|repeat constructor].
  - unfold bind at 1. unfold bind at 1. rewrite verificar_flotante_run.
    cbn [n_flotante avanza_pin].
    destruct (pin_value ent PinFlotante (n_flotante s)).
    + unfold bind at 1. unfold gets.
      match goal with |- context [?c mod 2 =? 0] => destruct (c mod 2 =? 0) end;
        (eexists _, _, _; split; [reflexivity|];
         split; [exact HL|repeat constructor]).
    + eexists _, _, _. split; [reflexivity|].
      split; [exact HL|repeat constructor].
Qed.

Lemma medir_corriente_legible (ent : Entradas) (i : id_bomba) (s : Sistema) :
  legibles s ->
  wp (medir_corriente ent i) (fun _ s' => legibles s') cabe s.
Proof.
  intros HL.
  destruct (medir_corriente_run ent i s) as (maximo & Hmax & Hrun).
  destruct (Qle_bool (corriente_falla (bomba i s)) maximo).
  - eapply wp_run; [exact Hrun|destruct i; exact HL|].
    apply Forall_app. split; [apply eventos_ventana_Forall; intros; exact I|].
    repeat constructor.
  - eapply wp_run; [exact Hrun| |].
    + destruct (max_lista_spec _ _ Hmax) as [Hin _].
      apply ventana_In in Hin. destruct Hin as (j & _ & Hj).
      pose proof (Z.mod_pos_bound (adc26 ent j) 65536 ltac:(lia)) as Hr.
      destruct (amperes_rango (adc26 ent j mod 65536) ltac:(lia))
        as (z & Hz & Hb).
      rewrite Hz in Hj.
      assert (Hc : -250 <= Qfloor (maximo * 10) <= 250).
      { rewrite Hj, Qfloor_decimas. exact Hb. }
      destruct HL as [(H1 & H2 & H3) (H4 & H5 & H6)].
      destruct i; split; (split; [|split]); assumption.
    + apply Forall_app. split; [apply eventos_ventana_Forall; intros; exact I|].
      constructor.
Qed.

Lemma medir_temperatura_legible (ent : Entradas) (i : id_bomba) (s : Sistema) :
  (forall (k : nat) (rom : list Z) (t : Q),
     ow_read ent k rom = Some t -> -999 <= int_of_float t) ->
  legibles s ->
  wp (medir_temperatura ent i) (fun _ s' => legibles s') cabe s.
Proof.
  intros Hfrio HL. pose proof (medir_temperatura_run ent i s) as Hrun.
  destruct (ow_convert ent (n_convert s)).
  - destruct (ow_read ent (n_read s) (id_temp (bomba i s))) as [t|] eqn:Ht.
    + destruct (temp_falla (bomba i s) <=? int_of_float t) eqn:Hlim.
      * eapply wp_run; [exact Hrun|destruct i; exact HL|repeat constructor].
      * eapply wp_run; [exact Hrun| |repeat constructor].
        apply Z.leb_gt in Hlim. specialize (Hfrio _ _ _ Ht).
        destruct HL as [(H1 & H2 & H3) (H4 & H5 & H6)].
        destruct i; cbn [bomba] in Hlim;
          split; (split; [|split]); try assumption; cbn; lia.
    + eapply wp_run; [exact Hrun|exact HL|repeat constructor].
  - eapply wp_run; [exact Hrun|exact HL|repeat constructor].
Qed.

Lemma mostrar_medidas_legible (i : id_bomba) (s : Sistema) :
  legibles s ->
  wp (mostrar_medidas i) (fun _ s' => s' = s) cabe s.
Proof.
  intros HL. eapply wp_run; [apply mostrar_medidas_run|reflexivity|].
  assert (Hb : legible (bomba i s)) by (destruct i; apply HL).
  destruct (lineas_medidas_caben i _ Hb) as [Hc Ht].
  constructor; [exact I|]. apply Forall_app.
  split; [apply eventos_display_caben; assumption|repeat constructor].
Qed.


(** The two measurements of an activation keep the readings legible. *)
Lemma medidas_legibles (ent : Entradas) (i : id_bomba) (s : Sistema) {A : Type}
    (k : M A) (Post : A -> Sistema -> Prop) :
  (forall (j : nat) (rom : list Z) (t : Q),
     ow_read ent j rom = Some t -> -999 <= int_of_float t) ->
  legibles s ->
  (forall s', tras_medida i s s' -> legibles s' -> wp k Post cabe s') ->
  wp (medir_corriente ent i;; medir_temperatura ent i;; k) Post cabe s.
Proof.
  intros Hfrio HL Hk.
  apply wp_bind.
  eapply wp_conseq;
    [apply (wp_and _ _ _ _ _ _ (medir_corriente_wp ent i s)
              (medir_corriente_legible ent i s HL))| |intros e [_ He]; exact He].
  intros [] s1 [H1 HL1]. cbv beta.
  apply wp_bind.
  eapply wp_conseq;
    [apply (wp_and _ _ _ _ _ _ (medir_temperatura_wp ent i s1)
              (medir_temperatura_legible ent i s1 Hfrio HL1))
    | |intros e [_ He]; exact He].
  intros [] s2 [H2 HL2]. cbv beta.
  apply Hk; [eapply tras_medida_trans; eassumption|exact HL2].
Qed.

Lemma supervisar_legible (ent : Entradas) (i : id_bomba) (en_marcha : bool)
    (s : Sistema) :
  (forall (j : nat) (rom : list Z) (t : Q),
     ow_read ent j rom = Some t -> -999 <= int_of_float t) ->
  estado_falla (b1 s) = false ->
  estado_falla (b2 s) = false ->
  legibles s ->
  wp (supervisar ent i en_marcha)
     (fun r s' =>
        legibles s' /\
        match r with
        | None => estado_falla (b1 s') = false /\ estado_falla (b2 s') = false
        | Some l => l = BucleFallaB1 \/ l = BucleFallaB2
        end)
     cabe s.
Proof.
  intros Hfrio H1 H2 HL. destruct en_marcha; [|apply wp_ret; auto].
  unfold supervisar. apply medidas_legibles; [exact Hfrio|exact HL|].
  intros s2 [Ho Hi] HL2.
  apply wp_bind, wp_gets.
  destruct (estado_falla (bomba i s2)) eqn:Hf; cbn [negb].
  - unfold wp. rewrite verificar_falla_run.
    destruct i; cbn [bomba otra] in *.
    + assert (H2' : estado_falla (b2 s2) = false) by congruence.
      rewrite Hf, H2'. cbn [andb].
      eexists _, _, _. split; [reflexivity|].
      split; [split; [exact HL2|left; reflexivity]|repeat constructor].
    + assert (H1' : estado_falla (b1 s2) = false) by congruence.
      rewrite Hf, H1'. cbn [andb].
      eexists _, _, _. split; [reflexivity|].
      split; [split; [exact HL2|right; reflexivity]|repeat constructor].
  - apply wp_bind.
    eapply wp_conseq; [apply mostrar_medidas_legible, HL2| |auto].
    intros [] s3 ->. apply wp_ret. split; [exact HL2|].
    destruct Hi as [[Hx _]|[Hx _]]; [congruence|].
    destruct i; cbn [bomba otra] in *; split; congruence.
Qed.

Lemma cuerpo_main_legible (ent : Entradas) (s : Sistema) :
  (forall (j : nat) (rom : list Z) (t : Q),
     ow_read ent j rom = Some t -> -999 <= int_of_float t) ->
  Inv BucleMain s ->
  legibles s ->
  wp (cuerpo_main ent) (fun l s' => legibles s' /\ l <> BucleAmbas) cabe s.
Proof.
  intros Hfrio [H1 H2] HL. unfold cuerpo_main.
  apply wp_bind.
  eapply wp_conseq;
    [apply (wp_and _ _ _ _ _ _ (marcha_manual_wp ent s)
              (marcha_manual_legible ent s HL))| |intros e [_ He]; exact He].
  intros _ s1 [[Ha1 Ha2] HL1]. cbv beta.
  apply wp_bind.
  eapply wp_conseq;
    [apply (wp_and _ _ _ _ _ _ (marcha_auto_wp ent s1)
              (marcha_auto_legible ent s1 HL1))| |intros e [_ He]; exact He].
  intros _ s2 [[Hb1 Hb2] HL2]. cbv beta.
  apply wp_bind, wp_gets. apply wp_bind, wp_gets.
  apply wp_bind.
  eapply wp_conseq;
    [apply (supervisar_legible ent B1 _ s2 Hfrio); [congruence|congruence|exact HL2]
    | |auto].
  intros [l|] s3 [HL3 H3]; cbv beta.
  - apply wp_ret. split; [exact HL3|]. destruct H3 as [-> | ->]; discriminate.
  - destruct H3 as [H31 H32]. apply wp_bind.
    eapply wp_conseq;
      [apply (supervisar_legible ent B2 _ s3 Hfrio); assumption| |auto].
    intros [l|] s4 [HL4 H4]; apply wp_ret; (split; [exact HL4|]);
      [destruct H4 as [-> | ->]; discriminate|discriminate].
Qed.

Lemma cuerpo_falla_legible (ent : Entradas) (sana : id_bomba) (s : Sistema) :
  (forall (j : nat) (rom : list Z) (t : Q),
     ow_read ent j rom = Some t -> -999 <= int_of_float t) ->
  legibles s ->
  wp (cuerpo_falla ent sana) (fun _ s' => legibles s') cabe s.
Proof.
  intros Hfrio HL. unfold cuerpo_falla. apply wp_bind.
  eapply wp_run; [apply verificar_flotante_run| |repeat constructor].
  destruct (pin_value ent PinFlotante (n_flotante s)).
  - apply wp_bind, wp_gets.
    destruct (negb (estado_falla (bomba sana (tras_flotante true s)))).
    + apply wp_bind. eapply wp_run; [apply marcha_run| |repeat constructor].
      apply wp_bind. eapply wp_run; [apply display_run| |].
      2:{ apply eventos_display_caben; [cbn; lia|].
          rewrite !length_append. destruct sana; cbn; lia. }
      apply medidas_legibles; [exact Hfrio|destruct sana; exact HL|].
      intros s2 _ HL2.
      apply wp_bind, wp_gets. apply wp_bind.
      destruct (negb (estado_falla (bomba sana s2))).
      * eapply wp_conseq; [apply mostrar_medidas_legible, HL2| |auto].
        intros [] s3 ->. apply wp_ret. exact HL2.
      * apply wp_ret, wp_ret. exact HL2.
    + apply wp_ret. exact HL.
  - apply wp_bind. eapply wp_run; [apply parada_run| |repeat constructor].
    apply wp_ret. destruct sana; exact HL.
Qed.

Lemma paso_legible (ent : Entradas) (l : lugar) (s : Sistema) :
  (forall (j : nat) (rom : list Z) (t : Q),
     ow_read ent j rom = Some t -> -999 <= int_of_float t) ->
  Inv l s ->
  legibles s ->
  l <> BucleAmbas ->
  wp (paso ent l)
     (fun l' s' => Inv l' s' /\ legibles s' /\ l' <> BucleAmbas) cabe s.
Proof.
  intros Hfrio HI HL Hl.
  assert (H : wp (paso ent l) (fun l' s' => legibles s' /\ l' <> BucleAmbas)
                cabe s).
  { destruct l; [| congruence | | | |]; cbn [paso].
    - apply cuerpo_main_legible; assumption.
    - apply wp_bind.
      eapply wp_conseq; [apply (cuerpo_falla_legible ent B2 s Hfrio HL)| |auto].
      intros a s' HL'. apply wp_ret. split; [exact HL'|].
      destruct a; discriminate.
    - apply wp_bind. eapply wp_run; [apply cuerpo_alarma_run| |repeat constructor].
      apply wp_ret. split; [exact HL|discriminate].
    - apply wp_bind.
      eapply wp_conseq; [apply (cuerpo_falla_legible ent B1 s Hfrio HL)| |auto].
      intros a s' HL'. apply wp_ret. split; [exact HL'|].
      destruct a; discriminate.
    - apply wp_bind. eapply wp_run; [apply cuerpo_alarma_run| |repeat constructor].
      apply wp_ret. split; [exact HL|discriminate]. }
  eapply wp_conseq; [apply (wp_and _ _ _ _ _ _ (paso_inv ent l s HI) H)| |].
  - intros l' s' [[HI' _] [HL' Hl']]. auto.
  - intros e [_ He]. exact He.
Qed.

Lemma iterar_legible (ent : Entradas) (n : nat) :
  (forall (j : nat) (rom : list Z) (t : Q),
     ow_read ent j rom = Some t -> -999 <= int_of_float t) ->
  forall (l : lugar) (s : Sistema),
    Inv l s ->
    legibles s ->
    l <> BucleAmbas ->
    wp (iterar ent n l)
       (fun l' s' => Inv l' s' /\ legibles s' /\ l' <> BucleAmbas) cabe s.
Proof.
  intros Hfrio. induction n as [|n IH]; intros l s HI HL Hl; cbn [iterar].
  - apply wp_ret. auto.
  - apply wp_bind.
    eapply wp_conseq; [apply paso_legible; assumption| |auto].
    intros l1 s1 (HI1 & HL1 & Hl1). cbv beta. apply IH; assumption.
Qed.

(** The start-up sequence writes its two messages as they are. *)
Lemma inicio_lineas (s : Sistema) :
  exists ev0 : list evento,
    inicio s =
      (Normal tt,
       con_bomba B2 (con_estado_bomba false)
         (con_bomba B1 (con_estado_bomba false) s), ev0) /\
    lineas_escritas ev0 = ["Iniciando..."; "Esperando..."]%string.
Proof. eexists. split; reflexivity. Qed.

(** C9 fails as stated: with a temperature sensor that answers -1000
    degrees, the first iteration of [main], in manual mode on pump 1, shows
    the measurements of that pump, and the temperature line is written to the
    display with its 17 characters: nothing truncates it. *)
Lemma linea_de_17_a_menos_1000 :
  exists (s : Sistema) (ev : list evento),
    main ent_helada 1 estado_inicial = (Normal BucleMain, s, ev) /\
    estado_falla (b1 s) = false /\
    temperatura (b1 s) = -1000 /\
    linea_temperatura B1 (b1 s) = "Temp. B1: -1000 C"%string /\
    center "Temp. B1: -1000 C" 16 = "Temp. B1: -1000 C"%string /\
    last (lineas_escritas ev) EmptyString = "Temp. B1: -1000 C"%string /\
    String.length (last (lineas_escritas ev) EmptyString) = 17%nat.
Proof.
  eexists _, _. split; [vm_compute; reflexivity|].
  repeat split; vm_compute; reflexivity.
Qed.

(** C9, as the code has it. [display] writes each of its two lines through
    [center(16)], which pads a short line to exactly 16 characters and never
    truncates: a line of 16 characters or more is written unchanged. In
    every run of [main] in which no temperature below -999 is read, every
    line written to the LCD has at most 16 characters: the two start-up
    messages, which [inicio] writes without [display], and after them only
    lines of exactly 16 characters. The alarm loop of line 293, whose last
    message is longer, is never entered. *)
Theorem lineas_de_16 (ent : Entradas) (n : nat) :
  (forall (k : nat) (rom : list Z) (t : Q),
     ow_read ent k rom = Some t -> -999 <= int_of_float t) ->
  (forall (linea1 linea2 : string) (s : Sistema),
     display linea1 linea2 s =
       (Normal tt, s,
        [EvLcdClear; EvLcdMoveTo 0 0; EvLcdPutstr (center linea1 16);
         EvLcdMoveTo 0 1; EvLcdPutstr (center linea2 16)])) /\
  (forall linea : string,
     String.length (center linea 16) = Nat.max 16 (String.length linea) /\
     ((16 <= String.length linea)%nat -> center linea 16 = linea)) /\
  exists (l : lugar) (s : Sistema) (ev : list evento),
    main ent n estado_inicial = (Normal l, s, ev) /\
    l <> BucleAmbas /\
    Forall (fun linea => (String.length linea <= 16)%nat) (lineas_escritas ev) /\
    exists resto : list string,
      lineas_escritas ev = ("Iniciando..." :: "Esperando..." :: resto)%string /\
      Forall (fun linea => String.length linea = 16%nat) resto.
Proof.
  intros Hfrio. split; [reflexivity|]. split.
  { intros linea. split; [apply center_length|].
    intros H. unfold center. apply Nat.leb_le in H. now rewrite H. }
  destruct (inicio_lineas estado_inicial) as (ev0 & Hini & Hl0).
  destruct (iterar_legible ent n Hfrio BucleMain
              (con_bomba B2 (con_estado_bomba false)
                 (con_bomba B1 (con_estado_bomba false) estado_inicial)))
    as (l & s & ev & Hrun & (_ & _ & Hl) & Hev).
  { split; reflexivity. }
  { split; (split; [|split]); cbn; first [reflexivity|lia]. }
  { discriminate. }
  exists l, s, (ev0 ++ ev).
  split; [unfold main, bind; rewrite Hini, Hrun; reflexivity|].
  split; [exact Hl|].
  pose proof (cabe_lineas ev Hev) as Hres.
  rewrite lineas_escritas_app, Hl0. split.
  - cbn [app]. constructor; [cbn; lia|]. constructor; [cbn; lia|].
    eapply Forall_impl; [|exact Hres]. intros linea ->. lia.
  - exists (lineas_escritas ev). split; [reflexivity|exact Hres].
Qed.

Lemma lineas_de_16_witness :
  (forall (linea1 linea2 : string) (s : Sistema),
     display linea1 linea2 s =
       (Normal tt, s,
        [EvLcdClear; EvLcdMoveTo 0 0; EvLcdPutstr (center linea1 16);
         EvLcdMoveTo 0 1; EvLcdPutstr (center linea2 16)])) /\
  (forall linea : string,
     String.length (center linea 16) = Nat.max 16 (String.length linea) /\
     ((16 <= String.length linea)%nat -> center linea 16 = linea)) /\
  exists (l : lugar) (s : Sistema) (ev : list evento),
    main ent_relevo 2 estado_inicial = (Normal l, s, ev) /\
    l <> BucleAmbas /\
    Forall (fun linea => (String.length linea <= 16)%nat) (lineas_escritas ev) /\
    exists resto : list string,
      lineas_escritas ev = ("Iniciando..." :: "Esperando..." :: resto)%string /\
      Forall (fun linea => String.length linea = 16%nat) resto.
Proof.
  apply (lineas_de_16 ent_relevo 2).
  intros k rom t H. injection H as <-. vm_compute. discriminate.
Defined.

(** ** Every step of a run *)

Lemma bind_ext {A B : Type} (m m' : M A) (k k' : A -> M B) (s : Sistema) :
  m s = m' s ->
  (forall (a : A) (s1 : Sistema), k a s1 = k' a s1) ->
  bind m k s = bind m' k' s.
Proof.
  intros Hm Hk. unfold bind. rewrite Hm.
  destruct (m' s) as [[[a|e] s1] ev1]; [rewrite Hk|]; reflexivity.
Qed.

(** The trees of [Pasos] are the functions of the program. *)
Lemma run_muestrear (ent : Entradas) (n : nat) :
  forall (lista : list Q) (s : Sistema),
    run ent (Pasos.muestrear n lista) s = muestrear ent n lista s.
Proof.
  induction n as [|n IH]; intros lista s; [reflexivity|].
  cbn [Pasos.muestrear muestrear run].
  apply bind_ext; [reflexivity|]. intros raw s1.
  apply bind_ext; [reflexivity|]. intros [] s2. apply IH.
Qed.

Lemma run_medir_corriente (ent : Entradas) (i : id_bomba) (s : Sistema) :
  run ent (Pasos.medir_corriente i) s = medir_corriente ent i s.
Proof.
  unfold Pasos.medir_corriente, medir_corriente. cbn [run].
  apply bind_ext; [apply run_muestrear|]. intros lista s1.
  destruct (max_lista lista) as [maximo|]; [|reflexivity].
  cbn [run]. apply bind_ext; [reflexivity|]. intros umbral s2.
  destruct (Qle_bool umbral maximo); reflexivity.
Qed.

Lemma run_medir_temperatura (ent : Entradas) (i : id_bomba) (s : Sistema) :
  run ent (Pasos.medir_temperatura i) s = medir_temperatura ent i s.
Proof.
  unfold Pasos.medir_temperatura, medir_temperatura. cbn [run].
  unfold try_except.
  assert (H : run ent (Pasos.cuerpo_temperatura i) s = cuerpo_temperatura ent i s).
  { unfold Pasos.cuerpo_temperatura, cuerpo_temperatura. cbn [run].
    apply bind_ext; [reflexivity|]. intros [] s1.
    apply bind_ext; [reflexivity|]. intros [] s2.
    apply bind_ext; [reflexivity|]. intros rom s3.
    apply bind_ext; [reflexivity|]. intros t s4.
    apply bind_ext; [reflexivity|]. intros limite s5.
    destruct (limite <=? int_of_float t); reflexivity. }
  rewrite H. reflexivity.
Qed.

Lemma run_verificar_manual (ent : Entradas) (s : Sistema) :
  run ent Pasos.verificar_manual s = verificar_manual ent s.
Proof.
  unfold Pasos.verificar_manual, verificar_manual. cbn [run].
  apply bind_ext; [reflexivity|]. intros [|] s1; reflexivity.
Qed.

Lemma run_verificar_bomba1 (ent : Entradas) (s : Sistema) :
  run ent Pasos.verificar_bomba1 s = verificar_bomba1 ent s.
Proof.
  unfold Pasos.verificar_bomba1, verificar_bomba1. cbn [run].
  apply bind_ext; [reflexivity|]. intros [|] s1; reflexivity.
Qed.

Lemma run_marcha_manual (ent : Entradas) (s : Sistema) :
  run ent Pasos.marcha_manual s = marcha_manual ent s.
Proof.
  unfold Pasos.marcha_manual, marcha_manual. cbn [run].
  apply bind_ext; [apply run_verificar_manual|]. intros [|] s1; [|reflexivity].
  cbn [run]. apply bind_ext; [apply run_verificar_bomba1|].
  intros [|] s2; reflexivity.
Qed.

Lemma run_verificar_flotante (ent : Entradas) (s : Sistema) :
  run ent Pasos.verificar_flotante s = verificar_flotante ent s.
Proof.
  unfold Pasos.verificar_flotante, verificar_flotante. cbn [run].
  apply bind_ext; [reflexivity|]. intros [|] s1; cbn [run];
    (apply bind_ext; [reflexivity|]); intros [|] s2; reflexivity.
Qed.

Lemma run_marcha_auto (ent : Entradas) (s : Sistema) :
  run ent Pasos.marcha_auto s = marcha_auto ent s.
Proof.
  unfold Pasos.marcha_auto, marcha_auto. cbn [run].
  apply bind_ext; [apply run_verificar_manual|]. intros [|] s1; [reflexivity|].
  cbn [negb run]. apply bind_ext; [apply run_verificar_flotante|].
  intros [|] s2; [|reflexivity].
  cbn [run]. apply bind_ext; [|intros; reflexivity].
  apply bind_ext; [reflexivity|]. intros c s3.
  destruct (c mod 2 =? 0); reflexivity.
Qed.

Lemma run_mostrar_medidas (ent : Entradas) (i : id_bomba) (s : Sistema) :
  run ent (Pasos.mostrar_medidas i) s = mostrar_medidas i s.
Proof. reflexivity. Qed.

Lemma run_verificar_falla (ent : Entradas) (s : Sistema) :
  run ent Pasos.verificar_falla s = verificar_falla s.
Proof.
  unfold Pasos.verificar_falla, verificar_falla. cbn [run].
  apply bind_ext; [reflexivity|]. intros f1 s1.
  apply bind_ext; [reflexivity|]. intros f2 s2.
  destruct f1, f2; reflexivity.
Qed.

Lemma run_supervisar (ent : Entradas) (i : id_bomba) (en_marcha : bool)
    (s : Sistema) :
  run ent (Pasos.supervisar i en_marcha) s = supervisar ent i en_marcha s.
Proof.
  destruct en_marcha; [|reflexivity].
  unfold Pasos.supervisar, supervisar. cbn [run].
  apply bind_ext; [apply run_medir_corriente|]. intros [] s1.
  apply bind_ext; [apply run_medir_temperatura|]. intros [] s2.
  apply bind_ext; [reflexivity|]. intros ef s3.
  destruct ef; cbn [negb]; [apply run_verificar_falla|reflexivity].
Qed.

Lemma run_cuerpo_main (ent : Entradas) (s : Sistema) :
  run ent Pasos.cuerpo_main s = cuerpo_main ent s.
Proof.
  unfold Pasos.cuerpo_main, cuerpo_main. cbn [run].
  apply bind_ext; [apply run_marcha_manual|]. intros _ s1.
  apply bind_ext; [apply run_marcha_auto|]. intros _ s2.
  apply bind_ext; [reflexivity|]. intros e1 s3.
  apply bind_ext; [reflexivity|]. intros e2 s4.
  apply bind_ext; [apply run_supervisar|]. intros [l|] s5; [reflexivity|].
  cbn [run]. apply bind_ext; [apply run_supervisar|].
  intros [l|] s6; reflexivity.
Qed.

Lemma run_cuerpo_falla (ent : Entradas) (sana : id_bomba) (s : Sistema) :
  run ent (Pasos.cuerpo_falla sana) s = cuerpo_falla ent sana s.
Proof.
  unfold Pasos.cuerpo_falla, cuerpo_falla. cbn [run].
  apply bind_ext; [apply run_verificar_flotante|]. intros [|] s1; [|reflexivity].
  cbn [run]. apply bind_ext; [reflexivity|]. intros [|] s2; [reflexivity|].
  cbn [negb run].
  apply bind_ext; [reflexivity|]. intros [] s3.
  apply bind_ext; [reflexivity|]. intros [] s4.
  apply bind_ext; [apply run_medir_corriente|]. intros [] s5.
  apply bind_ext; [apply run_medir_temperatura|]. intros [] s6.
  apply bind_ext; [reflexivity|]. intros [|] s7; reflexivity.
Qed.

Lemma run_paso (ent : Entradas) (l : lugar) (s : Sistema) :
  run ent (Pasos.paso l) s = paso ent l s.
Proof.
  destruct l; cbn [Pasos.paso paso run]; try reflexivity.
  - apply run_cuerpo_main.
  - apply bind_ext; [apply run_cuerpo_falla|]. intros [|] s1; reflexivity.
  - apply bind_ext; [apply run_cuerpo_falla|]. intros [|] s1; reflexivity.
Qed.

Lemma run_iterar (ent : Entradas) (n : nat) :
  forall (l : lugar) (s : Sistema),
    run ent (Pasos.iterar n l) s = iterar ent n l s.
Proof.
  induction n as [|n IH]; intros l s; [reflexivity|].
  cbn [Pasos.iterar iterar run].
  apply bind_ext; [apply run_paso|]. intros l1 s1. apply IH.
Qed.

Lemma run_main (ent : Entradas) (n : nat) (s : Sistema) :
  run ent (Pasos.main n) s = main ent n s.
Proof.
  unfold Pasos.main, main. cbn [run].
  apply bind_ext; [reflexivity|]. intros [] s1. apply run_iterar.
Qed.

(** The history of a run holds the events of the run, in order, and ends
    in the state the run ends in. *)
Lemma ultimo_cons (s : Sistema) (x : list evento * Sistema) (h : list (list evento * Sistema)) :
  ultimo s (x :: h) = ultimo (snd x) h.
Proof. unfold ultimo. cbn [map]. apply last_cons_previo. Qed.

Lemma ultimo_app (h1 h2 : list (list evento * Sistema)) (s : Sistema) :
  ultimo s (h1 ++ h2) = ultimo (ultimo s h1) h2.
Proof. unfold ultimo. rewrite map_app. apply last_app_previo. Qed.

Lemma historia_run (ent : Entradas) {A : Type} (p : prog A) :
  forall s : Sistema,
    concat (map fst (historia ent p s)) = snd (run ent p s) /\
    ultimo s (historia ent p s) = snd (fst (run ent p s)).
Proof.
  induction p as [A a|A B p IHp k IHk|A p IHp h IHh|A e|A f|f|e|p| | |rom];
    intros s; try (split; reflexivity).
  - cbn [historia run]. unfold bind.
    destruct (IHp s) as [E1 U1].
    destruct (run ent p s) as [[[a|e] s1] ev1]; cbn [fst snd] in E1, U1.
    + destruct (IHk a s1) as [E2 U2].
      destruct (run ent (k a) s1) as [[r2 s2] ev2]; cbn [fst snd] in *.
      rewrite map_app, concat_app, E1, E2, ultimo_app, U1, U2. auto.
    + rewrite app_nil_r. auto.
  - cbn [historia run]. unfold try_except.
    destruct (IHp s) as [E1 U1].
    destruct (run ent p s) as [[[a|e] s1] ev1]; cbn [fst snd] in E1, U1.
    + rewrite app_nil_r. auto.
    + destruct (IHh s1) as [E2 U2].
      destruct (run ent h s1) as [[r2 s2] ev2]; cbn [fst snd] in *.
      rewrite map_app, concat_app, E1, E2, ultimo_app, U1, U2. auto.
Qed.

Lemma historia_ultimo (ent : Entradas) {A : Type} (p : prog A) (s s' : Sistema)
    (r : resultado A) (ev : list evento) :
  run ent p s = (r, s', ev) -> ultimo s (historia ent p s) = s'.
Proof. intros H. rewrite (proj2 (historia_run ent p s)), H. reflexivity. Qed.

Lemma cadena_app (h1 : list (list evento * Sistema)) :
  forall (s : Sistema) (h2 : list (list evento * Sistema)),
    cadena s (h1 ++ h2) <-> cadena s h1 /\ cadena (ultimo s h1) h2.
Proof.
  induction h1 as [|x h1 IH]; intros s h2.
  - cbn. tauto.
  - cbn [app cadena]. rewrite ultimo_cons, IH. tauto.
Qed.

Lemma cadena_coherentes (h : list (list evento * Sistema)) :
  forall s : Sistema,
    cadena s h -> Forall (fun x => coherentes (snd x)) h.
Proof.
  induction h as [|x h IH]; intros s Hc; [constructor|].
  destruct Hc as [[Hco _] Hr]. constructor; [exact Hco|exact (IH _ Hr)].
Qed.

Lemma cadena_enclava (h : list (list evento * Sistema)) :
  forall (s : Sistema) (i : id_bomba),
    cadena s h ->
    estado_falla (bomba i s) = true ->
    Forall (fun y => estado_falla (bomba i (snd y)) = true /\
                     Forall (fun e => e <> EvRele i true) (fst y)) h.
Proof.
  induction h as [|x h IH]; intros s i Hc Hf; [constructor|].
  destruct Hc as [[_ Hx] Hr]. destruct (Hx i Hf) as [Hf' He].
  constructor; [auto|exact (IH _ i Hr Hf')].
Qed.

(** What a safe run says of any two of its steps. *)
Lemma cadena_pares (s : Sistema) (h h1 h2 : list (list evento * Sistema)) (x y : list evento * Sistema)
    (i : id_bomba) :
  cadena s h ->
  h = h1 ++ x :: h2 ->
  In y h2 ->
  estado_falla (bomba i (snd x)) = true ->
  estado_falla (bomba i (snd y)) = true /\
  estado_bomba (bomba i (snd y)) = false /\
  Forall (fun e => e <> EvRele i true) (fst y).
Proof.
  intros Hc -> Hy Hf.
  apply cadena_app in Hc. destruct Hc as [_ [_ Hc2]].
  pose proof (cadena_enclava h2 (snd x) i Hc2 Hf) as Hen.
  pose proof (cadena_coherentes h2 (snd x) Hc2) as Hco.
  rewrite Forall_forall in Hen, Hco.
  destruct (Hen y Hy) as [Hfy Hey]. destruct (Hco y Hy) as [Hc1 Hc2'].
  split; [exact Hfy|]. split; [|exact Hey].
  destruct i; [apply Hc1|apply Hc2']; exact Hfy.
Qed.

(** *** Rules for [ws] *)

Lemma ws_ret (ent : Entradas) {A : Type} (a : A) (Post : A -> Sistema -> Prop)
    (s : Sistema) :
  Post a s -> ws ent (PRet a) Post s.
Proof. intros H. split; [exact I|]. exists a, s, []. auto. Qed.

Lemma ws_bind (ent : Entradas) {A B : Type} (p : prog A) (k : A -> prog B)
    (Post : B -> Sistema -> Prop) (s : Sistema) :
  ws ent p (fun a s1 => ws ent (k a) Post s1) s -> ws ent (PBind p k) Post s.
Proof.
  intros (Hc & a & s1 & ev1 & Hr & Hc2 & b & s2 & ev2 & Hr2 & HP). split.
  - cbn [historia]. rewrite Hr. apply cadena_app. split; [exact Hc|].
    rewrite (historia_ultimo ent p s s1 _ _ Hr). exact Hc2.
  - exists b, s2, (ev1 ++ ev2). cbn [run]. unfold bind. rewrite Hr, Hr2. auto.
Qed.

Lemma ws_conseq (ent : Entradas) {A : Type} (p : prog A)
    (Post Post' : A -> Sistema -> Prop) (s : Sistema) :
  ws ent p Post' s ->
  (forall a s', Post' a s' -> Post a s') ->
  ws ent p Post s.
Proof.
  intros (Hc & a & s' & ev & Hr & HP) H. split; [exact Hc|].
  exists a, s', ev. auto.
Qed.

(** Two facts about the same run hold together. *)
Lemma ws_wp (ent : Entradas) {A : Type} (p : prog A) (m : M A)
    (Post Post' : A -> Sistema -> Prop) (E : evento -> Prop) (s : Sistema) :
  run ent p s = m s ->
  ws ent p Post s -> wp m Post' E s ->
  ws ent p (fun a s' => Post a s' /\ Post' a s') s.
Proof.
  intros Hm (Hc & a & s' & ev & Hr & HP) (a' & s'' & ev' & Hr' & HP' & _).
  rewrite Hm, Hr' in Hr. injection Hr as <- <- <-.
  split; [exact Hc|]. exists a', s'', ev'. rewrite Hm. auto.
Qed.

Lemma coherentes_quieto (s s' : Sistema) :
  b1 s' = b1 s -> b2 s' = b2 s -> coherentes s -> coherentes s'.
Proof. unfold coherentes. intros -> ->. auto. Qed.

Lemma transicion_quieta (s s' : Sistema) (ev : list evento) :
  coherentes s' ->
  (forall i, estado_falla (bomba i s) = true -> estado_falla (bomba i s') = true) ->
  Forall (fun e => es_arranque e = false) ev ->
  transicion s (ev, s').
Proof.
  intros Hco Hf Hev. split; [exact Hco|]. intros i Hi.
  split; [apply Hf, Hi|]. cbn [fst].
  eapply Forall_impl; [|exact Hev]. intros e He ->. discriminate He.
Qed.

Lemma ws_gets (ent : Entradas) {A : Type} (f : Sistema -> A)
    (Post : A -> Sistema -> Prop) (s : Sistema) :
  coherentes s -> Post (f s) s -> ws ent (PGets f) Post s.
Proof.
  intros Hco HP. split.
  - cbn. split; [|exact I]. apply transicion_quieta; auto.
  - exists (f s), s, []. auto.
Qed.

Lemma ws_emit (ent : Entradas) (e : evento) (Post : unit -> Sistema -> Prop)
    (s : Sistema) :
  coherentes s ->
  (forall i, estado_falla (bomba i s) = true -> e <> EvRele i true) ->
  Post tt s ->
  ws ent (PEmit e) Post s.
Proof.
  intros Hco He HP. split.
  - cbn. split; [|exact I]. split; [exact Hco|]. intros i Hi.
    split; [exact Hi|]. constructor; [apply He, Hi|constructor].
  - exists tt, s, [e]. auto.
Qed.

Lemma ws_modify (ent : Entradas) (f : Sistema -> Sistema)
    (Post : unit -> Sistema -> Prop) (s : Sistema) :
  coherentes (f s) ->
  (forall i, estado_falla (bomba i s) = true -> estado_falla (bomba i (f s)) = true) ->
  Post tt (f s) ->
  ws ent (PModify f) Post s.
Proof.
  intros Hco Hf HP. split.
  - cbn. split; [|exact I]. apply transicion_quieta; auto.
  - exists tt, (f s), []. auto.
Qed.

Lemma coherente_manso (b b' : Bomba) :
  estado_falla b' = estado_falla b ->
  (estado_bomba b' = true -> estado_bomba b = true) ->
  coherente b -> coherente b'.
Proof.
  unfold coherente. intros Ha Hb H Hx. rewrite Ha in Hx. specialize (H Hx).
  destruct (estado_bomba b'); [|reflexivity].
  specialize (Hb eq_refl). congruence.
Qed.

Lemma manso_seguro (ent : Entradas) {A : Type} (p : prog A) :
  manso p ->
  forall s : Sistema,
    coherentes s ->
    cadena s (historia ent p s) /\
    exists (a : A) (s' : Sistema) (ev : list evento),
      run ent p s = (Normal a, s', ev) /\
      coherentes s' /\ mismas_fallas s s'.
Proof.
  induction 1 as [A a|A B p k Hp IHp Hk IHk|A f|f Hf|e He|p| ]; intros s Hco.
  - split; [exact I|]. exists a, s, [].
    split; [reflexivity|]. split; [exact Hco|]. split; reflexivity.
  - destruct (IHp s Hco) as (Hc1 & a & s1 & ev1 & Hr1 & Hco1 & [Ha Hb]).
    destruct (IHk a s1 Hco1) as (Hc2 & b & s2 & ev2 & Hr2 & Hco2 & [Hc Hd]).
    split.
    + cbn [historia]. rewrite Hr1. apply cadena_app. split; [exact Hc1|].
      rewrite (historia_ultimo ent p s s1 _ _ Hr1). exact Hc2.
    + exists b, s2, (ev1 ++ ev2). cbn [run]. unfold bind. rewrite Hr1, Hr2.
      split; [reflexivity|]. split; [exact Hco2|]. split; congruence.
  - split.
    + cbn. split; [|exact I]. apply transicion_quieta; auto.
    + exists (f s), s, [].
      split; [reflexivity|]. split; [exact Hco|]. split; reflexivity.
  - assert (Hco' : coherentes (f s)).
    { destruct Hco as [H1 H2].
      split; [destruct (Hf s B1) as [Ha Hb]|destruct (Hf s B2) as [Ha Hb]];
        eapply coherente_manso; eassumption. }
    split.
    + cbn. split; [|exact I]. apply transicion_quieta; auto.
      intros i Hi. rewrite (proj1 (Hf s i)). exact Hi.
    + exists tt, (f s), []. split; [reflexivity|]. split; [exact Hco'|].
      split; [exact (proj1 (Hf s B1))|exact (proj1 (Hf s B2))].
  - split.
    + cbn. split; [|exact I]. apply transicion_quieta; auto.
    + exists tt, s, [e].
      split; [reflexivity|]. split; [exact Hco|]. split; reflexivity.
  - split.
    + cbn. split; [|exact I]. apply transicion_quieta.
      * destruct p; exact Hco.
      * intros i Hi. destruct p, i; exact Hi.
      * repeat constructor.
    + eexists _, _, _. split; [reflexivity|].
      split; [destruct p; exact Hco|]. destruct p; split; reflexivity.
  - split.
    + cbn. split; [|exact I]. apply transicion_quieta.
      * exact Hco.
      * intros i Hi. destruct i; exact Hi.
      * repeat constructor.
    + eexists _, _, _. split; [reflexivity|].
      split; [exact Hco|]. split; reflexivity.
Qed.

Lemma ws_manso (ent : Entradas) {A : Type} (p : prog A)
    (Post : A -> Sistema -> Prop) (s : Sistema) :
  manso p ->
  coherentes s ->
  (forall (a : A) (s' : Sistema) (ev : list evento),
     run ent p s = (Normal a, s', ev) ->
     coherentes s' -> mismas_fallas s s' -> Post a s') ->
  ws ent p Post s.
Proof.
  intros Hm Hco HP.
  destruct (manso_seguro ent p Hm s Hco) as (Hc & a & s' & ev & Hr & Hco' & Hmf).
  split; [exact Hc|]. exists a, s', ev. split; [exact Hr|]. eauto.
Qed.

(** *** The trees that start no pump and raise no fault *)

Lemma manso_sleep_ms (ms : Z) : manso (Pasos.sleep_ms ms).
Proof. apply manso_emit. reflexivity. Qed.

Lemma manso_parada (i : id_bomba) : manso (Pasos.parada i).
Proof.
  apply manso_bind; [apply manso_emit; reflexivity|]. intros _.
  apply manso_modify. intros s j.
  destruct i, j; (split; [reflexivity|cbn; intros H; first [exact H|discriminate H]]).
Qed.

Lemma manso_display (linea1 linea2 : string) : manso (Pasos.display linea1 linea2).
Proof.
  repeat (apply manso_bind; [apply manso_emit; reflexivity|intros _]).
  apply manso_emit. reflexivity.
Qed.

Ltac amansar :=
  repeat first
    [ apply manso_ret | apply manso_gets | apply manso_pin | apply manso_read_u16
    | apply manso_sleep_ms | apply manso_parada | apply manso_display
    | apply manso_emit; reflexivity
    | apply manso_modify; intros ? [|]; (split; [reflexivity|intros H; exact H])
    | apply manso_bind; [|intros ?]
    | match goal with |- manso (if ?b then _ else _) => destruct b end ].

Lemma manso_verificar_manual : manso Pasos.verificar_manual.
Proof. unfold Pasos.verificar_manual. amansar. Qed.

Lemma manso_verificar_bomba1 : manso Pasos.verificar_bomba1.
Proof. unfold Pasos.verificar_bomba1. amansar. Qed.

Lemma manso_verificar_flotante : manso Pasos.verificar_flotante.
Proof. unfold Pasos.verificar_flotante. amansar. Qed.

Lemma manso_muestrear (n : nat) :
  forall lista : list Q, manso (Pasos.muestrear n lista).
Proof.
  induction n as [|n IH]; intros lista; cbn [Pasos.muestrear].
  - apply manso_ret.
  - apply manso_bind; [apply manso_read_u16|]. intros raw.
    apply manso_bind; [apply manso_sleep_ms|]. intros _. apply IH.
Qed.

Lemma manso_mostrar_medidas (i : id_bomba) : manso (Pasos.mostrar_medidas i).
Proof. unfold Pasos.mostrar_medidas. amansar. Qed.

Lemma manso_cuerpo_alarma (linea : string) : manso (Pasos.cuerpo_alarma linea).
Proof. unfold Pasos.cuerpo_alarma. amansar. Qed.

Lemma manso_inicio : manso Pasos.inicio.
Proof. unfold Pasos.inicio. amansar. Qed.

Lemma manso_verificar_falla : manso Pasos.verificar_falla.
Proof. unfold Pasos.verificar_falla. amansar. Qed.

(** *** The functions that start a pump or raise a fault *)

Lemma par_normal {A : Type} (a b : A) (s1 s2 : Sistema) (e1 e2 : list evento) :
  (Normal a, s1, e1) = (Normal b, s2, e2) -> a = b /\ s1 = s2 /\ e1 = e2.
Proof. intros H. injection H. auto. Qed.

Lemma ws_marcha (ent : Entradas) (i : id_bomba)
    (Post : unit -> Sistema -> Prop) (s : Sistema) :
  coherentes s ->
  estado_falla (bomba i s) = false ->
  (forall s', coherentes s' -> mismas_fallas s s' -> Post tt s') ->
  ws ent (Pasos.marcha i) Post s.
Proof.
  intros Hco Hf HP. unfold Pasos.marcha. apply ws_bind.
  apply ws_emit; [exact Hco| |].
  - intros j Hj [= <-]. congruence.
  - apply ws_modify.
    + destruct Hco as [H1 H2].
      destruct i; split; try assumption; intros Hx; cbn in Hx, Hf; congruence.
    + intros j Hj. destruct i, j; exact Hj.
    + apply HP.
      * destruct Hco as [H1 H2].
        destruct i; split; try assumption; intros Hx; cbn in Hx, Hf; congruence.
      * destruct i; split; reflexivity.
Qed.

Lemma ws_falla (ent : Entradas) (i : id_bomba)
    (Post : unit -> Sistema -> Prop) (s : Sistema) :
  coherentes s ->
  (forall s',
     coherentes s' ->
     estado_falla (bomba i s') = true ->
     estado_falla (bomba (otra i) s') = estado_falla (bomba (otra i) s) ->
     Post tt s') ->
  ws ent (Pasos.falla i) Post s.
Proof.
  intros Hco HP. unfold Pasos.falla. apply ws_bind.
  apply ws_manso; [apply manso_parada|exact Hco|].
  intros [] s1 ev1 _ Hco1 [Hm1 Hm2].
  assert (Hco2 : coherentes (con_bomba i (con_estado_bomba false) s1)).
  { destruct Hco1 as [H1 H2]. destruct i; split; try assumption; intros _; reflexivity. }
  apply ws_bind. apply ws_modify; [exact Hco2| |].
  { intros j Hj. destruct i, j; exact Hj. }
  apply ws_modify.
  - destruct Hco1 as [H1 H2]. destruct i; split; try assumption; intros _; reflexivity.
  - intros j Hj. destruct i, j; first [exact Hj|reflexivity].
  - apply HP.
    + destruct Hco1 as [H1 H2]. destruct i; split; try assumption; intros _; reflexivity.
    + destruct i; reflexivity.
    + destruct i; cbn; assumption.
Qed.

Lemma ws_medir_corriente (ent : Entradas) (i : id_bomba)
    (Post : unit -> Sistema -> Prop) (s : Sistema) :
  coherentes s ->
  (forall s',
     coherentes s' ->
     estado_falla (bomba (otra i) s') = estado_falla (bomba (otra i) s) ->
     Post tt s') ->
  ws ent (Pasos.medir_corriente i) Post s.
Proof.
  intros Hco HP. unfold Pasos.medir_corriente. apply ws_bind.
  apply ws_manso; [apply manso_muestrear|exact Hco|].
  intros lista s1 ev1 Hr Hco1 [Hm1 Hm2].
  rewrite run_muestrear, muestrear_run in Hr.
  apply par_normal in Hr. destruct Hr as (Hl & _ & _).
  cbn [app] in Hl.
  destruct (max_lista_some _ (ventana_no_vacia ent (n_adc s))) as [maximo Hmax].
  rewrite <- Hl, Hmax.
  apply ws_bind. apply ws_gets; [exact Hco1|].
  destruct (Qle_bool (corriente_falla (bomba i s1)) maximo).
  - apply ws_falla; [exact Hco1|]. intros s2 Hco2 _ Ho. apply HP; [exact Hco2|].
    rewrite Ho. destruct i; assumption.
  - apply ws_modify.
    + destruct Hco1 as [H1 H2]. destruct i; split; assumption.
    + intros j Hj. destruct i, j; exact Hj.
    + apply HP.
      * destruct Hco1 as [H1 H2]. destruct i; split; assumption.
      * destruct i; cbn; assumption.
Qed.

(** A step between two states given in full. *)
Ltac paso_seguro i Hco :=
  apply transicion_quieta;
  [ destruct Hco as [? ?], i; split; first [assumption|intros _; reflexivity]
  | let j := fresh "j" in let Hj := fresh "Hj" in
    intros j Hj; destruct i, j; first [exact Hj|reflexivity]
  | repeat constructor ].

Lemma ws_medir_temperatura (ent : Entradas) (i : id_bomba)
    (Post : unit -> Sistema -> Prop) (s : Sistema) :
  coherentes s ->
  (forall s',
     coherentes s' ->
     estado_falla (bomba (otra i) s') = estado_falla (bomba (otra i) s) ->
     Post tt s') ->
  ws ent (Pasos.medir_temperatura i) Post s.
Proof.
  intros Hco HP. unfold ws.
  unfold Pasos.medir_temperatura, Pasos.cuerpo_temperatura, Pasos.sleep_ms,
    Pasos.ow_reset, Pasos.falla, Pasos.parada.
  cbn [historia run].
  unfold una, try_except, bind, convert_temp, emit, gets, read_temp, modify.
  destruct (ow_convert ent (n_convert s)).
  - cbn [n_read avanza_convert app].
    destruct (ow_read ent (n_read s) (id_temp (bomba i (avanza_convert s))))
      as [t|].
    + destruct (temp_falla (bomba i (avanza_read (avanza_convert s)))
                <=? int_of_float t).
      * cbn [historia run app]. unfold una, bind, emit, modify. cbn [app cadena snd].
        split.
        { repeat (split; [paso_seguro i Hco|]). exact I. }
        eexists _, _, _. split; [reflexivity|]. apply HP.
        -- destruct Hco as [H1 H2], i; split;
             first [assumption|intros _; reflexivity].
        -- destruct i; reflexivity.
      * cbn [historia run app]. unfold una, modify. cbn [app cadena snd].
        split.
        { repeat (split; [paso_seguro i Hco|]). exact I. }
        eexists _, _, _. split; [reflexivity|]. apply HP.
        -- destruct Hco as [H1 H2], i; split; assumption.
        -- destruct i; reflexivity.
    + cbn [app cadena snd]. split.
      { repeat (split; [paso_seguro i Hco|]). exact I. }
      eexists _, _, _. split; [reflexivity|]. apply HP.
      * exact Hco.
      * destruct i; reflexivity.
  - cbn [app cadena snd]. split.
    { repeat (split; [paso_seguro i Hco|]). exact I. }
    eexists _, _, _. split; [reflexivity|]. apply HP.
    + exact Hco.
    + destruct i; reflexivity.
Qed.

(** *** The loops *)

Lemma sanas_coherentes (s : Sistema) :
  estado_falla (b1 s) = false -> estado_falla (b2 s) = false -> coherentes s.
Proof. intros H1 H2. split; intros H; congruence. Qed.

(** A quiet subtree: afterwards the pumps are coherent and the fault flags
    are what they were. *)
Ltac quieto L :=
  apply ws_manso;
  [ L
  | first [assumption | apply sanas_coherentes; congruence]
  | intros ? ? ? _ ? [? ?] ].

Lemma ws_marcha_manual (ent : Entradas) (Post : bool -> Sistema -> Prop)
    (s : Sistema) :
  estado_falla (b1 s) = false ->
  estado_falla (b2 s) = false ->
  (forall a s',
     estado_falla (b1 s') = false -> estado_falla (b2 s') = false -> Post a s') ->
  ws ent Pasos.marcha_manual Post s.
Proof.
  intros H1 H2 HP. unfold Pasos.marcha_manual. apply ws_bind.
  quieto ltac:(apply manso_verificar_manual).
  destruct a; [|apply ws_ret, HP; congruence].
  apply ws_bind. quieto ltac:(apply manso_verificar_bomba1).
  apply ws_bind. destruct a.
  - apply ws_bind. quieto ltac:(apply manso_parada).
    apply ws_bind. quieto ltac:(apply manso_sleep_ms).
    apply ws_bind. apply ws_marcha; [assumption|cbn; congruence|].
    intros s5 Hc5 [Hm1 Hm2]. quieto ltac:(apply manso_display).
    apply ws_ret, HP; congruence.
  - apply ws_bind. quieto ltac:(apply manso_parada).
    apply ws_bind. quieto ltac:(apply manso_sleep_ms).
    apply ws_bind. apply ws_marcha; [assumption|cbn; congruence|].
    intros s5 Hc5 [Hm1 Hm2]. quieto ltac:(apply manso_display).
    apply ws_ret, HP; congruence.
Qed.

Lemma ws_marcha_auto (ent : Entradas) (Post : bool -> Sistema -> Prop)
    (s : Sistema) :
  estado_falla (b1 s) = false ->
  estado_falla (b2 s) = false ->
  (forall a s',
     estado_falla (b1 s') = false -> estado_falla (b2 s') = false -> Post a s') ->
  ws ent Pasos.marcha_auto Post s.
Proof.
  intros H1 H2 HP. unfold Pasos.marcha_auto. apply ws_bind.
  quieto ltac:(apply manso_verificar_manual).
  destruct a; cbn [negb]; [apply ws_ret, HP; congruence|].
  apply ws_bind. quieto ltac:(apply manso_verificar_flotante).
  apply ws_bind. destruct a.
  - apply ws_bind. apply ws_gets; [assumption|].
    destruct (ciclo s'0 mod 2 =? 0).
    + apply ws_bind. quieto ltac:(apply manso_parada).
      apply ws_bind. quieto ltac:(apply manso_sleep_ms).
      apply ws_bind. apply ws_marcha; [assumption|cbn; congruence|].
      intros s5 Hc5 [Hm1 Hm2]. quieto ltac:(apply manso_display).
      apply ws_ret, HP; congruence.
    + apply ws_bind. quieto ltac:(apply manso_parada).
      apply ws_bind. quieto ltac:(apply manso_sleep_ms).
      apply ws_bind. apply ws_marcha; [assumption|cbn; congruence|].
      intros s5 Hc5 [Hm1 Hm2]. quieto ltac:(apply manso_display).
      apply ws_ret, HP; congruence.
  - apply ws_bind. quieto ltac:(apply manso_parada).
    apply ws_bind. quieto ltac:(apply manso_parada).
    quieto ltac:(apply manso_display).
    apply ws_ret, HP; congruence.
Qed.

Lemma ws_supervisar (ent : Entradas) (i : id_bomba) (en_marcha : bool)
    (s : Sistema) :
  estado_falla (b1 s) = false ->
  estado_falla (b2 s) = false ->
  ws ent (Pasos.supervisar i en_marcha)
     (fun r s' =>
        match r with
        | None => estado_falla (b1 s') = false /\ estado_falla (b2 s') = false
        | Some l => Inv l s'
        end) s.
Proof.
  intros H1 H2. destruct en_marcha; [|apply ws_ret; auto].
  unfold Pasos.supervisar. apply ws_bind.
  apply ws_medir_corriente; [apply sanas_coherentes; assumption|].
  intros s1 Hc1 Ho1. apply ws_bind.
  apply ws_medir_temperatura; [exact Hc1|]. intros s2 Hc2 Ho2.
  apply ws_bind. apply ws_gets; [exact Hc2|].
  destruct (estado_falla (bomba i s2)) eqn:Hf; cbn [negb].
  - apply ws_manso; [apply manso_verificar_falla|exact Hc2|].
    intros r s3 ev3 Hr _ _.
    rewrite run_verificar_falla, verificar_falla_run in Hr.
    destruct Hc2 as [Hco1 Hco2].
    destruct i; cbn [bomba otra] in Hf, Ho1, Ho2.
    + assert (Hf2 : estado_falla (b2 s2) = false) by congruence.
      rewrite Hf, Hf2 in Hr. cbn [andb] in Hr.
      apply par_normal in Hr. destruct Hr as (<- & <- & _).
      split; [split; [exact Hf|reflexivity]|exact Hco2].
    + assert (Hf1 : estado_falla (b1 s2) = false) by congruence.
      rewrite Hf, Hf1 in Hr. cbn [andb] in Hr.
      apply par_normal in Hr. destruct Hr as (<- & <- & _).
      split; [exact Hco1|split; [exact Hf|reflexivity]].
  - apply ws_bind. quieto ltac:(apply manso_mostrar_medidas).
    apply ws_ret. destruct i; cbn [bomba otra] in Hf, Ho1, Ho2; split; congruence.
Qed.

Lemma ws_cuerpo_main (ent : Entradas) (s : Sistema) :
  Inv BucleMain s ->
  ws ent Pasos.cuerpo_main (fun l s' => Inv l s') s.
Proof.
  intros [H1 H2]. unfold Pasos.cuerpo_main.
  apply ws_bind. apply ws_marcha_manual; [assumption|assumption|].
  intros _ s1 Ha1 Ha2.
  apply ws_bind. apply ws_marcha_auto; [assumption|assumption|].
  intros _ s2 Hb1 Hb2.
  apply ws_bind. apply ws_gets; [apply sanas_coherentes; assumption|].
  apply ws_bind. apply ws_gets; [apply sanas_coherentes; assumption|].
  apply ws_bind.
  eapply ws_conseq; [apply ws_supervisar; assumption|].
  intros [l|] s3 H3; cbv beta.
  - apply ws_ret. exact H3.
  - destruct H3 as [Hc1 Hc2]. apply ws_bind.
    eapply ws_conseq; [apply ws_supervisar; assumption|].
    intros [l|] s4 H4; apply ws_ret; exact H4.
Qed.

Lemma ws_cuerpo_falla (ent : Entradas) (sana : id_bomba) (s : Sistema) :
  coherentes s ->
  estado_falla (bomba (otra sana) s) = true ->
  ws ent (Pasos.cuerpo_falla sana)
     (fun a s' =>
        coherentes s' /\
        estado_falla (bomba (otra sana) s') = true /\
        (a = true -> estado_falla (bomba sana s') = true)) s.
Proof.
  intros Hco Ho. unfold Pasos.cuerpo_falla. apply ws_bind.
  quieto ltac:(apply manso_verificar_flotante).
  destruct a.
  - apply ws_bind. apply ws_gets; [assumption|].
    destruct (estado_falla (bomba sana s')) eqn:Hf; cbn [negb].
    + apply ws_ret. split; [assumption|].
      split; [destruct sana; cbn [bomba otra] in Ho |- *; congruence|auto].
    + apply ws_bind. apply ws_marcha; [assumption|exact Hf|].
      intros s2 Hc2 [Hm1 Hm2].
      apply ws_bind. quieto ltac:(apply manso_display).
      apply ws_bind. apply ws_medir_corriente; [assumption|].
      intros s4 Hc4 Ho4.
      apply ws_bind. apply ws_medir_temperatura; [assumption|].
      intros s5 Hc5 Ho5.
      apply ws_bind. apply ws_gets; [assumption|].
      assert (Hfin : coherentes s5 /\
                     estado_falla (bomba (otra sana) s5) = true /\
                     (false = true -> estado_falla (bomba sana s5) = true)).
      { split; [assumption|]. split; [|discriminate].
        rewrite Ho5, Ho4.
        destruct sana; cbn [bomba otra] in Ho |- *; congruence. }
      apply ws_bind. destruct (negb (estado_falla (bomba sana s5))).
      * apply ws_manso; [apply manso_mostrar_medidas|assumption|].
        intros [] s6 ev6 _ Hc6 [Hn1 Hn2]. apply ws_ret.
        split; [assumption|]. split; [|discriminate].
        destruct Hfin as (_ & Hx & _).
        destruct sana; cbn [bomba otra] in Hx |- *; congruence.
      * apply ws_ret, ws_ret. exact Hfin.
  - apply ws_bind. quieto ltac:(apply manso_parada).
    apply ws_ret. split; [assumption|]. split; [|discriminate].
    destruct sana; cbn [bomba otra] in Ho |- *; congruence.
Qed.

Lemma ws_paso (ent : Entradas) (l : lugar) (s : Sistema) :
  Inv l s ->
  ws ent (Pasos.paso l) (fun l' s' => Inv l' s') s.
Proof.
  intros HI.
  assert (Hco : coherentes s)
    by (split; [apply (Inv_coherente l s B1 HI)|apply (Inv_coherente l s B2 HI)]).
  destruct l; cbn [Pasos.paso].
  - apply ws_cuerpo_main, HI.
  - apply ws_bind. apply ws_manso; [apply manso_cuerpo_alarma|exact Hco|].
    intros [] s1 ev1 _ [Hc1 Hc2] [Hm1 Hm2]. apply ws_ret.
    destruct HI as [[Hf1 _] [Hf2 _]].
    split; (split; [congruence|]); [apply Hc1|apply Hc2]; congruence.
  - destruct HI as [[Hf1 Hb1] _]. apply ws_bind.
    eapply ws_conseq; [apply (ws_cuerpo_falla ent B2 s Hco Hf1)|].
    intros a s1 ([Hc1 Hc2] & Ho & Ha). cbn [bomba otra] in Ho, Ha.
    apply ws_ret. destruct a; cbn [Inv].
    + specialize (Ha eq_refl). split; split; auto.
    + split; [split; auto|exact Hc2].
  - apply ws_bind. apply ws_manso; [apply manso_cuerpo_alarma|exact Hco|].
    intros [] s1 ev1 _ [Hc1 Hc2] [Hm1 Hm2]. apply ws_ret.
    destruct HI as [[Hf1 _] [Hf2 _]].
    split; (split; [congruence|]); [apply Hc1|apply Hc2]; congruence.
  - destruct HI as [_ [Hf2 Hb2]]. apply ws_bind.
    eapply ws_conseq; [apply (ws_cuerpo_falla ent B1 s Hco Hf2)|].
    intros a s1 ([Hc1 Hc2] & Ho & Ha). cbn [bomba otra] in Ho, Ha.
    apply ws_ret. destruct a; cbn [Inv].
    + specialize (Ha eq_refl). split; split; auto.
    + split; [exact Hc1|split; auto].
  - apply ws_bind. apply ws_manso; [apply manso_cuerpo_alarma|exact Hco|].
    intros [] s1 ev1 _ [Hc1 Hc2] [Hm1 Hm2]. apply ws_ret.
    destruct HI as [[Hf1 _] [Hf2 _]].
    split; (split; [congruence|]); [apply Hc1|apply Hc2]; congruence.
Qed.

Lemma ws_iterar (ent : Entradas) (n : nat) :
  forall (l : lugar) (s : Sistema),
    Inv l s ->
    ws ent (Pasos.iterar n l) (fun l' s' => Inv l' s') s.
Proof.
  induction n as [|n IH]; intros l s HI; cbn [Pasos.iterar].
  - apply ws_ret, HI.
  - apply ws_bind. eapply ws_conseq; [apply ws_paso, HI|].
    intros l1 s1 HI1. cbv beta. apply IH, HI1.
Qed.

Lemma ws_main (ent : Entradas) (n : nat) :
  ws ent (Pasos.main n) (fun l s' => Inv l s') estado_inicial.
Proof.
  unfold Pasos.main. apply ws_bind.
  apply ws_manso;
    [apply manso_inicio|apply sanas_coherentes; reflexivity|].
  intros [] s0 ev0 _ _ [H1 H2]. apply ws_iterar. split; assumption.
Qed.

(** C2. The run of [main] is followed action by action: [historia] lists,
    for each read, assignment and output command of the run, the events it
    emitted and the state it left, and its events are those of [main], in
    order. After every action of every run, whatever the inputs, a pump with
    [estado_falla] set has [estado_bomba] clear. Once an action has left
    [estado_falla] set for a pump, after every later action of the run the
    flag is still set and the pump is still stopped, and no later action
    switches the relay of that pump on; this holds from the very action
    that raises the fault, also inside the iteration in which it is raised.
    In particular it holds between any two loop heads. *)
Theorem falla_enclavada (ent : Entradas) (n m : nat) :
  (forall s0 : Sistema, run ent (Pasos.main n) s0 = main ent n s0) /\
  (exists (l : lugar) (s : Sistema) (ev : list evento),
     main ent n estado_inicial = (Normal l, s, ev) /\
     concat (map fst (historia ent (Pasos.main n) estado_inicial)) = ev /\
     last (map snd (historia ent (Pasos.main n) estado_inicial)) estado_inicial = s) /\
  (forall x : list evento * Sistema,
     In x (historia ent (Pasos.main n) estado_inicial) ->
     forall i : id_bomba,
       estado_falla (bomba i (snd x)) = true ->
       estado_bomba (bomba i (snd x)) = false) /\
  (forall (h1 h2 : list (list evento * Sistema)) (x y : list evento * Sistema),
     historia ent (Pasos.main n) estado_inicial = h1 ++ x :: h2 ->
     In y h2 ->
     forall i : id_bomba,
       estado_falla (bomba i (snd x)) = true ->
       estado_falla (bomba i (snd y)) = true /\
       estado_bomba (bomba i (snd y)) = false /\
       Forall (fun e => e <> EvRele i true) (fst y)) /\
  (exists (l l' : lugar) (s s' : Sistema) (ev ev' : list evento),
     main ent n estado_inicial = (Normal l, s, ev) /\
     iterar ent m l s = (Normal l', s', ev') /\
     main ent (n + m) estado_inicial = (Normal l', s', ev ++ ev') /\
     (forall i : id_bomba,
        estado_falla (bomba i s) = true -> estado_bomba (bomba i s) = false) /\
     (forall i : id_bomba,
        estado_falla (bomba i s) = true ->
        estado_falla (bomba i s') = true /\
        estado_bomba (bomba i s') = false /\
        Forall (fun e => e <> EvRele i true) ev')).
Proof.
  destruct (ws_main ent n) as (Hc & l & s & ev & Hr & HI).
  split; [intros s0; apply run_main|].
  split.
  { exists l, s, ev. rewrite <- run_main. split; [exact Hr|].
    destruct (historia_run ent (Pasos.main n) estado_inicial) as [He Hu].
    rewrite Hr in He, Hu. split; [exact He|exact Hu]. }
  split.
  { intros x Hx i Hf.
    pose proof (cadena_coherentes _ _ Hc) as Hco.
    rewrite Forall_forall in Hco. destruct (Hco x Hx) as [H1 H2].
    destruct i; [apply H1|apply H2]; exact Hf. }
  split.
  { intros h1 h2 x y Hh Hy i Hf.
    exact (cadena_pares _ _ h1 h2 x y i Hc Hh Hy Hf). }
  apply falla_enclavada_cabeceras.
Qed.


(** A run in which a fault is raised in the middle of an iteration: the
    last 16 actions of the first iteration, with the events of each and the
    two flags of pump 1 after it. [falla()] stops the pump and sets the
    flag; the temperature is still measured, and [verificar_falla] stops
    the pump again. *)
Example falla_a_mitad_de_iteracion :
  let h := historia ent_doble_falla (Pasos.main 1) estado_inicial in
  List.length h = 2044%nat /\
  map (fun x => (fst x, estado_falla (b1 (snd x)), estado_bomba (b1 (snd x))))
      (skipn (List.length h - 16) h)
  = [([], false, true); ([EvRele B1 false], false, true);
     ([], false, false); ([], false, false); ([], true, false);
     ([EvConvertTemp], true, false); ([EvSleep 1000], true, false);
     ([], true, false);
     ([EvReadTemp (id_temp (b1 estado_inicial))], true, false);
     ([], true, false); ([], true, false); ([], true, false);
     ([], true, false); ([], true, false);
     ([EvRele B1 false], true, false); ([], true, false)].
Proof. vm_compute. split; reflexivity. Qed.

(** * Properties of the traffic light *)

(** The delay of every 16-bit reading, computed. *)
Lemma tiempo_tabulado :
  forallb Semaforos.tiempo_en_rango (rango (Z.to_nat 65536) 0) = true.
Proof. vm_compute. reflexivity. Qed.

Lemma tiempo_de_rango (raw : Z) :
  0 <= raw < 65536 ->
  exists z : Z,
    Semaforos.tiempo_de raw = z # 100 /\
    0 <= z <= 157 /\
    (raw <= 1000 -> z <= 10) /\
    (1000 < raw -> 12 <= z).
Proof.
  intros Hr. pose proof tiempo_tabulado as Ht.
  rewrite forallb_forall in Ht.
  assert (Hin : In raw (rango (Z.to_nat 65536) 0)).
  { apply In_rango. rewrite Z2Nat.id; lia. }
  specialize (Ht raw Hin). unfold Semaforos.tiempo_en_rango in Ht.
  destruct (Semaforos.tiempo_de raw) as [z d].
  apply andb_prop in Ht. destruct Ht as [Ht H4].
  apply andb_prop in Ht. destruct Ht as [Ht H3].
  apply andb_prop in Ht. destruct Ht as [H1 H2].
  apply Pos.eqb_eq in H1. apply Z.leb_le in H2, H3. subst d.
  exists z. split; [reflexivity|]. split; [lia|].
  destruct (raw <=? 1000) eqn:Hle.
  - apply Z.leb_le in Hle, H4. split; intros; lia.
  - apply Z.leb_gt in Hle. apply Z.leb_le in H4. split; intros; lia.
Qed.

(** The readings at which the quotient is half-way between two hundredths
    when computed exactly: the float quotient is not, and [round] follows
    the float. *)
Example tiempo_de_empates :
  map Semaforos.tiempo_de [50; 150; 250; 650; 750; 850; 1250]
  = [1 # 100; 1 # 100; 3 # 100; 7 # 100; 7 # 100; 9 # 100; 13 # 100].
Proof. vm_compute. reflexivity. Qed.

Lemma regular_tiempo_tiempo_de (ent : Semaforos.Entradas) (s : Semaforos.Estado) :
  Semaforos.regular_tiempo ent s =
    (Semaforos.tiempo_de (Semaforos.ajuste_tiempo ent (Semaforos.n_ajuste s) mod 65536),
     Semaforos.mkEstado (Semaforos.estado s) (Semaforos.n_barrera s)
       (S (Semaforos.n_ajuste s)),
     [Semaforos.EvAjuste
        (Semaforos.ajuste_tiempo ent (Semaforos.n_ajuste s) mod 65536)]).
Proof.
  unfold Semaforos.regular_tiempo, Semaforos.bind, Semaforos.read_u16,
    Semaforos.ret, Semaforos.tiempo_de.
  destruct (Semaforos.ajuste_tiempo ent (Semaforos.n_ajuste s) mod 65536 <=? 1000);
    reflexivity.
Qed.

Lemma regular_tiempo_run (ent : Semaforos.Entradas) (s : Semaforos.Estado) :
  exists z : Z,
    Semaforos.regular_tiempo ent s =
      (z # 100,
       Semaforos.mkEstado (Semaforos.estado s) (Semaforos.n_barrera s)
         (S (Semaforos.n_ajuste s)),
       [Semaforos.EvAjuste
          (Semaforos.ajuste_tiempo ent (Semaforos.n_ajuste s) mod 65536)]) /\
    0 <= z <= 157 /\
    (Semaforos.ajuste_tiempo ent (Semaforos.n_ajuste s) mod 65536 <= 1000 ->
     z <= 10) /\
    (1000 < Semaforos.ajuste_tiempo ent (Semaforos.n_ajuste s) mod 65536 ->
     12 <= z).
Proof.
  pose proof (Z.mod_pos_bound (Semaforos.ajuste_tiempo ent (Semaforos.n_ajuste s))
                65536 ltac:(lia)) as Hr.
  destruct (tiempo_de_rango _ Hr) as (z & Hz & Hb).
  exists z. split; [|exact Hb].
  rewrite regular_tiempo_tiempo_de, Hz. reflexivity.
Qed.

(** X12. [regular_tiempo] reads the knob once and returns a delay that is
    a multiple of 0.01 s: between 0 and 0.10 s for a reading of at most
    1000 counts, and between 0.12 s and 1.57 s for a larger one. *)
Theorem regular_tiempo_rango (ent : Semaforos.Entradas) (s : Semaforos.Estado) :
  exists z : Z,
    Semaforos.regular_tiempo ent s =
      (z # 100,
       Semaforos.mkEstado (Semaforos.estado s) (Semaforos.n_barrera s)
         (S (Semaforos.n_ajuste s)),
       [Semaforos.EvAjuste
          (Semaforos.ajuste_tiempo ent (Semaforos.n_ajuste s) mod 65536)]) /\
    0 <= z <= 157 /\
    (Semaforos.ajuste_tiempo ent (Semaforos.n_ajuste s) mod 65536 <= 1000 ->
     z <= 10) /\
    (1000 < Semaforos.ajuste_tiempo ent (Semaforos.n_ajuste s) mod 65536 ->
     12 <= z).
Proof. exact (regular_tiempo_run ent s). Qed.

Lemma get_estado_run (ent : Semaforos.Entradas) (s : Semaforos.Estado) :
  Semaforos.get_estado ent s =
  ((if Semaforos.barrera_value ent (Semaforos.n_barrera s)
    then "Sensando" else "En espera")%string,
   Semaforos.mkEstado (Semaforos.barrera_value ent (Semaforos.n_barrera s))
     (S (Semaforos.n_barrera s)) (Semaforos.n_ajuste s),
   [Semaforos.EvBarrera (Semaforos.barrera_value ent (Semaforos.n_barrera s))]).
Proof.
  unfold Semaforos.get_estado, Semaforos.sensar, Semaforos.bind,
    Semaforos.barrera_read, Semaforos.set_estado, Semaforos.ret.
  destruct (Semaforos.barrera_value ent (Semaforos.n_barrera s)); reflexivity.
Qed.

(** [leer_barrera] in closed form: what it returns, the state it leaves
    and the events it emits, the sleep being the delay that [regular_tiempo]
    computes between the two looks. *)
Lemma leer_barrera_retardo (ent : Semaforos.Entradas) (s : Semaforos.Estado) :
  (Semaforos.barrera_value ent (Semaforos.n_barrera s) = false ->
     Semaforos.leer_barrera ent s =
       (None,
        Semaforos.mkEstado false (S (Semaforos.n_barrera s)) (Semaforos.n_ajuste s),
        [Semaforos.EvBarrera false])) /\
  (Semaforos.barrera_value ent (Semaforos.n_barrera s) = true ->
     exists (t : Q) (z : Z),
       Semaforos.regular_tiempo ent
         (Semaforos.mkEstado true (S (Semaforos.n_barrera s)) (Semaforos.n_ajuste s))
       = (t,
          Semaforos.mkEstado true (S (Semaforos.n_barrera s))
            (S (Semaforos.n_ajuste s)),
          [Semaforos.EvAjuste
             (Semaforos.ajuste_tiempo ent (Semaforos.n_ajuste s) mod 65536)]) /\
       t = z # 100 /\ 0 <= z <= 157 /\
       Semaforos.leer_barrera ent s =
         (Some (Semaforos.barrera_value ent (S (Semaforos.n_barrera s))),
          Semaforos.mkEstado
            (Semaforos.barrera_value ent (S (Semaforos.n_barrera s)))
            (S (S (Semaforos.n_barrera s))) (S (Semaforos.n_ajuste s)),
          [Semaforos.EvBarrera true;
           Semaforos.EvAjuste
             (Semaforos.ajuste_tiempo ent (Semaforos.n_ajuste s) mod 65536);
           Semaforos.EvSleep t;
           Semaforos.EvBarrera
             (Semaforos.barrera_value ent (S (Semaforos.n_barrera s)))])).
Proof.
  split; intros Hv.
  - unfold Semaforos.leer_barrera. unfold Semaforos.bind at 1.
    rewrite get_estado_run, Hv. reflexivity.
  - destruct (regular_tiempo_run ent
                (Semaforos.mkEstado true (S (Semaforos.n_barrera s))
                   (Semaforos.n_ajuste s))) as (z & Hrt & Hz & _).
    cbn [Semaforos.estado Semaforos.n_barrera Semaforos.n_ajuste] in Hrt.
    exists (z # 100), z. split; [exact Hrt|]. split; [reflexivity|].
    split; [exact Hz|].
    unfold Semaforos.leer_barrera. unfold Semaforos.bind at 1.
    rewrite get_estado_run, Hv.
    change (("Sensando" =? "Sensando")%string) with true. cbv iota.
    unfold Semaforos.bind at 1. rewrite Hrt.
    unfold Semaforos.bind at 1. unfold Semaforos.emit.
    unfold Semaforos.bind at 1. rewrite get_estado_run.
    cbn [Semaforos.estado Semaforos.n_barrera Semaforos.n_ajuste].
    destruct (Semaforos.barrera_value ent (S (Semaforos.n_barrera s)));
      reflexivity.
Qed.

Lemma leer_barrera_run (ent : Semaforos.Entradas) (s : Semaforos.Estado) :
  exists (s' : Semaforos.Estado) (ev : list Semaforos.evento),
    Semaforos.leer_barrera ent s =
      ((if Semaforos.barrera_value ent (Semaforos.n_barrera s)
        then Some (Semaforos.barrera_value ent (S (Semaforos.n_barrera s)))
        else None), s', ev) /\
    (Semaforos.barrera_value ent (Semaforos.n_barrera s) = false ->
       ev = [Semaforos.EvBarrera false] /\
       Semaforos.estado s' = false /\
       Semaforos.n_barrera s' = S (Semaforos.n_barrera s) /\
       Semaforos.n_ajuste s' = Semaforos.n_ajuste s) /\
    (Semaforos.barrera_value ent (Semaforos.n_barrera s) = true ->
       exists z : Z,
         0 <= z <= 157 /\
         ev = [Semaforos.EvBarrera true;
               Semaforos.EvAjuste
                 (Semaforos.ajuste_tiempo ent (Semaforos.n_ajuste s) mod 65536);
               Semaforos.EvSleep (z # 100);
               Semaforos.EvBarrera
                 (Semaforos.barrera_value ent (S (Semaforos.n_barrera s)))] /\
         Semaforos.estado s' =
           Semaforos.barrera_value ent (S (Semaforos.n_barrera s)) /\
         Semaforos.n_barrera s' = S (S (Semaforos.n_barrera s))).
Proof.
  destruct (leer_barrera_retardo ent s) as [Hlow Hhigh].
  destruct (Semaforos.barrera_value ent (Semaforos.n_barrera s)).
  - destruct (Hhigh eq_refl) as (t & z & _ & -> & Hz & Hrun).
    eexists _, _. split; [exact Hrun|]. split; [intros; discriminate|].
    intros _. exists z. cbn. auto.
  - eexists _, _. split; [exact (Hlow eq_refl)|]. split; [|intros; discriminate].
    intros _. cbn. auto.
Qed.

(** X13. [leer_barrera] confirms a detection with a second look. When the
    barrier reads free it returns [None] at once, without reading the knob
    or sleeping, and [Barrera.__estado] is false. When it reads busy it calls
    [regular_tiempo], which reads the knob once, sleeps for exactly the delay
    that call returned (a multiple of 0.01 s, at most 1.57 s), reads the
    barrier again and returns [True] if it is still busy and [False] if not;
    [Barrera.__estado] ends equal to the second level read. *)
Theorem leer_barrera_confirma (ent : Semaforos.Entradas) (s : Semaforos.Estado) :
  (Semaforos.barrera_value ent (Semaforos.n_barrera s) = false ->
     Semaforos.leer_barrera ent s =
       (None,
        Semaforos.mkEstado false (S (Semaforos.n_barrera s)) (Semaforos.n_ajuste s),
        [Semaforos.EvBarrera false])) /\
  (Semaforos.barrera_value ent (Semaforos.n_barrera s) = true ->
     exists (t : Q) (z : Z),
       Semaforos.regular_tiempo ent
         (Semaforos.mkEstado true (S (Semaforos.n_barrera s)) (Semaforos.n_ajuste s))
       = (t,
          Semaforos.mkEstado true (S (Semaforos.n_barrera s))
            (S (Semaforos.n_ajuste s)),
          [Semaforos.EvAjuste
             (Semaforos.ajuste_tiempo ent (Semaforos.n_ajuste s) mod 65536)]) /\
       t = z # 100 /\ 0 <= z <= 157 /\
       Semaforos.leer_barrera ent s =
         (Some (Semaforos.barrera_value ent (S (Semaforos.n_barrera s))),
          Semaforos.mkEstado
            (Semaforos.barrera_value ent (S (Semaforos.n_barrera s)))
            (S (S (Semaforos.n_barrera s))) (S (Semaforos.n_ajuste s)),
          [Semaforos.EvBarrera true;
           Semaforos.EvAjuste
             (Semaforos.ajuste_tiempo ent (Semaforos.n_ajuste s) mod 65536);
           Semaforos.EvSleep t;
           Semaforos.EvBarrera
             (Semaforos.barrera_value ent (S (Semaforos.n_barrera s)))])).
Proof. exact (leer_barrera_retardo ent s). Qed.

Lemma control_luces_S (ent : Semaforos.Entradas) (k : nat) (s : Semaforos.Estado) :
  Semaforos.control_luces ent (S k) s =
  match Semaforos.leer_barrera ent s with
  | (r, s1, ev1) =>
      if Semaforos.verdadero r then
        match Semaforos.control_luces ent k s1 with
        | (b, s2, ev2) =>
            (b, s2,
             ev1 ++ [Semaforos.EvSalida Semaforos.Verde false;
                     Semaforos.EvSalida Semaforos.Roja true;
                     Semaforos.EvSalida Semaforos.BuzzerD true;
                     Semaforos.EvSalida Semaforos.BuzzerI true;
                     Semaforos.EvSleep 5] ++ ev2)
        end
      else
        (true, s1,
         ev1 ++ [Semaforos.EvSalida Semaforos.Roja false;
                 Semaforos.EvSalida Semaforos.BuzzerI false;
                 Semaforos.EvSalida Semaforos.BuzzerD false;
                 Semaforos.EvSalida Semaforos.Verde true])
  end.
Proof.
  cbn [Semaforos.control_luces]. unfold Semaforos.bind at 1.
  destruct (Semaforos.leer_barrera ent s) as [[r s1] ev1].
  destruct (Semaforos.verdadero r).
  - unfold Semaforos.apagar_luz_verde, Semaforos.encender_luz_roja,
      Semaforos.encender_buzzer, Semaforos.bind, Semaforos.emit.
    destruct (Semaforos.control_luces ent k s1) as [[b s2] ev2]. reflexivity.
  - reflexivity.
Qed.

(** The events of [leer_barrera] command no output. *)
Lemma leer_barrera_sin_salidas (ent : Semaforos.Entradas) (s : Semaforos.Estado) :
  forall (l : Semaforos.Luces) (resto : list Semaforos.evento),
    Semaforos.luces_tras l (snd (Semaforos.leer_barrera ent s) ++ resto)
      = Semaforos.luces_tras l resto /\
    Semaforos.verde_o_roja l (snd (Semaforos.leer_barrera ent s) ++ resto)
      = Semaforos.verde_o_roja l resto /\
    Semaforos.rojas (snd (Semaforos.leer_barrera ent s) ++ resto)
      = Semaforos.rojas resto.
Proof.
  intros l resto.
  destruct (leer_barrera_run ent s) as (s' & ev & Hrun & Hlow & Hhigh).
  rewrite Hrun. cbn [snd].
  destruct (Semaforos.barrera_value ent (Semaforos.n_barrera s)).
  - destruct (Hhigh eq_refl) as (z & _ & -> & _). repeat split; reflexivity.
  - destruct (Hlow eq_refl) as (-> & _). repeat split; reflexivity.
Qed.

(** X14. [control_luces] never lights green and red together, whatever
    the positions of the outputs when it is called and however long the
    barrier stays busy: it switches green off before red on, and red off
    before green on. When it returns, green is on and red and both buzzers
    are off. As long as it has not returned, red has been switched on once
    per confirmed detection. *)
Theorem control_luces_seguro (ent : Semaforos.Entradas) (fuel : nat)
    (s : Semaforos.Estado) (l0 : Semaforos.Luces) :
  exists (r : bool) (s' : Semaforos.Estado) (ev : list Semaforos.evento),
    Semaforos.control_luces ent fuel s = (r, s', ev) /\
    Semaforos.verde_o_roja l0 ev = true /\
    (r = true ->
       Semaforos.luces_tras l0 ev = Semaforos.mkLuces true false false false /\
       (Semaforos.rojas ev < fuel)%nat) /\
    (r = false -> Semaforos.rojas ev = fuel).
Proof.
  revert s l0. induction fuel as [|k IH]; intros s l0.
  - exists false, s, []. split; [reflexivity|]. split; [reflexivity|].
    split; [intros; discriminate|reflexivity].
  - rewrite control_luces_S.
    pose proof (leer_barrera_sin_salidas ent s) as Hlb.
    destruct (Semaforos.leer_barrera ent s) as [[r s1] ev1]. cbn [snd] in Hlb.
    destruct (Semaforos.verdadero r).
    + destruct (IH s1 (Semaforos.mkLuces false true true true))
        as (b & s2 & ev2 & Hrun & Hvr & Hret & Hloop).
      rewrite Hrun. exists b, s2. eexists. split; [reflexivity|].
      destruct (Hlb l0 ([Semaforos.EvSalida Semaforos.Verde false;
                         Semaforos.EvSalida Semaforos.Roja true;
                         Semaforos.EvSalida Semaforos.BuzzerD true;
                         Semaforos.EvSalida Semaforos.BuzzerI true;
                         Semaforos.EvSleep 5] ++ ev2)) as (Hl & Hv & Hr).
      rewrite Hl, Hv, Hr. cbn. rewrite ?andb_false_r. cbn.
      split; [exact Hvr|]. split.
      * intros Hb. destruct (Hret Hb) as [H1 H2]. split; [exact H1|lia].
      * intros Hb. now rewrite (Hloop Hb).
    + exists true, s1. eexists. split; [reflexivity|].
      destruct (Hlb l0 [Semaforos.EvSalida Semaforos.Roja false;
                        Semaforos.EvSalida Semaforos.BuzzerI false;
                        Semaforos.EvSalida Semaforos.BuzzerD false;
                        Semaforos.EvSalida Semaforos.Verde true]) as (Hl & Hv & Hr).
      rewrite Hl, Hv, Hr. cbn. rewrite ?andb_false_r. cbn.
      split; [reflexivity|]. split; [|intros; discriminate].
      intros _. split; [reflexivity|lia].
Qed.

(** X15. [control_luces] returns as soon as a detection is not confirmed:
    if the barrier reads busy on the first [2 j] reads that follow and free
    on one of the next two, the call returns after exactly [j] rounds of red
    light, however much longer it would have been allowed to loop. *)
Theorem control_luces_termina (ent : Semaforos.Entradas) (j extra : nat)
    (s : Semaforos.Estado) :
  (forall i, (i < 2 * j)%nat ->
     Semaforos.barrera_value ent (Semaforos.n_barrera s + i) = true) ->
  Semaforos.barrera_value ent (Semaforos.n_barrera s + 2 * j) = false \/
  Semaforos.barrera_value ent (Semaforos.n_barrera s + 2 * j + 1) = false ->
  exists (s' : Semaforos.Estado) (ev : list Semaforos.evento),
    Semaforos.control_luces ent (S j + extra) s = (true, s', ev) /\
    Semaforos.rojas ev = j.
Proof.
  revert s. induction j as [|j IH]; intros s Hbusy Hfree.
  - cbn [Nat.add]. rewrite control_luces_S.
    pose proof (leer_barrera_sin_salidas ent s) as Hlb.
    destruct (leer_barrera_run ent s) as (s1 & ev1 & Hrun & _ & _).
    rewrite Hrun in *. cbn [snd] in Hlb.
    rewrite Nat.mul_0_r, !Nat.add_0_r, Nat.add_1_r in Hfree.
    assert (Hr : Semaforos.verdadero
                   (if Semaforos.barrera_value ent (Semaforos.n_barrera s)
                    then Some (Semaforos.barrera_value ent (S (Semaforos.n_barrera s)))
                    else None) = false).
    { destruct Hfree as [-> | H]; [reflexivity|].
      rewrite H. now destruct (Semaforos.barrera_value ent (Semaforos.n_barrera s)). }
    rewrite Hr. eexists _, _. split; [reflexivity|].
    destruct (Hlb (Semaforos.mkLuces false false false false)
                [Semaforos.EvSalida Semaforos.Roja false;
                 Semaforos.EvSalida Semaforos.BuzzerI false;
                 Semaforos.EvSalida Semaforos.BuzzerD false;
                 Semaforos.EvSalida Semaforos.Verde true]) as (_ & _ & Hroj).
    rewrite Hroj. reflexivity.
  - change (S (S j) + extra)%nat with (S (S j + extra)).
    rewrite control_luces_S.
    pose proof (leer_barrera_sin_salidas ent s) as Hlb.
    destruct (leer_barrera_run ent s) as (s1 & ev1 & Hrun & _ & Hhigh).
    rewrite Hrun in *. cbn [snd] in Hlb.
    assert (H0 : Semaforos.barrera_value ent (Semaforos.n_barrera s) = true).
    { rewrite <- (Nat.add_0_r (Semaforos.n_barrera s)). apply Hbusy. lia. }
    assert (H1 : Semaforos.barrera_value ent (S (Semaforos.n_barrera s)) = true).
    { rewrite <- Nat.add_1_r. apply Hbusy. lia. }
    destruct (Hhigh H0) as (z & _ & _ & _ & Hn1).
    rewrite H0, H1. cbn [Semaforos.verdadero].
    destruct (IH s1) as (s2 & ev2 & Hrec & Hroj).
    { intros i Hi. rewrite Hn1.
      replace (S (S (Semaforos.n_barrera s)) + i)%nat
        with (Semaforos.n_barrera s + (2 + i))%nat by lia.
      apply Hbusy. lia. }
    { rewrite Hn1.
      replace (S (S (Semaforos.n_barrera s)) + 2 * j)%nat
        with (Semaforos.n_barrera s + 2 * S j)%nat by lia.
      exact Hfree. }
    rewrite Hrec. eexists _, _. split; [reflexivity|].
    destruct (Hlb (Semaforos.mkLuces false false false false)
                ([Semaforos.EvSalida Semaforos.Verde false;
                  Semaforos.EvSalida Semaforos.Roja true;
                  Semaforos.EvSalida Semaforos.BuzzerD true;
                  Semaforos.EvSalida Semaforos.BuzzerI true;
                  Semaforos.EvSleep 5] ++ ev2)) as (_ & _ & Hr').
    rewrite Hr'. cbn. now rewrite Hroj.
Qed.

Lemma control_luces_termina_witness :
  exists (s' : Semaforos.Estado) (ev : list Semaforos.evento),
    Semaforos.control_luces (Semaforos.ent_un_paso 40000) (S 1 + 5)
      Semaforos.estado_inicial = (true, s', ev) /\
    Semaforos.rojas ev = 1%nat.
Proof.
  apply (control_luces_termina (Semaforos.ent_un_paso 40000) 1 5
           Semaforos.estado_inicial).
  - intros i Hi. cbn. destruct i as [|[|i]]; [reflexivity|reflexivity|lia].
  - left. reflexivity.
Defined.

(** * Properties of the time switch *)

Lemma obtener_hora_run (ent : HoraWifi.Entradas) (s : HoraWifi.Estado) :
  HoraWifi.obtener_hora ent s =
  (match HoraWifi.ntp ent (HoraWifi.n_ntp s) with
   | HoraWifi.Hora t => HoraWifi.Normal (Some t)
   | HoraWifi.Falla HoraWifi.OverflowError => HoraWifi.Normal None
   | HoraWifi.Falla e => HoraWifi.Lanza e
   end,
   HoraWifi.mkEstado (S (HoraWifi.n_ntp s)) (HoraWifi.n_manual s),
   [HoraWifi.EvSettime]).
Proof.
  unfold HoraWifi.obtener_hora, HoraWifi.try_except, HoraWifi.bind,
    HoraWifi.settime_localtime, HoraWifi.ret.
  destruct (HoraWifi.ntp ent (HoraWifi.n_ntp s)) as [t|[| |]]; reflexivity.
Qed.

(** X16. When the clock is synchronised and reads hour [h],
    [activar_salida] switches the lamp on if [3 <= h <= 9] or
    [22 <= h <= 26], without reading the manual input; at any other hour it
    reads the manual input once and sets the lamp to its level. In
    particular at the hours 0, 1 and 2 the time window does not light the
    lamp: only the manual input does. *)
Theorem activar_salida_horario (ent : HoraWifi.Entradas) (s : HoraWifi.Estado)
    (t : HoraWifi.struct_time) :
  HoraWifi.ntp ent (HoraWifi.n_ntp s) = HoraWifi.Hora t ->
  exists (s' : HoraWifi.Estado) (ev : list HoraWifi.evento),
    HoraWifi.activar_salida ent s = (HoraWifi.Normal tt, s', ev) /\
    (3 <= HoraWifi.tm_hour t <= 9 \/ 22 <= HoraWifi.tm_hour t <= 26 ->
       ev = [HoraWifi.EvSettime; HoraWifi.EvSalida true] /\
       HoraWifi.n_manual s' = HoraWifi.n_manual s) /\
    (~ (3 <= HoraWifi.tm_hour t <= 9 \/ 22 <= HoraWifi.tm_hour t <= 26) ->
       ev = [HoraWifi.EvSettime;
             HoraWifi.EvManual (HoraWifi.ent_manual ent (HoraWifi.n_manual s));
             HoraWifi.EvSalida (HoraWifi.ent_manual ent (HoraWifi.n_manual s))] /\
       HoraWifi.n_manual s' = S (HoraWifi.n_manual s)) /\
    (0 <= HoraWifi.tm_hour t <= 2 ->
       ev = [HoraWifi.EvSettime;
             HoraWifi.EvManual (HoraWifi.ent_manual ent (HoraWifi.n_manual s));
             HoraWifi.EvSalida (HoraWifi.ent_manual ent (HoraWifi.n_manual s))]).
Proof.
  intros Hntp. unfold HoraWifi.activar_salida. unfold HoraWifi.bind at 1.
  rewrite obtener_hora_run, Hntp.
  set (h := HoraWifi.tm_hour t).
  destruct (((h - 3 >=? 0) && (h - 3 <? 7)) || ((h - 3 >=? 19) && (h - 3 <=? 23)))
    eqn:Hc.
  - assert (Hin : 3 <= h <= 9 \/ 22 <= h <= 26).
    { apply orb_true_iff in Hc. destruct Hc as [Hc|Hc];
        apply andb_true_iff in Hc; destruct Hc as [Ha Hb]; lia. }
    eexists _, _. split; [reflexivity|].
    split; [intros _; split; reflexivity|].
    split; [intros Hn; exfalso; exact (Hn Hin)|]. intros H. exfalso. lia.
  - assert (Hout : ~ (3 <= h <= 9 \/ 22 <= h <= 26)).
    { intros Hin. apply orb_false_iff in Hc. destruct Hc as [Ha Hb].
      apply andb_false_iff in Ha, Hb. lia. }
    unfold HoraWifi.bind, HoraWifi.manual_read, HoraWifi.emit.
    cbn [HoraWifi.n_manual HoraWifi.n_ntp].
    destruct (HoraWifi.ent_manual ent (HoraWifi.n_manual s));
      (eexists _, _; split; [reflexivity|];
       split; [intros Hin; exfalso; exact (Hout Hin)|];
       split; [intros _; split; reflexivity|]; intros _; reflexivity).
Qed.

Lemma activar_salida_horario_witness :
  exists (s' : HoraWifi.Estado) (ev : list HoraWifi.evento),
    HoraWifi.activar_salida HoraWifi.ent_ok (HoraWifi.mkEstado 0 0)
      = (HoraWifi.Normal tt, s', ev) /\
    (3 <= HoraWifi.tm_hour HoraWifi.a_las_22 <= 9 \/
     22 <= HoraWifi.tm_hour HoraWifi.a_las_22 <= 26 ->
       ev = [HoraWifi.EvSettime; HoraWifi.EvSalida true] /\
       HoraWifi.n_manual s' = HoraWifi.n_manual (HoraWifi.mkEstado 0 0)) /\
    (~ (3 <= HoraWifi.tm_hour HoraWifi.a_las_22 <= 9 \/
        22 <= HoraWifi.tm_hour HoraWifi.a_las_22 <= 26) ->
       ev = [HoraWifi.EvSettime;
             HoraWifi.EvManual
               (HoraWifi.ent_manual HoraWifi.ent_ok
                  (HoraWifi.n_manual (HoraWifi.mkEstado 0 0)));
             HoraWifi.EvSalida
               (HoraWifi.ent_manual HoraWifi.ent_ok
                  (HoraWifi.n_manual (HoraWifi.mkEstado 0 0)))] /\
       HoraWifi.n_manual s' = S (HoraWifi.n_manual (HoraWifi.mkEstado 0 0))) /\
    (0 <= HoraWifi.tm_hour HoraWifi.a_las_22 <= 2 ->
       ev = [HoraWifi.EvSettime;
             HoraWifi.EvManual
               (HoraWifi.ent_manual HoraWifi.ent_ok
                  (HoraWifi.n_manual (HoraWifi.mkEstado 0 0)));
             HoraWifi.EvSalida
               (HoraWifi.ent_manual HoraWifi.ent_ok
                  (HoraWifi.n_manual (HoraWifi.mkEstado 0 0)))]).
Proof.
  apply (activar_salida_horario HoraWifi.ent_ok (HoraWifi.mkEstado 0 0)
           HoraWifi.a_las_22).
  reflexivity.
Defined.

(** X17. A failed synchronisation never reaches the lamp. On an
    [OverflowError] [obtener_hora] returns [None] and [activar_salida] raises
    a [TypeError] when it subscripts it; any other error passes through both.
    Either way the body of the loop swallows the error: it returns normally
    having neither read the manual input, nor written the output, nor slept
    its 10 seconds. After a successful synchronisation it writes the output
    exactly once and then sleeps 10 seconds. *)
Theorem cuerpo_bucle_errores (ent : HoraWifi.Entradas) (s : HoraWifi.Estado) :
  (forall e : HoraWifi.excepcion,
     HoraWifi.ntp ent (HoraWifi.n_ntp s) = HoraWifi.Falla e ->
     HoraWifi.obtener_hora ent s =
       ((match e with
         | HoraWifi.OverflowError => HoraWifi.Normal None
         | _ => HoraWifi.Lanza e
         end),
        HoraWifi.mkEstado (S (HoraWifi.n_ntp s)) (HoraWifi.n_manual s),
        [HoraWifi.EvSettime]) /\
     HoraWifi.activar_salida ent s =
       (HoraWifi.Lanza
          (match e with HoraWifi.OverflowError => HoraWifi.TypeError | _ => e end),
        HoraWifi.mkEstado (S (HoraWifi.n_ntp s)) (HoraWifi.n_manual s),
        [HoraWifi.EvSettime]) /\
     HoraWifi.cuerpo_bucle ent s =
       (HoraWifi.Normal tt,
        HoraWifi.mkEstado (S (HoraWifi.n_ntp s)) (HoraWifi.n_manual s),
        [HoraWifi.EvSettime])) /\
  (forall t : HoraWifi.struct_time,
     HoraWifi.ntp ent (HoraWifi.n_ntp s) = HoraWifi.Hora t ->
     exists (s' : HoraWifi.Estado) (v : bool) (ev : list HoraWifi.evento),
       HoraWifi.cuerpo_bucle ent s =
         (HoraWifi.Normal tt, s',
          HoraWifi.EvSettime :: ev ++ [HoraWifi.EvSalida v; HoraWifi.EvSleep 10]) /\
       (ev = [] \/ ev = [HoraWifi.EvManual v])).
Proof.
  split.
  - intros e He.
    assert (Ho : HoraWifi.obtener_hora ent s =
                 ((match e with
                   | HoraWifi.OverflowError => HoraWifi.Normal None
                   | _ => HoraWifi.Lanza e
                   end),
                  HoraWifi.mkEstado (S (HoraWifi.n_ntp s)) (HoraWifi.n_manual s),
                  [HoraWifi.EvSettime])).
    { rewrite obtener_hora_run, He. destruct e; reflexivity. }
    assert (Ha : HoraWifi.activar_salida ent s =
                 (HoraWifi.Lanza
                    (match e with
                     | HoraWifi.OverflowError => HoraWifi.TypeError
                     | _ => e
                     end),
                  HoraWifi.mkEstado (S (HoraWifi.n_ntp s)) (HoraWifi.n_manual s),
                  [HoraWifi.EvSettime])).
    { unfold HoraWifi.activar_salida. unfold HoraWifi.bind at 1. rewrite Ho.
      destruct e; reflexivity. }
    split; [exact Ho|]. split; [exact Ha|].
    unfold HoraWifi.cuerpo_bucle, HoraWifi.try_except. unfold HoraWifi.bind at 1.
    rewrite Ha. reflexivity.
  - intros t Ht.
    unfold HoraWifi.cuerpo_bucle, HoraWifi.try_except. unfold HoraWifi.bind at 1.
    unfold HoraWifi.activar_salida. unfold HoraWifi.bind at 1.
    rewrite obtener_hora_run, Ht.
    destruct (((HoraWifi.tm_hour t - 3 >=? 0) && (HoraWifi.tm_hour t - 3 <? 7))
              || ((HoraWifi.tm_hour t - 3 >=? 19) && (HoraWifi.tm_hour t - 3 <=? 23))).
    + eexists _, true, []. split; [reflexivity|]. now left.
    + unfold HoraWifi.bind, HoraWifi.manual_read, HoraWifi.emit.
      cbn [HoraWifi.n_manual HoraWifi.n_ntp].
      destruct (HoraWifi.ent_manual ent (HoraWifi.n_manual s)).
      * eexists _, true, [HoraWifi.EvManual true]. split; [reflexivity|]. now right.
      * eexists _, false, [HoraWifi.EvManual false]. split; [reflexivity|]. now right.
Qed.
